(** * Triple validation engine: src/validation/comprehensive_validator.py

    A shallow embedding of the three validation stages, the consensus
    aggregator and the batch orchestrator, with the properties the
    specification states about them.

    Modelling conventions.
    - A Python value ([Any]) is a [pyval]; a record is a [VDict] over a
      [gmap string pyval].
    - The scores and confidences, which are Python floats, are modelled by
      exact rationals [Q]; equalities between them are stated with [Qeq].
      The one division whose result is compared with thresholds, that of the
      consistency check of Stage 2, is modelled as the interpreter performs
      it: the quotient is rounded to the nearest binary64 number, an
      [int] beyond the range of the floats raises OverflowError and a float
      quotient beyond it is an infinity.  A float of the data is a rational;
      NaN and infinities among the data are outside the model.
    - Python strings are modelled by [string]; [len] is the number of
      characters of the model and [lower] folds the letters A-Z.
    - [datetime.now()] reads the clock kept in the state of the monad [run],
      which also carries raised exceptions.  The clock is the sequence of
      the readings to come and nothing is assumed of it: a reading may
      repeat or precede the one before.
    - [json.dumps] raises ValueError on an [int] of more digits than the
      interpreter converts to text, 4300 unless it is reconfigured.  The
      exhaustion of memory or of the interpreter's stack is outside the
      model.
    - Calls to [logger] have no effect on any result and are left out. *)

From Stdlib Require Import ZArith QArith Qminmax Qabs Qfield Lqa List Lia Permutation.
From stdpp Require Import gmap strings list fin_maps pretty.

#[local] Set Warnings "-register-all".

(** ** Python values *)

Inductive pyval : Type :=
  | VNone
  | VBool (b : bool)
  | VInt (z : Z)
  | VFloat (q : Q)
  | VStr (s : string)
  | VList (l : list pyval)
  | VDict (d : gmap string pyval).

(** [bool(v)] *)
Definition truthy (v : pyval) : bool :=
  match v with
  | VNone => false
  | VBool b => b
  | VInt z => negb (z =? 0)%Z
  | VFloat q => negb (Qeq_bool q 0%Q)
  | VStr s => negb (String.eqb s "")
  | VList l => match l with [] => false | _ => true end
  | VDict d => negb (bool_decide (d = ∅))
  end.

(** [type(v).__name__] *)
Definition type_name (v : pyval) : string :=
  match v with
  | VNone => "NoneType"
  | VBool _ => "bool"
  | VInt _ => "int"
  | VFloat _ => "float"
  | VStr _ => "str"
  | VList _ => "list"
  | VDict _ => "dict"
  end.

(** [isinstance(v, (int, float))]; [bool] is a subclass of [int]. *)
Definition is_int_or_float (v : pyval) : bool :=
  match v with
  | VBool _ | VInt _ | VFloat _ => true
  | _ => false
  end.

(** The numeric value of an [int], [bool] or [float]. *)
Definition num (v : pyval) : Q :=
  match v with
  | VBool true => 1%Q
  | VInt z => inject_Z z
  | VFloat q => q
  | _ => 0%Q
  end.

(** [v is None or v == ''] *)
Definition is_none_or_empty_str (v : pyval) : bool :=
  match v with
  | VNone => true
  | VStr s => String.eqb s ""
  | _ => false
  end.

(** [data if isinstance(data, list) else [data]] *)
Definition items_of (data : pyval) : list pyval :=
  match data with
  | VList l => l
  | _ => [data]
  end.

(** ** Exceptions and the clock *)

Inductive exn : Type :=
  | TypeError (msg : string)
  | ValueError (msg : string)
  | OverflowError (msg : string)
  | ZeroDivisionError (msg : string)
  | InvalidStateError.

(** A reading of the wall clock. *)
Definition time := nat.

(** The clock: the readings that the calls of [datetime.now()] to come will
    return, the next one at position 0.  The readings may be any sequence. *)
Definition clock := nat -> time.

(** The clock after [k] more readings. *)
Definition later (k : nat) (c : clock) : clock := fun n => c (k + n)%nat.

(** The clock that reads [t] and advances by one unit at each reading, and
    the clock that stands still at [t]. *)
Definition ticking (t : time) : clock := fun n => (t + n)%nat.
Definition stopped (t : time) : clock := fun _ => t.

(** A computation reads the clock and either returns or raises. *)
Definition run (A : Type) : Type := clock -> (exn + A) * clock.

#[global] Instance run_ret : MRet run := fun A a c => (inr a, c).

#[global] Instance run_bind : MBind run := fun A B f m c =>
  match m c with
  | (inl e, c') => (inl e, c')
  | (inr a, c') => f a c'
  end.

Definition raise {A} (e : exn) : run A := fun c => (inl e, c).

(** A call that does not read the clock, as a computation. *)
Definition lift {A} (x : exn + A) : run A := fun c => (x, c).

(** [datetime.now()] *)
Definition now : run time := fun c => (inr (c 0%nat), later 1 c).

(** What a computation started at clock [c] yields. *)
Definition outcome {A} (m : run A) (c : clock) : exn + A := fst (m c).

(** [len(v)] *)
Definition py_len (v : pyval) : run nat :=
  match v with
  | VStr s => mret (String.length s)
  | VList l => mret (length l)
  | VDict d => mret (size d)
  | _ => raise (TypeError ("object of type '" +:+ type_name v +:+ "' has no len()"))
  end.

(** ** Enumerations and result records *)

Inductive ValidationLevel : Type := STRICT | STANDARD | RELAXED.

Inductive ValidationStatus : Type := PASSED | FAILED | WARNING | PENDING.

#[global] Instance ValidationStatus_eq_dec : EqDecision ValidationStatus.
Proof. solve_decision. Defined.

Module ValidationStatus.
(** [status.value] *)
Definition value (s : ValidationStatus) : string :=
  match s with
  | PASSED => "passed"
  | FAILED => "failed"
  | WARNING => "warning"
  | PENDING => "pending"
  end.
End ValidationStatus.

Module ValidationLevel.
(** [level.value] *)
Definition value (l : ValidationLevel) : string :=
  match l with
  | STRICT => "strict"
  | STANDARD => "standard"
  | RELAXED => "relaxed"
  end.
End ValidationLevel.

(** [datetime.isoformat()] and [datetime.strftime(...)] of a reading of the
    clock. *)
Definition isoformat (t : time) : string := pretty t.

Definition str_list (l : list string) : pyval := VList (map VStr l).

Record ValidationResult : Type := mkValidationResult {
  step : string;
  status : ValidationStatus;
  score : Q;
  confidence : Q;
  errors : list string;
  warnings : list string;
  details : gmap string pyval;
  timestamp : time
}.

Module ValidationResult.

Definition to_dict (self : ValidationResult) : gmap string pyval :=
  {[ "step" := VStr (step self);
     "status" := VStr (ValidationStatus.value (status self));
     "score" := VFloat (score self);
     "confidence" := VFloat (confidence self);
     "errors" := str_list (errors self);
     "warnings" := str_list (warnings self);
     "details" := VDict (details self);
     "timestamp" := VStr (isoformat (timestamp self)) ]}.

End ValidationResult.

(** The identifier [f"val_{timestamp}_{hash_val}"], kept as its two
    sources: the clock reading that is formatted and the content whose MD5
    digest is taken.  It is rendered by [ValidationId.render]. *)
Record ValidationId : Type := mkValidationId {
  id_timestamp : time;
  id_content : pyval
}.

Module ValidationId.

(** The text of an identifier; [digest] stands for
    [hashlib.md5(json.dumps(data, sort_keys=True, default=str).encode()).hexdigest()[:8]]. *)
Definition render (digest : pyval -> string) (v : ValidationId) : string :=
  "val_" +:+ isoformat (id_timestamp v) +:+ "_" +:+ digest (id_content v).

End ValidationId.

Record TripleValidationReport : Type := mkReport {
  validation_id : ValidationId;
  data_type : string;
  level : ValidationLevel;
  step1_result : option ValidationResult;
  step2_result : option ValidationResult;
  step3_result : option ValidationResult;
  overall_status : ValidationStatus;
  overall_score : Q;
  overall_confidence : Q;
  start_time : time;
  end_time : option time
}.

(** ** Consensus aggregator *)

Module TripleValidationReport.

Definition weights : list Q := [4 # 10; 35 # 100; 25 # 100].

(** [weights[i] if i < len(weights) else weights[-1]] *)
Definition weight_at (i : nat) : Q :=
  if (i <? length weights)%nat then List.nth i weights 0%Q else List.last weights 0%Q.

(** The loop [for i, result in enumerate(results)] with its two
    accumulators. *)
Fixpoint accumulate (i : nat) (results : list ValidationResult)
    (total_score total_confidence : Q) : Q * Q :=
  match results with
  | [] => (total_score, total_confidence)
  | result :: rest =>
      let weight := weight_at i in
      accumulate (S i) rest
        (total_score + score result * weight)%Q
        (total_confidence + confidence result * weight)%Q
  end.

(** The assignments [report.stepN_result = r]. *)
Definition with_step1 (report : TripleValidationReport) (r : ValidationResult)
    : TripleValidationReport :=
  mkReport (validation_id report) (data_type report)
    (level report) (Some r) (step2_result report)
    (step3_result report) (overall_status report) (overall_score report)
    (overall_confidence report) (start_time report) (end_time report).

Definition with_step2 (report : TripleValidationReport) (r : ValidationResult)
    : TripleValidationReport :=
  mkReport (validation_id report) (data_type report)
    (level report) (step1_result report) (Some r)
    (step3_result report) (overall_status report) (overall_score report)
    (overall_confidence report) (start_time report) (end_time report).

Definition with_step3 (report : TripleValidationReport) (r : ValidationResult)
    : TripleValidationReport :=
  mkReport (validation_id report) (data_type report)
    (level report) (step1_result report) (step2_result report)
    (Some r) (overall_status report) (overall_score report)
    (overall_confidence report) (start_time report) (end_time report).

Definition calculate_overall (self : TripleValidationReport)
    : run TripleValidationReport :=
  let results :=
    omap id [step1_result self; step2_result self; step3_result self] in
  match results with
  | [] => mret self
  | _ =>
      let '(total_score, total_confidence) := accumulate 0 results 0%Q 0%Q in
      let all_passed :=
        forallb (fun r => bool_decide (status r = PASSED)) results in
      let any_failed :=
        existsb (fun r => bool_decide (status r = FAILED)) results in
      let overall :=
        if all_passed then PASSED
        else if any_failed then FAILED
        else WARNING in
      t ← now;
      mret {| validation_id := validation_id self;
              data_type := data_type self;
              level := level self;
              step1_result := step1_result self;
              step2_result := step2_result self;
              step3_result := step3_result self;
              overall_status := overall;
              overall_score := total_score;
              overall_confidence := total_confidence;
              start_time := start_time self;
              end_time := Some t |}
  end.

(** [x.to_dict() if x else None] *)
Definition step_dict (r : option ValidationResult) : pyval :=
  match r with
  | Some x => VDict (ValidationResult.to_dict x)
  | None => VNone
  end.

Definition to_dict (digest : pyval -> string) (self : TripleValidationReport)
    : gmap string pyval :=
  <[ "validation_id" :=
       VStr (ValidationId.render digest (validation_id self)) ]>
  (<[ "data_type" := VStr (data_type self) ]>
  (<[ "level" := VStr (ValidationLevel.value (level self)) ]>
  (<[ "step1" := step_dict (step1_result self) ]>
  (<[ "step2" := step_dict (step2_result self) ]>
  (<[ "step3" := step_dict (step3_result self) ]>
  (<[ "overall_status" := VStr (ValidationStatus.value (overall_status self)) ]>
  (<[ "overall_score" := VFloat (overall_score self) ]>
  (<[ "overall_confidence" := VFloat (overall_confidence self) ]>
  (<[ "start_time" := VStr (isoformat (start_time self)) ]>
  (<[ "end_time" :=
        match end_time self with
        | Some e => VStr (isoformat e)
        | None => VNone
        end ]>
  (<[ "duration_seconds" :=
        match end_time self with
        | Some e => VFloat (inject_Z (Z.of_nat e - Z.of_nat (start_time self)))
        | None => VNone
        end ]> ∅))))))))))).

End TripleValidationReport.

(** ** Arithmetic and string helpers of the Python runtime *)

(** [a < b] on floats *)
Definition Qltb (a b : Q) : bool := negb (Qle_bool b a).

(** [min(a, b)] and [max(a, b)]: the first argument unless the second is
    strictly smaller, respectively strictly larger. *)
Definition py_min (a b : Q) : Q := if Qltb b a then b else a.
Definition py_max (a b : Q) : Q := if Qltb a b then b else a.

(** [n / m] on two [int] counts *)
Definition ratio_of (n m : nat) : Q :=
  (inject_Z (Z.of_nat n) / inject_Z (Z.of_nat m))%Q.

(** *** Floats and the division [a / b]

    A float is a binary64 number: 53 significant bits, least exponent
    -1074, and every magnitude from [2 ** 1024] on is an infinity.  The
    result of an operation is the float nearest to the exact result and, of
    two nearest ones, the one whose last bit is 0. *)

(** [2 ** e] for an exponent of either sign *)
Definition pow2 (e : Z) : Q :=
  if (0 <=? e)%Z then inject_Z (2 ^ e) else 1 # Z.to_pos (2 ^ (- e)).

(** The fraction [n / d] divided by [2 ** e], as a numerator and a
    denominator. *)
Definition scale (n d e : Z) : Z * Z :=
  if (0 <=? e)%Z then (n, d * 2 ^ e)%Z else (n * 2 ^ (- e), d)%Z.

(** The integer nearest to [n / d] for [0 < d]; of two nearest ones, the
    even one. *)
Definition round_half_even (n d : Z) : Z :=
  let q := (n / d)%Z in
  let r := (n mod d)%Z in
  match (2 * r ?= d)%Z with
  | Lt => q
  | Gt => (q + 1)%Z
  | Eq => if Z.even q then q else (q + 1)%Z
  end.

(** The exponent [l] with [2 ** l <= n / d < 2 ** (l + 1)], for positive [n]
    and [d]. *)
Definition floor_log2 (n d : Z) : Z :=
  let l := (Z.log2 n - Z.log2 d)%Z in
  let '(n', d') := scale n d l in
  if (n' <? d')%Z then (l - 1)%Z else l.

(** The multiple of [2 ** e] nearest to the positive fraction [n / d], where
    [e] leaves 53 significant bits and is at least -1074. *)
Definition nearest_pos (n d : Z) : Q :=
  let e := Z.max (floor_log2 n d - 52) (-1074) in
  let '(n', d') := scale n d e in
  (inject_Z (round_half_even n' d') * pow2 e)%Q.

(** The rounding of an exact result, before the range is looked at. *)
Definition nearest (x : Q) : Q :=
  match Qnum x with
  | Z0 => 0%Q
  | Zpos p => nearest_pos (Zpos p) (Zpos (Qden x))
  | Zneg p => (- nearest_pos (Zpos p) (Zpos (Qden x)))%Q
  end.

(** A float that an operation returns: a number or an infinity. *)
Inductive pyfloat : Type :=
  | Finite (q : Q)
  | Infinity (negative : bool).

(** The float for the exact result [x]. *)
Definition to_float (x : Q) : pyfloat :=
  let y := nearest x in
  if Qle_bool (inject_Z (2 ^ 1024)) (Qabs y) then Infinity (Qltb y 0)
  else Finite y.

(** The value of an [int]; [bool] is a subclass of [int]. *)
Definition int_value (v : pyval) : option Z :=
  match v with
  | VInt z => Some z
  | VBool b => Some (Z.b2z b)
  | _ => None
  end.

(** [float(z)] on an [int] *)
Definition float_of_int (z : Z) : exn + Q :=
  match to_float (inject_Z z) with
  | Finite y => inr y
  | Infinity _ => inl (OverflowError "int too large to convert to float")
  end.

(** A number that is an operand of a float division, converted to a
    float. *)
Definition as_float (v : pyval) : exn + Q :=
  match v with
  | VFloat q => inr q
  | _ => float_of_int (default 0%Z (int_value v))
  end.

(** [a / b].  Two [int]s are divided exactly and the quotient is rounded
    once; it must be in the range of the floats.  Otherwise an [int]
    operand is first converted to a float, which must be in range, and the
    quotient of the two floats may be an infinity. *)
Definition true_div (a b : pyval) : exn + pyfloat :=
  if negb (is_int_or_float a && is_int_or_float b) then
    inl (TypeError ("unsupported operand type(s) for /: '" +:+ type_name a
                    +:+ "' and '" +:+ type_name b +:+ "'"))
  else
    match int_value a, int_value b with
    | Some x, Some y =>
        if (y =? 0)%Z then inl (ZeroDivisionError "division by zero")
        else
          match to_float (inject_Z x / inject_Z y) with
          | Finite q => inr (Finite q)
          | Infinity _ =>
              inl (OverflowError "integer division result too large for a float")
          end
    | _, _ =>
        match as_float a with
        | inl e => inl e
        | inr x =>
            match as_float b with
            | inl e => inl e
            | inr y =>
                if Qeq_bool y 0 then inl (ZeroDivisionError "float division by zero")
                else inr (to_float (x / y))
            end
        end
    end.

(** [a < b] and [a > b] between a float and a number *)
Definition float_lt (a : pyfloat) (b : Q) : bool :=
  match a with
  | Finite q => Qltb q b
  | Infinity negative => negative
  end.

Definition float_gt (a : pyfloat) (b : Q) : bool :=
  match a with
  | Finite q => Qltb b q
  | Infinity negative => negb negative
  end.

(** The literal [0.1]: the float nearest to 1/10. *)
Definition float_0_1 : Q := 3602879701896397 # 36028797018963968.

(** *** [json.dumps] *)

(** The number of decimal digits of the longest [int] that the interpreter
    converts to text, [sys.get_int_max_str_digits()]. *)
Definition int_max_str_digits : Z := 4300.

(** The least magnitude of more digits, [10 ** 4300], computed once. *)
Definition long_int_bound : Z := Eval vm_compute in (10 ^ int_max_str_digits)%Z.

(** The value holds, at any depth, an [int] of more digits. *)
Fixpoint has_long_int (v : pyval) : bool :=
  match v with
  | VInt z => (long_int_bound <=? Z.abs z)%Z
  | VList l => existsb has_long_int l
  | VDict d => map_fold (fun _ v acc => has_long_int v || acc) false d
  | _ => false
  end.

Definition long_int_message : string :=
  "Exceeds the limit (4300 digits) for integer string conversion; use sys.set_int_max_str_digits() to increase the limit".

(** [json.dumps(data, sort_keys=True, default=str)].  Every value of the
    model can be written; the text is not built, the value stands for it
    and [digest] is applied to the value.  The call raises when an [int]
    is too long to be converted. *)
Definition json_dumps (data : pyval) : exn + pyval :=
  if has_long_int data then inl (ValueError long_int_message) else inr data.

Definition lower_ascii (a : Ascii.ascii) : Ascii.ascii :=
  let n := Ascii.nat_of_ascii a in
  if (65 <=? n)%nat && (n <=? 90)%nat then Ascii.ascii_of_nat (n + 32) else a.

(** [s.lower()] *)
Fixpoint lower (s : string) : string :=
  match s with
  | EmptyString => EmptyString
  | String a s' => String (lower_ascii a) (lower s')
  end.

(** [x in s] on two strings *)
Fixpoint str_contains (x s : string) : bool :=
  String.prefix x s ||
  match s with
  | EmptyString => false
  | String _ s' => str_contains x s'
  end.

(** ** Stage 1: schema validation *)

Module SchemaValidator.

Definition SCHEMAS : gmap string (gmap string (list string)) :=
  {[ "lead" :=
       {[ "required" := ["id"; "source_url"; "scraped_at"];
          "optional" := ["address"; "price"; "property_type"; "status";
                         "owner_name"] ]};
     "property" :=
       {[ "required" := ["id"; "address"; "property_type"];
          "optional" := ["list_price"; "estimated_value"; "roi_percent";
                         "county"; "state"] ]};
     "intelligence" :=
       {[ "required" := ["id"; "type"; "source"; "timestamp"];
          "optional" := ["confidence"; "data"; "metadata"] ]};
     "repository" :=
       {[ "required" := ["name"; "full_name"];
          "optional" := ["description"; "language"; "stars"; "forks"] ]} ]}.

Record t : Type := mk {
  data_type : string;
  schema : gmap string (list string)
}.

Definition __init__ (data_type : string) : t :=
  {| data_type := data_type;
     schema := default (SCHEMAS !!! "lead") (SCHEMAS !! data_type) |}.

(** The loop [for field in self.schema.get('required', [])]. *)
Fixpoint required_loop (item : gmap string pyval) (path : string)
    (fields : list string) (errors : list string) : list string :=
  match fields with
  | [] => errors
  | field :: rest =>
      match item !! field with
      | None =>
          required_loop item path rest
            (errors ++ [path +:+ ": Missing required field '" +:+ field +:+ "'"])
      | Some v =>
          if is_none_or_empty_str v then
            required_loop item path rest
              (errors ++ [path +:+ ": Required field '" +:+ field +:+ "' is empty"])
          else required_loop item path rest errors
      end
  end.

Definition _validate_item (self : t) (item : pyval) (path : string)
    : list string :=
  match item with
  | VDict d =>
      required_loop d path (default [] (schema self !! "required")) []
  | _ => [path +:+ ": Expected dict, got " +:+ type_name item]
  end.

(** The loop [for i, item in enumerate(items)] with its accumulators
    [errors], [validated_count] and [total_count]. *)
Fixpoint validate_loop (self : t) (i : nat) (items : list pyval)
    (errors : list string) (validated_count total_count : nat)
    : list string * nat * nat :=
  match items with
  | [] => (errors, validated_count, total_count)
  | item :: rest =>
      let total_count := S total_count in
      let item_errors :=
        _validate_item self item ("item[" +:+ pretty i +:+ "]") in
      match item_errors with
      | [] => validate_loop self (S i) rest errors (S validated_count) total_count
      | _ => validate_loop self (S i) rest (errors ++ item_errors)
               validated_count total_count
      end
  end.

Definition validate (self : t) (data : pyval) : run ValidationResult :=
  let items := items_of data in
  let '(errors, validated_count, total_count) :=
    validate_loop self 0 items [] 0 0 in
  let score :=
    if (0 <? total_count)%nat then ratio_of validated_count total_count
    else 0%Q in
  let confidence := (1 - inject_Z (Z.of_nat (length errors)) * (1 # 10))%Q in
  let confidence := py_max 0 (py_min 1 confidence) in
  let status := match errors with [] => PASSED | _ => FAILED end in
  t ← now;
  mret {| step := "Schema Validation";
          status := status;
          score := score;
          confidence := confidence;
          errors := errors;
          warnings := [];
          details := {[ "total_items" := VInt (Z.of_nat total_count);
                        "validated_items" := VInt (Z.of_nat validated_count);
                        "schema_type" := VStr (data_type self) ]};
          timestamp := t |}.

End SchemaValidator.

(** ** Stage 2: cross-reference validation *)

Module CrossReferenceValidator.

(** [bool(id_value) and len(id_value) >= 1 and len(id_value) <= 256];
    [len] raises on a value that has no length. *)
Definition _validate_id_format (id_value : pyval) : run bool :=
  if truthy id_value then
    n ← py_len id_value;
    if (1 <=? n)%nat then
      n' ← py_len id_value; mret (n' <=? 256)%nat
    else mret false
  else mret false.

(** The guard is [price and estimated and isinstance(...)]; the ratio is
    [price / estimated if estimated != 0 else 0], a float whose division may
    raise, and it is compared by [ratio < 0.1 or ratio > 10]. *)
Definition _check_internal_consistency (item : gmap string pyval)
    : exn + bool :=
  match item !! "price", item !! "estimated_value" with
  | Some price, Some estimated =>
      if truthy price && truthy estimated
         && is_int_or_float price && is_int_or_float estimated
      then
        match (if negb (Qeq_bool (num estimated) 0)
               then true_div price estimated
               else inr (Finite 0)) with
        | inl e => inl e
        | inr ratio =>
            if float_lt ratio float_0_1 || float_gt ratio 10 then inr false
            else inr true
        end
      else inr true
  | _, _ => inr true
  end.

(** The identifier check of one record: [item_id and
    self._validate_id_format(item_id)] with [item_id = item.get('id', '')]. *)
Definition id_check (item : gmap string pyval) : run bool :=
  let item_id := default (VStr "") (item !! "id") in
  if truthy item_id then _validate_id_format item_id else mret false.

(** [if ok: matches += 1 else: mismatches += 1] *)
Definition tally (ok : bool) (matches mismatches : nat) : nat * nat :=
  if ok then (S matches, mismatches) else (matches, S mismatches).

(** The loop [for item in items] with its two counters. *)
Fixpoint validate_loop (items : list pyval) (matches mismatches : nat)
    : run (nat * nat) :=
  match items with
  | [] => mret (matches, mismatches)
  | item :: rest =>
      match item with
      | VDict d =>
          id_ok ← id_check d;
          let '(matches, mismatches) := tally id_ok matches mismatches in
          consistent ← lift (_check_internal_consistency d);
          let '(matches, mismatches) := tally consistent matches mismatches in
          validate_loop rest matches mismatches
      | _ => validate_loop rest matches mismatches
      end
  end.

Definition validate (data : pyval) : run ValidationResult :=
  let items := items_of data in
  '(matches, mismatches) ← validate_loop items 0 0;
  let total := (matches + mismatches)%nat in
  let score := if (0 <? total)%nat then ratio_of matches total else 1%Q in
  let status :=
    if (mismatches =? 0)%nat then PASSED
    else if Qle_bool (8 # 10) score then WARNING else FAILED in
  t ← now;
  mret {| step := "Cross-Reference Validation";
          status := status;
          score := score;
          confidence := score;
          errors := [];
          warnings := [];
          details := {[ "matches" := VInt (Z.of_nat matches);
                        "mismatches" := VInt (Z.of_nat mismatches);
                        "total_checks" := VInt (Z.of_nat total) ]};
          timestamp := t |}.

End CrossReferenceValidator.

(** ** Stage 3: external verification *)

Module ExternalVerifier.

Record t : Type := mk {
  gemini_api_key : option string;
  gcp_sa_key : option string
}.

(** The constructor reads the two credentials from [os.environ]. *)
Definition __init__ (environ : gmap string string) : t :=
  {| gemini_api_key := environ !! "GEMINI_API_KEY";
     gcp_sa_key := environ !! "GCP_SA_KEY" |}.

(** Truth value of an [Optional[str]]. *)
Definition configured (key : option string) : bool :=
  match key with
  | Some s => negb (String.eqb s "")
  | None => false
  end.

Definition markers : list string :=
  ["test"; "dummy"; "fake"; "xxx"; "placeholder"].

(** The loop [for key, value in item.items()] with its early return. *)
Fixpoint scan (kvs : list (string * pyval)) : bool :=
  match kvs with
  | [] => true
  | (key, value) :: rest =>
      match value with
      | VStr s =>
          let lower_val := lower s in
          if existsb (fun x => str_contains x lower_val) markers then false
          else scan rest
      | _ => scan rest
      end
  end.

Definition _is_reasonable_data (item : gmap string pyval) : bool :=
  scan (map_to_list item).

(** [isinstance(item, dict) and self._is_reasonable_data(item)] *)
Definition valid_item (item : pyval) : bool :=
  match item with
  | VDict d => _is_reasonable_data d
  | _ => false
  end.

Definition verification : Type := bool * string * string.

Definition v_ok (v : verification) : bool := fst (fst v).
Definition v_msg (v : verification) : string := snd v.

Definition validate (self : t) (data : pyval) : run ValidationResult :=
  let verifications : list verification :=
    if configured (gemini_api_key self)
    then [(true, "Gemini API", "API key present")]
    else [(false, "Gemini API", "API key not configured")] in
  let items := items_of data in
  let valid_items := length (List.filter valid_item items) in
  let ratio :=
    match items with
    | [] => 0%Q
    | _ => ratio_of valid_items (length items)
    end in
  let counts := pretty valid_items +:+ "/" +:+ pretty (length items) in
  let verifications :=
    if Qle_bool (9 # 10) ratio
    then verifications ++ [(true, "Data Patterns", counts +:+ " items valid")]
    else verifications
           ++ [(false, "Data Patterns", "Only " +:+ counts +:+ " items valid")] in
  let passed := length (List.filter v_ok verifications) in
  let total := length verifications in
  let score := if (0 <? total)%nat then ratio_of passed total else 0%Q in
  let status :=
    if (passed =? total)%nat then PASSED
    else if Qle_bool (5 # 10) score then WARNING else FAILED in
  t ← now;
  mret {| step := "External Verification";
          status := status;
          score := score;
          confidence := (score * (9 # 10))%Q;
          errors := map v_msg (List.filter (fun v => negb (v_ok v)) verifications);
          warnings := [];
          details := {[ "verified" := VInt (Z.of_nat passed);
                        "total" := VInt (Z.of_nat total) ]};
          timestamp := t |}.

End ExternalVerifier.

(** ** The event loop *)

(** [asyncio.gather] over the tasks, with [return_exceptions=False].  They run
    to completion one after the other in the order [sched] of their
    positions; each result is stored in the slot of its task; the first
    exception raised is propagated to the caller. *)
Fixpoint run_tasks {A} (tasks : list (run A)) (sched : list nat)
    (slots : list (option A)) : run (list (option A)) :=
  match sched with
  | [] => mret slots
  | i :: rest =>
      match tasks !! i with
      | Some task => r ← task; run_tasks tasks rest (<[i := Some r]> slots)
      | None => run_tasks tasks rest slots
      end
  end.

(** Reading the result of every task, in the order of the tasks; the result
    of a task that was never run is not set. *)
Fixpoint results_of {A} (slots : list (option A)) : run (list A) :=
  match slots with
  | [] => mret []
  | Some r :: rest => rs ← results_of rest; mret (r :: rs)
  | None :: _ => raise InvalidStateError
  end.

Definition gather {A} (sched : list nat) (tasks : list (run A))
    : run (list A) :=
  slots ← run_tasks tasks sched (replicate (length tasks) None);
  results_of slots.

(** ** The validator and the batch orchestrator *)

Module ComprehensiveValidator.

(** The cross-reference validator has no field and is not kept. *)
Record t : Type := mk {
  level : ValidationLevel;
  data_type : string;
  schema_validator : SchemaValidator.t;
  external_verifier : ExternalVerifier.t
}.

Definition __init__ (environ : gmap string string) (level : ValidationLevel)
    (data_type : string) : t :=
  {| level := level;
     data_type := data_type;
     schema_validator := SchemaValidator.__init__ data_type;
     external_verifier := ExternalVerifier.__init__ environ |}.

Definition _generate_validation_id (data : pyval) : run ValidationId :=
  data_str ← lift (json_dumps data);
  timestamp ← now;
  mret {| id_timestamp := timestamp; id_content := data_str |}.

Definition validate (self : t) (data : pyval) : run TripleValidationReport :=
  validation_id ← _generate_validation_id data;
  start ← now;
  let report :=
    mkReport validation_id (data_type self) (level self) None None None
      PENDING 0%Q 0%Q start None in
  r1 ← SchemaValidator.validate (schema_validator self) data;
  let report := TripleValidationReport.with_step1 report r1 in
  r2 ← CrossReferenceValidator.validate data;
  let report := TripleValidationReport.with_step2 report r2 in
  r3 ← ExternalVerifier.validate (external_verifier self) data;
  let report := TripleValidationReport.with_step3 report r3 in
  TripleValidationReport.calculate_overall report.

Definition validate_batch (sched : list nat) (self : t) (items : list pyval)
    : run (list TripleValidationReport) :=
  let tasks := map (validate self) items in
  gather sched tasks.

End ComprehensiveValidator.

Definition count_status (s : ValidationStatus)
    (reports : list TripleValidationReport) : nat :=
  length (List.filter (fun r => bool_decide (overall_status r = s)) reports).

Definition validate_all_intelligence (digest : pyval -> string)
    (environ : gmap string string) (sched : list nat) (data_list : list pyval)
    : run (gmap string pyval) :=
  let validator := ComprehensiveValidator.__init__ environ STRICT "lead" in
  reports ← ComprehensiveValidator.validate_batch sched validator data_list;
  let passed := count_status PASSED reports in
  let failed := count_status FAILED reports in
  mret {[ "total" := VInt (Z.of_nat (length reports));
          "passed" := VInt (Z.of_nat passed);
          "failed" := VInt (Z.of_nat failed);
          "pass_rate" :=
            match reports with
            | [] => VInt 0
            | _ => VFloat (ratio_of passed (length reports))
            end;
          "reports" :=
            VList (map (fun r => VDict (TripleValidationReport.to_dict digest r)) reports) ]}.

(** * Lead validation: src/validation/validation_system.py *)

(** [s.split(sep)] for a separator of one character *)
Fixpoint split_char (sep : Ascii.ascii) (s : string) : list string :=
  match s with
  | EmptyString => [EmptyString]
  | String ch s' =>
      if Ascii.eqb ch sep then EmptyString :: split_char sep s'
      else match split_char sep s' with
           | h :: t => String ch h :: t
           | [] => [String ch EmptyString]
           end
  end.

(** The character "@". *)
Definition at_sign : Ascii.ascii := Ascii.ascii_of_nat 64.

(** The text of a value that is known to be a string. *)
Definition str_of (v : option pyval) : string :=
  match v with
  | Some (VStr s) => s
  | _ => EmptyString
  end.

(** [field in d] *)
Definition has_key (d : gmap string pyval) (field : string) : bool :=
  match d !! field with
  | Some _ => true
  | None => false
  end.

(** [isinstance(v, str)] on the result of [dict.get] *)
Definition is_str (v : option pyval) : bool :=
  match v with
  | Some (VStr _) => true
  | _ => false
  end.

Module TripleValidation.

(** The three steps return a verdict and a confidence.  What the generative
    model replies is an input of Step 3: [Some q] when the call returns a
    text that [float] reads as [q], [None] when the call or the reading
    raises. *)
Definition step1_data_integrity (lead_data : gmap string pyval) : bool * Q :=
  let required_fields := ["id"; "name"; "email"] in
  let missing_fields :=
    List.filter (fun field => negb (has_key lead_data field)) required_fields in
  match missing_fields with
  | _ :: _ => (false, 0%Q)
  | [] =>
      if negb (is_str (lead_data !! "id")) || negb (is_str (lead_data !! "name"))
         || negb (is_str (lead_data !! "email"))
      then (false, 1 # 10)
      else
        let email := str_of (lead_data !! "email") in
        if negb (str_contains "@" email)
           || negb (str_contains "."
                      (List.last (split_char at_sign email) EmptyString))
        then (false, 2 # 10)
        else (true, 1%Q)
  end.

Definition verify_source_1 (lead_data : gmap string pyval) : run (bool * Q) :=
  mret (true, 9 # 10).

Definition verify_source_2 (lead_data : gmap string pyval) : run (bool * Q) :=
  mret (true, 95 # 100).

(** [sum(confidence for _, confidence in results)] *)
Definition sum_confidence (results : list (bool * Q)) : Q :=
  fold_left (fun acc result => (acc + snd result)%Q) results 0%Q.

Definition step2_parallel_verification (sched : list nat)
    (lead_data : gmap string pyval) : run (bool * Q) :=
  let tasks := [verify_source_1 lead_data; verify_source_2 lead_data] in
  results ← gather sched tasks;
  let successful_verifications := length (List.filter fst results) in
  if (successful_verifications =? 0)%nat then mret (false, 0%Q)
  else
    let confidence :=
      (sum_confidence results / inject_Z (Z.of_nat (length results)))%Q in
    mret (true, confidence).

Definition step3_intelligent_validation (reply : option Q)
    (lead_data : gmap string pyval) : bool * Q :=
  match reply with
  | Some confidence_score => (Qle_bool (7 # 10) confidence_score, confidence_score)
  | None => (false, 0%Q)
  end.

Definition validate (sched : list nat) (reply : option Q)
    (lead_data : gmap string pyval) : run (bool * Q * string) :=
  let '(step1_result, step1_confidence) := step1_data_integrity lead_data in
  if negb step1_result
  then mret (false, step1_confidence, "Step 1: Data Integrity Check Failed")
  else
    step2 ← step2_parallel_verification sched lead_data;
    if negb (fst step2)
    then mret (false, snd step2, "Step 2: Parallel External Verification Failed")
    else
      let '(step3_result, step3_confidence) :=
        step3_intelligent_validation reply lead_data in
      if negb step3_result
      then mret (false, step3_confidence, "Step 3: Intelligent Validation Failed")
      else
        let overall_confidence :=
          ((step1_confidence + snd step2 + step3_confidence) / 3)%Q in
        mret (true, overall_confidence, "All validation steps passed").

End TripleValidation.

(** * Notions used by the statements *)

(** The report that [calculate_overall] leaves when it is run at clock [c]. *)
Definition finalised (report : TripleValidationReport) (c : clock)
    : TripleValidationReport :=
  match outcome (TripleValidationReport.calculate_overall report) c with
  | inr r => r
  | inl _ => report
  end.

(** A stage result that passed with full score, and a report that holds
    three of them and is not finalised yet. *)
Definition passed_result : ValidationResult :=
  {| step := "Schema Validation";
     status := PASSED;
     score := 1;
     confidence := 1;
     errors := [];
     warnings := [];
     details := ∅;
     timestamp := 0 |}.

Definition complete_report : TripleValidationReport :=
  mkReport (mkValidationId 0 VNone) "lead" STRICT
    (Some passed_result) (Some passed_result) (Some passed_result)
    PENDING 0 0 0 None.

(** The path [f"item[{i}]"] and the errors that the item at position [i]
    produces. *)
Definition item_path (i : nat) : string := "item[" +:+ pretty i +:+ "]".

Definition item_errors (self : SchemaValidator.t) (i : nat) (item : pyval)
    : list string :=
  SchemaValidator._validate_item self item (item_path i).

(** The errors of each item of a list whose first item has position [i]. *)
Fixpoint errors_from (self : SchemaValidator.t) (i : nat) (items : list pyval)
    : list (list string) :=
  match items with
  | [] => []
  | item :: rest => item_errors self i item :: errors_from self (S i) rest
  end.

Definition no_errors (es : list string) : bool :=
  match es with [] => true | _ => false end.

(** The number of items that produced zero errors. *)
Definition validated_items (self : SchemaValidator.t) (items : list pyval)
    : nat :=
  length (List.filter no_errors (errors_from self 0 items)).

(** [clamp(x, lo, hi)] *)
Definition clamp (x lo hi : Q) : Q := Qmax lo (Qmin hi x).

(** A record whose price is zero. *)
Definition zero_price_record : gmap string pyval :=
  {[ "price" := VInt 0; "estimated_value" := VInt 100 ]}.

(** [m] occurs in [s] up to the case of letters: some substring of [s] and
    [m] have the same lower-case form. *)
Definition occurs_ignoring_case (m s : string) : Prop :=
  exists pre w post, s = pre +:+ w +:+ post /\ lower w = lower m.

(** The number of items that the content-plausibility scan counts valid. *)
Definition valid_count (items : list pyval) : nat :=
  length (List.filter ExternalVerifier.valid_item items).

(** A computation is [pure_run] when its outcome does not depend on the
    clock and it does not advance it. *)
Definition pure_run {A} (m : run A) : Prop :=
  exists x, forall c, m c = (x, c).

(** The verdict of a report: what does not come from the clock. *)
Definition verdict (r : TripleValidationReport)
    : ValidationStatus * Q * Q :=
  (overall_status r, overall_score r, overall_confidence r).

(** The record of [main], a record whose identifier is a number, and an
    environment with the API key set. *)
Definition lead_001 : gmap string pyval :=
  {[ "id" := VStr "lead_001";
     "source_url" := VStr "https://example.com/property/1";
     "scraped_at" := VStr "2026-01-11T00:00:00Z";
     "address" := VStr "123 Main St, Port St. Lucie, FL 34952";
     "price" := VInt 250000 ]}.

Definition numbered : gmap string pyval := {[ "id" := VInt 5 ]}.

Definition with_key : gmap string string := {[ "GEMINI_API_KEY" := "key" ]}.

(** The records among the items: the items that are dictionaries. *)
Definition dict_items (items : list pyval) : list (gmap string pyval) :=
  omap (fun item => match item with VDict d => Some d | _ => None end) items.

(** The length of a value that has one: a string, a list or a dictionary. *)
Definition value_len (v : pyval) : option nat :=
  match v with
  | VStr s => Some (String.length s)
  | VList l => Some (length l)
  | VDict d => Some (size d)
  | _ => None
  end.

(** The 'id' of the record is a number or a boolean other than zero and
    [False]: a value that is true and has no length. *)
Definition id_has_no_len (d : gmap string pyval) : bool :=
  match d !! "id" with
  | Some v => truthy v && is_int_or_float v
  | None => false
  end.

(** The 'id' of the record is true and its length is at most 256. *)
Definition id_ok (d : gmap string pyval) : bool :=
  match d !! "id" with
  | Some v =>
      truthy v &&
      match value_len v with
      | Some n => (n <=? 256)%nat
      | None => false
      end
  | None => false
  end.

(** The depth to which lists and dictionaries are nested in a value. *)
Fixpoint nesting (v : pyval) : nat :=
  match v with
  | VList l => S (fold_right (fun x acc => Nat.max (nesting x) acc) 0%nat l)
  | VDict d => S (map_fold (fun _ x acc => Nat.max (nesting x) acc) 0%nat d)
  | _ => 0%nat
  end.

(** A record with a price of 401 digits and a float as its estimated
    value, and a record that holds an [int] of 4301 digits. *)
Definition huge_price : gmap string pyval :=
  <["price" := VInt (10 ^ 400)]> (<["estimated_value" := VFloat 3]> lead_001).

Definition long_int_record : gmap string pyval :=
  <["serial" := VInt (10 ^ 4300)]> lead_001.

(** The float nearest to [x] is beyond the largest float. *)
Definition out_of_range (x : Q) : bool :=
  match to_float x with
  | Infinity _ => true
  | Finite _ => false
  end.

(** The 'price' and the 'estimated_value' of the record are numbers other
    than zero whose division raises: two [int]s whose quotient is out of
    range, or a float and an [int] that is out of range. *)
Definition division_overflows (d : gmap string pyval) : bool :=
  match d !! "price", d !! "estimated_value" with
  | Some price, Some estimated =>
      truthy price && truthy estimated
      && is_int_or_float price && is_int_or_float estimated
      && match int_value price, int_value estimated with
         | Some x, Some y => out_of_range (inject_Z x / inject_Z y)
         | Some x, None => out_of_range (inject_Z x)
         | None, Some y => out_of_range (inject_Z y)
         | None, None => false
         end
  | _, _ => false
  end.

(** The consistency check returns [True] on the record. *)
Definition consistent (d : gmap string pyval) : bool :=
  match CrossReferenceValidator._check_internal_consistency d with
  | inr b => b
  | inl _ => false
  end.

(** The number of its two Stage 2 checks that a record passes, and the sum
    over a list of records. *)
Definition checks_passed (d : gmap string pyval) : nat :=
  Nat.b2n (id_ok d) + Nat.b2n (consistent d).

Definition matches_of (ds : list (gmap string pyval)) : nat :=
  sum_list (map checks_passed ds).

(** The results that a report holds, in the order of the stages. *)
Definition present_results (report : TripleValidationReport)
    : list ValidationResult :=
  omap id [step1_result report; step2_result report; step3_result report].

(** The field is present in the record with a value that is neither [None]
    nor the empty string. *)
Definition field_filled (d : gmap string pyval) (field : string) : bool :=
  match d !! field with
  | Some v => negb (is_none_or_empty_str v)
  | None => false
  end.

(** The required fields of a Stage 1 validator. *)
Definition required_fields (self : SchemaValidator.t) : list string :=
  default [] (SchemaValidator.schema self !! "required").

(** The report with which [validate] enters [calculate_overall]. *)
Definition entering (self : ComprehensiveValidator.t) (data : pyval)
    (c : clock) (r1 r2 r3 : ValidationResult) : TripleValidationReport :=
  mkReport (mkValidationId (c 0%nat) data)
    (ComprehensiveValidator.data_type self)
    (ComprehensiveValidator.level self) (Some r1) (Some r2) (Some r3)
    PENDING 0 0 (c 1%nat) None.

(** A report that lacks the result of Stage 1. *)
Definition partial_report : TripleValidationReport :=
  mkReport (mkValidationId 0 VNone) "lead" STRICT
    None (Some passed_result) (Some passed_result) PENDING 0 0 0 None.

(** The sum of the products of two lists of rationals, position by
    position, up to the shorter list. *)
Fixpoint weighted (ws xs : list Q) : Q :=
  match ws, xs with
  | w :: ws', x :: xs' => (w * x + weighted ws' xs')%Q
  | _, _ => 0%Q
  end.

(** [r] is what the task at position [i] returns at some clock. *)
Definition produced {A} (tasks : list (run A)) (i : nat) (r : A) : Prop :=
  exists task ci, tasks !! i = Some task /\ outcome task ci = inr r.

(** Every filled slot holds a result of its own task. *)
Definition sound {A} (tasks : list (run A)) (slots : list (option A)) : Prop :=
  forall i r, slots !! i = Some (Some r) -> produced tasks i r.

Definition filled {A} (slots : list (option A)) (i : nat) : Prop :=
  exists r, slots !! i = Some (Some r).

(** The lead of the module's [main]. *)
Definition john_doe : gmap string pyval :=
  {[ "id" := VStr "12345"; "name" := VStr "John Doe";
     "email" := VStr "john.doe@example.com" ]}.

(** * Properties *)

(** ** The monad *)

Lemma outcome_ret {A} (a : A) c : outcome (mret a) c = inr a.
Proof. reflexivity. Qed.

Lemma outcome_bind {A B} (m : run A) (f : A -> run B) c :
  outcome (m ≫= f) c =
  match m c with
  | (inl e, _) => inl e
  | (inr a, c') => outcome (f a) c'
  end.
Proof.
  unfold outcome, mbind, run_bind. destruct (m c) as [[e|a] c']; reflexivity.
Qed.

(** ** Consensus aggregator *)

Section Aggregator.

Import TripleValidationReport.

Variable report : TripleValidationReport.
Variables r1 r2 r3 : ValidationResult.
Hypothesis Hstep1 : step1_result report = Some r1.
Hypothesis Hstep2 : step2_result report = Some r2.
Hypothesis Hstep3 : step3_result report = Some r3.

Lemma calculate_overall_returns c :
  outcome (calculate_overall report) c = inr (finalised report c).
Proof.
  unfold finalised, outcome, calculate_overall.
  rewrite Hstep1, Hstep2, Hstep3. reflexivity.
Qed.

Lemma finalised_status c :
  overall_status (finalised report c) =
  if forallb (fun r => bool_decide (status r = PASSED)) [r1; r2; r3] then PASSED
  else if existsb (fun r => bool_decide (status r = FAILED)) [r1; r2; r3]
       then FAILED else WARNING.
Proof.
  unfold finalised, outcome, calculate_overall.
  rewrite Hstep1, Hstep2, Hstep3. reflexivity.
Qed.

Lemma finalised_scores c :
  overall_score (finalised report c) = fst (accumulate 0 [r1; r2; r3] 0%Q 0%Q) /\
  overall_confidence (finalised report c) = snd (accumulate 0 [r1; r2; r3] 0%Q 0%Q).
Proof.
  unfold finalised, outcome, calculate_overall.
  rewrite Hstep1, Hstep2, Hstep3. split; reflexivity.
Qed.

End Aggregator.

(** C1. When the three stage results are present, [calculate_overall]
    returns a report whose overall status is PASSED exactly when the three
    stage statuses are PASSED, FAILED exactly when at least one of them is
    FAILED, and WARNING in every other case. *)
Theorem C1_overall_status :
  forall (report : TripleValidationReport) (r1 r2 r3 : ValidationResult)
         (c : clock),
    step1_result report = Some r1 ->
    step2_result report = Some r2 ->
    step3_result report = Some r3 ->
    exists report',
      outcome (TripleValidationReport.calculate_overall report) c = inr report' /\
      (overall_status report' = PASSED <->
         status r1 = PASSED /\ status r2 = PASSED /\ status r3 = PASSED) /\
      (overall_status report' = FAILED <->
         status r1 = FAILED \/ status r2 = FAILED \/ status r3 = FAILED) /\
      (overall_status report' <> PASSED -> overall_status report' <> FAILED ->
         overall_status report' = WARNING).
Proof.
  intros report r1 r2 r3 c H1 H2 H3.
  exists (finalised report c). split.
  - eapply calculate_overall_returns; eassumption.
  - rewrite (finalised_status report r1 r2 r3 H1 H2 H3 c). simpl.
    destruct (status r1), (status r2), (status r3); simpl;
      repeat split; intros; try congruence; try tauto;
      repeat match goal with
             | H : _ /\ _ |- _ => destruct H
             | H : _ \/ _ |- _ => destruct H
             end; congruence.
Qed.

(** The hypotheses of C1 hold for [complete_report], which is finalised as
    PASSED. *)
Lemma C1_witness :
  exists report',
    outcome (TripleValidationReport.calculate_overall complete_report) (ticking 1)
      = inr report' /\
    overall_status report' = PASSED.
Proof.
  destruct (C1_overall_status complete_report passed_result passed_result
              passed_result (ticking 1) eq_refl eq_refl eq_refl) as (r & Hr & Hp & _).
  exists r. split; [exact Hr|]. apply Hp. repeat split.
Defined.

(** C2. When the three stage results are present, the overall score and the
    overall confidence are the sums of the stage scores, respectively
    confidences, weighted by 0.40, 0.35 and 0.25 (over exact rationals). *)
Theorem C2_weighted_scores :
  forall (report : TripleValidationReport) (r1 r2 r3 : ValidationResult)
         (c : clock),
    step1_result report = Some r1 ->
    step2_result report = Some r2 ->
    step3_result report = Some r3 ->
    exists report',
      outcome (TripleValidationReport.calculate_overall report) c = inr report' /\
      (overall_score report' ==
         (40 # 100) * score r1 + (35 # 100) * score r2 + (25 # 100) * score r3)%Q /\
      (overall_confidence report' ==
         (40 # 100) * confidence r1 + (35 # 100) * confidence r2
         + (25 # 100) * confidence r3)%Q.
Proof.
  intros report r1 r2 r3 c H1 H2 H3.
  exists (finalised report c). split.
  - eapply calculate_overall_returns; eassumption.
  - destruct (finalised_scores report r1 r2 r3 H1 H2 H3 c) as [-> ->].
    cbn [TripleValidationReport.accumulate fst snd].
    unfold TripleValidationReport.weight_at. cbn [length Nat.ltb Nat.leb
      TripleValidationReport.weights List.nth].
    split; ring.
Qed.

(** The hypotheses of C2 hold for [complete_report], whose overall score
    is 1. *)
Lemma C2_witness :
  exists report',
    outcome (TripleValidationReport.calculate_overall complete_report) (ticking 1)
      = inr report' /\
    (overall_score report' == 1)%Q.
Proof.
  destruct (C2_weighted_scores complete_report passed_result passed_result
              passed_result (ticking 1) eq_refl eq_refl eq_refl) as (r & Hr & Hs & _).
  exists r. split; [exact Hr|]. rewrite Hs. reflexivity.
Defined.

(** ** Rational helpers *)

Lemma Qltb_true a b : Qltb a b = true <-> (a < b)%Q.
Proof.
  unfold Qltb. rewrite negb_true_iff. split.
  - intros H. apply Qnot_le_lt. intros Hle.
    apply Qle_bool_iff in Hle. congruence.
  - intros H. destruct (Qle_bool b a) eqn:E; [|reflexivity].
    apply Qle_bool_iff in E. exfalso. exact (Qlt_not_le _ _ H E).
Qed.

Lemma Qltb_false a b : Qltb a b = false <-> (b <= a)%Q.
Proof.
  unfold Qltb. rewrite negb_false_iff. apply Qle_bool_iff.
Qed.

Lemma py_min_Qmin a b : (py_min a b == Qmin a b)%Q.
Proof.
  unfold py_min. destruct (Qltb b a) eqn:E.
  - apply Qltb_true in E. symmetry. apply Q.min_r. apply Qlt_le_weak, E.
  - apply Qltb_false in E. symmetry. apply Q.min_l. exact E.
Qed.

Lemma py_max_Qmax a b : (py_max a b == Qmax a b)%Q.
Proof.
  unfold py_max. destruct (Qltb a b) eqn:E.
  - apply Qltb_true in E. symmetry. apply Q.max_r. apply Qlt_le_weak, E.
  - apply Qltb_false in E. symmetry. apply Q.max_l. exact E.
Qed.

Lemma py_max_proper a b b' : (b == b')%Q -> (py_max a b == py_max a b')%Q.
Proof.
  intros H. rewrite !py_max_Qmax. rewrite H. reflexivity.
Qed.

Lemma ratio_of_mult n m :
  (0 < m)%nat ->
  (ratio_of n m * inject_Z (Z.of_nat m) == inject_Z (Z.of_nat n))%Q.
Proof.
  intros Hm. unfold ratio_of. field.
  intros H. unfold Qeq in H. simpl in H. lia.
Qed.

(** ** Stage 1 *)

Lemma errors_from_length self i items :
  length (errors_from self i items) = length items.
Proof.
  revert i. induction items as [|item rest IH]; intros i; simpl; [reflexivity|].
  rewrite IH. reflexivity.
Qed.

Lemma triple_eq {A B C} (a a' : A) (b b' : B) (c c' : C) :
  a = a' -> b = b' -> c = c' -> (a, b, c) = (a', b', c').
Proof. congruence. Qed.

Lemma validate_loop_spec self items :
  forall i errors validated_count total_count,
    SchemaValidator.validate_loop self i items errors validated_count total_count =
    (errors ++ concat (errors_from self i items),
     (validated_count + length (List.filter no_errors (errors_from self i items)))%nat,
     (total_count + length items)%nat).
Proof.
  induction items as [|item rest IH]; intros i errors v t.
  - simpl. rewrite app_nil_r, !Nat.add_0_r. reflexivity.
  - cbn [SchemaValidator.validate_loop errors_from concat List.filter].
    fold (item_path i). fold (item_errors self i item).
    destruct (item_errors self i item) as [|e es] eqn:E.
    + rewrite IH. cbn [no_errors length app].
      apply triple_eq; [reflexivity | lia | lia].
    + rewrite IH. cbn [no_errors length]. rewrite <- app_assoc.
      apply triple_eq; [reflexivity | lia | lia].
Qed.

Lemma validate_loop_schema self self' items :
  SchemaValidator.schema self = SchemaValidator.schema self' ->
  forall i errors validated_count total_count,
    SchemaValidator.validate_loop self i items errors validated_count total_count =
    SchemaValidator.validate_loop self' i items errors validated_count total_count.
Proof.
  intros Hs. induction items as [|item rest IH]; intros i errors v t;
    [reflexivity|].
  cbn [SchemaValidator.validate_loop].
  replace (SchemaValidator._validate_item self' item ("item[" +:+ pretty i +:+ "]"))
    with (SchemaValidator._validate_item self item ("item[" +:+ pretty i +:+ "]"))
    by (unfold SchemaValidator._validate_item; rewrite Hs; reflexivity).
  destruct (SchemaValidator._validate_item self item _); apply IH.
Qed.

(** C4. Stage 1 returns a result whose score is the number of items with
    zero errors divided by the number of items, whose confidence is
    1 - 0.1 * errorCount clamped to [0, 1], and whose status is PASSED
    exactly when the error list is empty and FAILED otherwise, never
    WARNING. *)
Theorem C4_schema_stage_result :
  forall (self : SchemaValidator.t) (data : pyval) (c : clock),
    exists r,
      outcome (SchemaValidator.validate self data) c = inr r /\
      let items := items_of data in
      let validated := validated_items self items in
      let total := length items in
      let error_count := length (errors r) in
      errors r = concat (errors_from self 0 items) /\
      (score r == ratio_of validated total)%Q /\
      (score r * inject_Z (Z.of_nat total) == inject_Z (Z.of_nat validated))%Q /\
      (confidence r ==
         clamp (1 - (1 # 10) * inject_Z (Z.of_nat error_count)) 0 1)%Q /\
      (status r = PASSED <-> errors r = []) /\
      (status r = FAILED <-> errors r <> []) /\
      status r <> WARNING.
Proof.
  intros self data c.
  unfold SchemaValidator.validate.
  rewrite validate_loop_spec. cbn [app Nat.add].
  eexists. split; [reflexivity|]. cbn [errors score confidence status].
  fold (validated_items self (items_of data)).
  set (items := items_of data). set (es := concat (errors_from self 0 items)).
  split; [reflexivity|].
  assert (Hv : (validated_items self items <= length items)%nat).
  { unfold validated_items. rewrite <- (errors_from_length self 0 items).
    apply filter_length_le. }
  repeat split.
  - destruct (0 <? length items)%nat eqn:E; [reflexivity|].
    apply Nat.ltb_ge in E. assert (length items = 0)%nat as -> by lia.
    assert (validated_items self items = 0)%nat as -> by lia. reflexivity.
  - destruct (0 <? length items)%nat eqn:E.
    + apply Nat.ltb_lt in E. apply ratio_of_mult. exact E.
    + apply Nat.ltb_ge in E. assert (length items = 0)%nat as Hl by lia.
      rewrite Hl in *. assert (validated_items self items = 0)%nat as -> by lia.
      reflexivity.
  - unfold clamp. rewrite py_max_Qmax, py_min_Qmin.
    apply Q.max_compat; [reflexivity|]. apply Q.min_compat; [reflexivity|]. ring.
  - destruct es; [reflexivity|discriminate].
  - intros ->. reflexivity.
  - destruct es; [discriminate|]. intros _. discriminate.
  - destruct es; [congruence|reflexivity].
  - destruct es; discriminate.
Qed.

(** C10. A data type outside the four registered ones is given the schema
    of 'lead', whose required fields are 'id', 'source_url' and
    'scraped_at'; Stage 1 then returns, without raising, the result it
    returns for 'lead'. *)
Theorem C10_unknown_type_uses_lead_schema :
  forall (data_type : string),
    data_type <> "lead" -> data_type <> "property" ->
    data_type <> "intelligence" -> data_type <> "repository" ->
    let self := SchemaValidator.__init__ data_type in
    let lead := SchemaValidator.__init__ "lead" in
    SchemaValidator.schema self = SchemaValidator.schema lead /\
    SchemaValidator.schema self !! "required" =
      Some ["id"; "source_url"; "scraped_at"] /\
    forall (data : pyval) (c : clock),
      exists r r',
        outcome (SchemaValidator.validate self data) c = inr r /\
        outcome (SchemaValidator.validate lead data) c = inr r' /\
        status r = status r' /\ score r = score r' /\
        confidence r = confidence r' /\ errors r = errors r'.
Proof.
  intros dt H1 H2 H3 H4 self lead.
  assert (Hs : SchemaValidator.schema self = SchemaValidator.schema lead).
  { unfold self, lead, SchemaValidator.__init__. cbn [SchemaValidator.schema].
    assert (SchemaValidator.SCHEMAS !! dt = None) as ->.
    { unfold SchemaValidator.SCHEMAS.
      rewrite !lookup_insert_ne by congruence.
      apply lookup_singleton_ne. congruence. }
    reflexivity. }
  split; [exact Hs|]. split.
  - rewrite Hs. reflexivity.
  - intros data c. unfold SchemaValidator.validate.
    rewrite (validate_loop_schema self lead _ Hs).
    destruct (SchemaValidator.validate_loop lead 0 (items_of data) [] 0 0)
      as [[es v] t].
    eexists. eexists. split; [reflexivity|]. split; [reflexivity|].
    repeat split.
Qed.

(** The hypotheses of C10 hold for the data type 'contact', which is given
    the required fields of 'lead'. *)
Lemma C10_witness :
  "contact" <> "lead" /\ "contact" <> "property" /\
  "contact" <> "intelligence" /\ "contact" <> "repository" /\
  SchemaValidator.schema (SchemaValidator.__init__ "contact") !! "required" =
    Some ["id"; "source_url"; "scraped_at"].
Proof.
  repeat (split; [discriminate|]).
  apply (C10_unknown_type_uses_lead_schema "contact"); discriminate.
Defined.

(** ** Stage 2 *)

Lemma truthy_num v :
  is_int_or_float v = true -> (truthy v = true <-> ~ (num v == 0)%Q).
Proof.
  destruct v as [|b|z|q|s|l|d]; simpl; try discriminate; intros _.
  - destruct b; split; try discriminate; try reflexivity.
    intros H. exfalso. apply H. reflexivity.
  - rewrite negb_true_iff, Z.eqb_neq. unfold Qeq. simpl. lia.
  - rewrite negb_true_iff. split.
    + intros H Hq. apply Qeq_bool_iff in Hq. congruence.
    + intros H. destruct (Qeq_bool q 0) eqn:E; [|reflexivity].
      apply Qeq_bool_iff in E. contradiction.
Qed.

(** *** The division *)

Lemma round_half_even_floor n d :
  (0 < d)%Z -> (n / d <= round_half_even n d)%Z.
Proof.
  intros Hd. unfold round_half_even.
  destruct (2 * (n mod d) ?= d)%Z; [destruct (Z.even (n / d))|..]; lia.
Qed.

Lemma floor_log2_le n d : (floor_log2 n d <= Z.log2 n - Z.log2 d)%Z.
Proof.
  unfold floor_log2. destruct (scale n d _) as [n' d'].
  destruct (n' <? d')%Z; lia.
Qed.

Lemma pow2_pos e : (0 < pow2 e)%Q.
Proof.
  unfold pow2. destruct (0 <=? e)%Z eqn:E.
  - apply Z.leb_le in E. unfold Qlt. simpl.
    pose proof (Z.pow_pos_nonneg 2 e). lia.
  - reflexivity.
Qed.

Lemma nearest_pos_positive n :
  (0 < n)%Z -> (0 < nearest_pos n 1)%Q.
Proof.
  intros Hn. unfold nearest_pos.
  set (e := Z.max (floor_log2 n 1 - 52) (-1074)).
  assert (He : (e <= Z.log2 n)%Z).
  { pose proof (floor_log2_le n 1) as H. change (Z.log2 1) with 0%Z in H.
    pose proof (Z.log2_nonneg n). lia. }
  assert (Hscale : (0 < snd (scale n 1 e) <= fst (scale n 1 e))%Z).
  { unfold scale. destruct (0 <=? e)%Z eqn:E; cbn [fst snd].
    - apply Z.leb_le in E.
      pose proof (Z.log2_spec n Hn) as [Hlo _].
      pose proof (Z.pow_le_mono_r 2 e (Z.log2 n)).
      pose proof (Z.pow_pos_nonneg 2 e). lia.
    - apply Z.leb_gt in E.
      pose proof (Z.pow_pos_nonneg 2 (- e)). nia. }
  destruct (scale n 1 e) as [n' d']. cbn [fst snd] in Hscale.
  assert (1 <= round_half_even n' d')%Z.
  { pose proof (round_half_even_floor n' d').
    pose proof (Z.div_le_lower_bound n' d' 1). lia. }
  apply Qmult_lt_0_compat; [|apply pow2_pos].
  unfold Qlt. simpl. lia.
Qed.

(** The float of an [int] other than zero is not zero. *)
Lemma float_of_int_nonzero z y :
  z <> 0%Z -> float_of_int z = inr y -> Qeq_bool y 0 = false.
Proof.
  intros Hz. unfold float_of_int, to_float.
  destruct (Qle_bool _ _); [discriminate|]. intros [= <-].
  destruct (Qeq_bool _ 0) eqn:E; [|reflexivity].
  apply Qeq_bool_iff in E. exfalso. revert E.
  unfold nearest. cbn [Qnum Qden inject_Z]. destruct z as [|p|p].
  - contradiction.
  - intros E. pose proof (nearest_pos_positive (Zpos p) eq_refl). lra.
  - intros E. pose proof (nearest_pos_positive (Zpos p) eq_refl). lra.
Qed.


Lemma int_value_truthy v z :
  int_value v = Some z -> truthy v = negb (z =? 0)%Z.
Proof.
  destruct v as [|b|z'| | | |]; simpl; try discriminate; intros [= <-];
    [destruct b|]; reflexivity.
Qed.

Lemma int_value_None v :
  is_int_or_float v = true -> int_value v = None -> v = VFloat (num v).
Proof. destruct v; simpl; try discriminate; reflexivity. Qed.

Lemma as_float_int v z : int_value v = Some z -> as_float v = float_of_int z.
Proof. destruct v; simpl; try discriminate; intros [= <-]; reflexivity. Qed.

(** The division of two numbers other than zero, by the kinds of its
    operands. *)
Lemma true_div_cases (a b : pyval) :
  is_int_or_float a = true -> is_int_or_float b = true ->
  truthy b = true ->
  true_div a b =
  match int_value a, int_value b with
  | Some x, Some y =>
      match to_float (inject_Z x / inject_Z y) with
      | Finite q => inr (Finite q)
      | Infinity _ =>
          inl (OverflowError "integer division result too large for a float")
      end
  | Some x, None =>
      match to_float (inject_Z x) with
      | Finite x' => inr (to_float (x' / num b))
      | Infinity _ => inl (OverflowError "int too large to convert to float")
      end
  | None, Some y =>
      match to_float (inject_Z y) with
      | Finite y' => inr (to_float (num a / y'))
      | Infinity _ => inl (OverflowError "int too large to convert to float")
      end
  | None, None => inr (to_float (num a / num b))
  end.
Proof.
  intros Na Nb Tb. unfold true_div. rewrite Na, Nb. cbn [andb negb].
  destruct (int_value a) as [x|] eqn:Ea, (int_value b) as [y|] eqn:Eb.
  - rewrite (int_value_truthy b y Eb) in Tb.
    apply negb_true_iff in Tb. rewrite Tb. reflexivity.
  - rewrite (as_float_int a x Ea). unfold float_of_int.
    destruct (to_float (inject_Z x)) as [x'|]; [|reflexivity].
    destruct b; try discriminate. cbn [as_float num].
    cbn [truthy] in Tb. apply negb_true_iff in Tb. rewrite Tb. reflexivity.
  - destruct a; try discriminate. cbn [as_float num].
    rewrite (as_float_int b y Eb).
    assert (Hy : y <> 0%Z).
    { rewrite (int_value_truthy b y Eb) in Tb.
      apply negb_true_iff, Z.eqb_neq in Tb. exact Tb. }
    pose proof (float_of_int_nonzero y) as Hnz. unfold float_of_int in *.
    destruct (to_float (inject_Z y)) as [y'|]; [|reflexivity].
    rewrite (Hnz y' Hy eq_refl). reflexivity.
  - destruct a; try discriminate. destruct b; try discriminate.
    cbn [as_float num]. cbn [truthy] in Tb.
    apply negb_true_iff in Tb. rewrite Tb. reflexivity.
Qed.

(** The consistency check on a record whose two fields are numbers other than
    zero, and on any other record. *)
Lemma check_cases (d : gmap string pyval) :
  (exists price estimated,
     d !! "price" = Some price /\ d !! "estimated_value" = Some estimated /\
     is_int_or_float price = true /\ is_int_or_float estimated = true /\
     truthy price = true /\ truthy estimated = true /\
     CrossReferenceValidator._check_internal_consistency d =
     match true_div price estimated with
     | inl e => inl e
     | inr ratio =>
         inr (negb (float_lt ratio float_0_1 || float_gt ratio 10))
     end) \/
  (CrossReferenceValidator._check_internal_consistency d = inr true /\
   division_overflows d = false /\
   forall price estimated,
     d !! "price" = Some price -> d !! "estimated_value" = Some estimated ->
     truthy price && truthy estimated
     && is_int_or_float price && is_int_or_float estimated = false).
Proof.
  unfold CrossReferenceValidator._check_internal_consistency, division_overflows.
  destruct (d !! "price") as [p|]; [|right; repeat split; discriminate].
  destruct (d !! "estimated_value") as [e|]; [|right; repeat split; discriminate].
  destruct (truthy p && truthy e && is_int_or_float p && is_int_or_float e)
    eqn:G.
  - left. exists p, e.
    apply andb_true_iff in G as [G Ne]. apply andb_true_iff in G as [G Np].
    apply andb_true_iff in G as [Tp Te].
    repeat (split; [first [reflexivity|assumption]|]).
    assert (Qeq_bool (num e) 0 = false) as ->.
    { destruct (Qeq_bool (num e) 0) eqn:E; [|reflexivity].
      apply Qeq_bool_iff in E. apply (truthy_num e Ne) in Te. contradiction. }
    cbn [negb]. destruct (true_div p e) as [x|ratio]; [reflexivity|].
    destruct (float_lt ratio float_0_1 || float_gt ratio 10); reflexivity.
  - right. split; [reflexivity|]. split; [reflexivity|].
    intros p' e' [= <-] [= <-]. exact G.
Qed.

Lemma division_overflows_true_div (d : gmap string pyval) price estimated :
  d !! "price" = Some price -> d !! "estimated_value" = Some estimated ->
  is_int_or_float price = true -> is_int_or_float estimated = true ->
  truthy price = true -> truthy estimated = true ->
  (division_overflows d = true ->
     exists msg, true_div price estimated = inl (OverflowError msg)) /\
  (division_overflows d = false ->
     exists ratio, true_div price estimated = inr ratio).
Proof.
  intros Hp He Np Ne Tp Te. unfold division_overflows.
  rewrite Hp, He, Tp, Te, Np, Ne. cbn [andb].
  rewrite (true_div_cases price estimated Np Ne Te). unfold out_of_range.
  destruct (int_value price), (int_value estimated);
    try destruct (to_float _); split; intros H; try discriminate; eauto.
Qed.

(** The consistency check raises exactly when the division overflows, and
    what it raises is an OverflowError. *)
Lemma check_raises (d : gmap string pyval) :
  (division_overflows d = true ->
     exists msg,
       CrossReferenceValidator._check_internal_consistency d
       = inl (OverflowError msg)) /\
  (division_overflows d = false ->
     CrossReferenceValidator._check_internal_consistency d
     = inr (consistent d)).
Proof.
  destruct (check_cases d)
    as [(p & e & Hp & He & Np & Ne & Tp & Te & Hc)|(Hc & Hov & _)].
  - destruct (division_overflows_true_div d p e Hp He Np Ne Tp Te) as [Ho Hr].
    unfold consistent. rewrite Hc.
    destruct (division_overflows d).
    + destruct (Ho eq_refl) as [msg ->]. split; [eauto|discriminate].
    + destruct (Hr eq_refl) as [ratio ->]. split; [discriminate|reflexivity].
  - rewrite Hov. unfold consistent. rewrite Hc.
    split; [discriminate|reflexivity].
Qed.

(** *** The two checks of a record *)

(** The identifier check never raises on a string identifier. *)
Lemma id_check_str (d : gmap string pyval) s c :
  d !! "id" = Some (VStr s) ->
  CrossReferenceValidator.id_check d c =
    (inr (negb (String.eqb s "") && (String.length s <=? 256)%nat), c).
Proof.
  intros H. unfold CrossReferenceValidator.id_check. rewrite H.
  cbn [default from_option]. unfold truthy.
  destruct s as [|a s]; [reflexivity|]. reflexivity.
Qed.

Lemma id_check_absent (d : gmap string pyval) c :
  d !! "id" = None ->
  CrossReferenceValidator.id_check d c = (inr false, c).
Proof.
  intros H. unfold CrossReferenceValidator.id_check. rewrite H. reflexivity.
Qed.

(** One record of the loop, when its identifier check returns [ok]: the
    consistency check is tallied when it returns, and what it raises is
    raised by the loop. *)
Lemma validate_loop_record (d : gmap string pyval) ok :
  (forall c, CrossReferenceValidator.id_check d c = (inr ok, c)) ->
  forall rest matches mismatches c,
    match CrossReferenceValidator._check_internal_consistency d with
    | inr consistent =>
        CrossReferenceValidator.validate_loop (VDict d :: rest)
          matches mismatches c =
        CrossReferenceValidator.validate_loop rest
          (Nat.b2n consistent + (Nat.b2n ok + matches))
          (Nat.b2n (negb consistent) + (Nat.b2n (negb ok) + mismatches)) c
    | inl e =>
        CrossReferenceValidator.validate_loop (VDict d :: rest)
          matches mismatches c = (inl e, c)
    end.
Proof.
  intros Hid rest m mm c.
  cbn [CrossReferenceValidator.validate_loop].
  unfold mbind, run_bind, lift. rewrite Hid.
  destruct ok, (CrossReferenceValidator._check_internal_consistency d)
    as [e|[|]]; reflexivity.
Qed.

(** C5, counterexample.  The empty record has no 'id' field, and the
    identifier check counts a mismatch for it: of its two checks one is
    tallied as a match and one as a mismatch. *)
Lemma C5_counterexample :
  (∅ : gmap string pyval) !! "id" = None /\
  outcome (CrossReferenceValidator.id_check ∅) (ticking 0) = inr false /\
  outcome (CrossReferenceValidator.validate_loop [VDict ∅] 0 0) (ticking 0) = inr (1, 1)%nat.
Proof. repeat split. Qed.

(** C5, amended.  For a record whose 'id', when present, is a string, the
    identifier check returns without raising, and it counts a mismatch
    exactly when the 'id' field is absent, or is present and either empty
    or longer than 256 characters; otherwise it counts a match.  The loop
    then tallies the consistency check of the record, or raises what that
    check raises. *)
Theorem C5_id_check_amended :
  forall (d : gmap string pyval),
    (forall v, d !! "id" = Some v -> exists s, v = VStr s) ->
    exists ok,
      (forall c, CrossReferenceValidator.id_check d c = (inr ok, c)) /\
      (ok = false <->
         d !! "id" = None \/
         exists s, d !! "id" = Some (VStr s) /\
                   (s = "" \/ (256 < String.length s)%nat)) /\
      (forall rest matches mismatches c,
         match CrossReferenceValidator._check_internal_consistency d with
         | inr consistent =>
             CrossReferenceValidator.validate_loop (VDict d :: rest)
               matches mismatches c =
             CrossReferenceValidator.validate_loop rest
               (Nat.b2n consistent + (Nat.b2n ok + matches))
               (Nat.b2n (negb consistent) + (Nat.b2n (negb ok) + mismatches)) c
         | inl e =>
             CrossReferenceValidator.validate_loop (VDict d :: rest)
               matches mismatches c = (inl e, c)
         end).
Proof.
  intros d Hstr. destruct (d !! "id") as [v|] eqn:E.
  - destruct (Hstr v eq_refl) as [s ->].
    exists (negb (String.eqb s "") && (String.length s <=? 256)%nat).
    assert (Hid : forall c, CrossReferenceValidator.id_check d c =
              (inr (negb (String.eqb s "") && (String.length s <=? 256)%nat), c))
      by (intros c; apply id_check_str; exact E).
    split; [exact Hid|]. split.
    + rewrite andb_false_iff, negb_false_iff, String.eqb_eq, Nat.leb_gt.
      split.
      * intros H. right. exists s. split; [reflexivity|exact H].
      * intros [H|(s' & Hs' & H)]; [discriminate|].
        injection Hs' as <-. exact H.
    + apply validate_loop_record. exact Hid.
  - exists false.
    assert (Hid : forall c, CrossReferenceValidator.id_check d c = (inr false, c))
      by (intros c; apply id_check_absent; exact E).
    split; [exact Hid|]. split.
    + split; [intros _; left; reflexivity | reflexivity].
    + apply validate_loop_record. exact Hid.
Qed.

(** The record with the identifier 'lead_001' satisfies the hypothesis of
    C5 and its identifier is counted as a match. *)
Lemma C5_witness :
  exists ok,
    (forall c, CrossReferenceValidator.id_check {[ "id" := VStr "lead_001" ]} c
               = (inr ok, c)) /\
    ok = true.
Proof.
  destruct (C5_id_check_amended {[ "id" := VStr "lead_001" ]}) as (ok & Hid & Hok & _).
  - intros v Hv. exists "lead_001".
    rewrite lookup_singleton_eq in Hv. congruence.
  - exists ok. split; [exact Hid|].
    specialize (Hid (ticking 0)). vm_compute in Hid. congruence.
Defined.




(** The bound of [json.dumps] is the power that it stands for. *)
Example long_int_bound_is_power :
  long_int_bound = (10 ^ int_max_str_digits)%Z.
Proof. vm_compute. reflexivity. Qed.

(** The division on some inputs.  A ratio just below 1/10 that rounds to
    the float 0.1 is not a mismatch; a price of 401 digits overflows, unless
    the estimated value is an [int] that brings the quotient into range; a
    quotient of two floats beyond the range is an infinity, hence a
    mismatch. *)
Example float_0_1_is_nearest : (nearest (1 # 10) == float_0_1)%Q.
Proof. vm_compute. reflexivity. Qed.

Example largest_float_bound :
  out_of_range (inject_Z (2 ^ 1024 - 2 ^ 970)) = true /\
  out_of_range (inject_Z (2 ^ 1024 - 2 ^ 970 - 1)) = false.
Proof. vm_compute. split; reflexivity. Qed.

Example rounding_hides_low_ratio :
  (99999999999999999 # 1000000000000000000 < 1 # 10)%Q /\
  CrossReferenceValidator._check_internal_consistency
    {[ "price" := VInt 99999999999999999;
       "estimated_value" := VInt 1000000000000000000 ]} = inr true.
Proof. split; [reflexivity|vm_compute; reflexivity]. Qed.

Example huge_price_overflows :
  CrossReferenceValidator._check_internal_consistency
    {[ "price" := VInt (10 ^ 400); "estimated_value" := VInt 1 ]}
  = inl (OverflowError "integer division result too large for a float") /\
  CrossReferenceValidator._check_internal_consistency
    {[ "price" := VInt (10 ^ 400); "estimated_value" := VFloat 3 ]}
  = inl (OverflowError "int too large to convert to float") /\
  CrossReferenceValidator._check_internal_consistency
    {[ "price" := VInt (10 ^ 400); "estimated_value" := VInt (10 ^ 399) ]}
  = inr true.
Proof. vm_compute. repeat split. Qed.

Example float_quotient_infinite :
  true_div (VFloat (inject_Z (10 ^ 308))) (VFloat (1 # 10 ^ 308))
  = inr (Infinity false) /\
  CrossReferenceValidator._check_internal_consistency
    {[ "price" := VFloat (inject_Z (10 ^ 308));
       "estimated_value" := VFloat (1 # 10 ^ 308) ]} = inr false.
Proof. vm_compute. split; reflexivity. Qed.

(** ** Strings *)

Lemma prefix_iff x s :
  String.prefix x s = true <-> exists post, s = x +:+ post.
Proof.
  revert s. induction x as [|a x IH]; intros s.
  - split; [intros _; exists s; reflexivity|].
    intros _. destruct s; reflexivity.
  - destruct s as [|b s]; simpl.
    + split; [discriminate|]. intros [post H]. discriminate.
    + destruct (Ascii.ascii_dec a b) as [->|Hab].
      * rewrite IH. split; intros [post H]; exists post.
        -- rewrite H. reflexivity.
        -- injection H as ->. reflexivity.
      * split; [discriminate|]. intros [post H]. injection H as H _.
        congruence.
Qed.

Lemma str_contains_iff x s :
  str_contains x s = true <-> exists pre post, s = pre +:+ x +:+ post.
Proof.
  induction s as [|b s IH]; cbn [str_contains]; rewrite orb_true_iff, prefix_iff.
  - split.
    + intros [[post H]|H]; [|discriminate]. exists "", post. exact H.
    + intros (pre & post & H). left. destruct pre as [|p pre]; [|discriminate].
      exists post. exact H.
  - rewrite IH. split.
    + intros [[post H]|(pre & post & H)].
      * exists "", post. exact H.
      * exists (String b pre), post. rewrite H. reflexivity.
    + intros (pre & post & H). destruct pre as [|p pre].
      * left. exists post. exact H.
      * right. injection H as _ H. exists pre, post. exact H.
Qed.

Lemma lower_app a b : lower (a +:+ b) = lower a +:+ lower b.
Proof.
  induction a as [|c a IH]; simpl; [reflexivity|]. rewrite IH. reflexivity.
Qed.

Lemma lower_split s : forall a b,
  lower s = a +:+ b ->
  exists s1 s2, s = s1 +:+ s2 /\ lower s1 = a /\ lower s2 = b.
Proof.
  induction s as [|c s IH]; intros a b H.
  - destruct a; [|discriminate]. destruct b; [|discriminate].
    exists "", "". repeat split.
  - destruct a as [|x a].
    + exists "", (String c s). repeat split. exact H.
    + simpl in H. injection H as Hx H.
      destruct (IH a b H) as (s1 & s2 & -> & <- & <-).
      exists (String c s1), s2. simpl. rewrite Hx. repeat split.
Qed.

(** ** Stage 3 *)

Lemma markers_lower m : In m ExternalVerifier.markers -> lower m = m.
Proof.
  unfold ExternalVerifier.markers. simpl.
  intros [<-|[<-|[<-|[<-|[<-|[]]]]]]; reflexivity.
Qed.

Lemma contains_lower_iff m s :
  lower m = m ->
  str_contains m (lower s) = true <-> occurs_ignoring_case m s.
Proof.
  intros Hm. rewrite str_contains_iff. unfold occurs_ignoring_case. split.
  - intros (pre & post & H).
    apply lower_split in H as (s1 & s2 & -> & _ & H).
    apply lower_split in H as (w & s3 & -> & Hw & _).
    exists s1, w, s3. split; [reflexivity|]. congruence.
  - intros (pre & w & post & -> & Hw).
    exists (lower pre), (lower post).
    rewrite !lower_app, Hw, Hm. reflexivity.
Qed.

Lemma scan_false kvs :
  ExternalVerifier.scan kvs = false <->
  exists k s m, In (k, VStr s) kvs /\ In m ExternalVerifier.markers /\
                occurs_ignoring_case m s.
Proof.
  induction kvs as [|[k v] rest IH]; cbn [ExternalVerifier.scan].
  - split; [discriminate|]. intros (k & s & m & [] & _).
  - assert (Hrest :
      (exists k' s m, In (k', VStr s) rest /\ In m ExternalVerifier.markers /\
                      occurs_ignoring_case m s) ->
      exists k' s m, In (k', VStr s) ((k, v) :: rest) /\
                     In m ExternalVerifier.markers /\ occurs_ignoring_case m s).
    { intros (k' & s & m & Hin & H). exists k', s, m. split; [right; exact Hin|exact H]. }
    destruct v as [|b|z|q|s|l|d];
      try (rewrite IH; split; [exact Hrest|];
           intros (k' & s' & m & [Heq|Hin] & H);
           [discriminate | exists k', s', m; split; [exact Hin|exact H]]).
    destruct (existsb (fun x => str_contains x (lower s)) ExternalVerifier.markers)
      eqn:E.
    + split; [intros _|reflexivity].
      apply existsb_exists in E as (m & Hm & Hc).
      exists k, s, m. split; [left; reflexivity|]. split; [exact Hm|].
      apply contains_lower_iff; [apply markers_lower; exact Hm|exact Hc].
    + rewrite IH. split; [exact Hrest|].
      intros (k' & s' & m & [Heq|Hin] & Hm & Ho).
      * injection Heq as <- <-. exfalso.
        assert (existsb (fun x => str_contains x (lower s)) ExternalVerifier.markers
                = true); [|congruence].
        apply existsb_exists. exists m. split; [exact Hm|].
        apply contains_lower_iff; [apply markers_lower; exact Hm|exact Ho].
      * exists k', s', m. split; [exact Hin|]. split; assumption.
Qed.

Lemma is_reasonable_false (d : gmap string pyval) :
  ExternalVerifier._is_reasonable_data d = false <->
  exists k s m, d !! k = Some (VStr s) /\ In m ExternalVerifier.markers /\
                occurs_ignoring_case m s.
Proof.
  unfold ExternalVerifier._is_reasonable_data. rewrite scan_false.
  split; intros (k & s & m & Hin & H); exists k, s, m; (split; [|exact H]).
  - apply elem_of_map_to_list, list_elem_of_In. exact Hin.
  - apply list_elem_of_In, elem_of_map_to_list. exact Hin.
Qed.

Lemma plausibility_ratio (items : list pyval) :
  match items with
  | [] => 0%Q
  | _ => ratio_of (valid_count items) (length items)
  end = ratio_of (valid_count items) (length items).
Proof. destruct items; reflexivity. Qed.

(** Closed comparisons of rationals, in the goal or in a hypothesis. *)
Ltac q_closed :=
  match goal with
  | |- (_ == _)%Q => apply Qeq_bool_iff; vm_compute; reflexivity
  | |- (_ <= _)%Q => apply Qle_bool_iff; vm_compute; reflexivity
  | |- (_ < _)%Q => apply Qltb_true; vm_compute; reflexivity
  | H : (_ <= _)%Q |- _ => apply Qle_bool_iff in H; vm_compute in H; discriminate
  | H : (_ < _)%Q |- _ => apply Qltb_true in H; vm_compute in H; discriminate
  end.

(** The conjuncts on score, confidence and status, once the two checks are
    decided. *)
Ltac stage3_case :=
  repeat split; intros;
  repeat match goal with H : _ /\ _ |- _ => destruct H end;
  try q_closed; try congruence; try discriminate.

(** C7. Stage 3 returns a result whose score is the number of passed checks
    out of the two checks (credential presence, content plausibility), whose
    confidence is the score times 0.9, and whose status is PASSED exactly
    when both checks pass, else WARNING when the score is at least 0.5, else
    FAILED.  The plausibility check passes exactly when the valid items are
    at least 0.9 of the items, and a record is counted invalid exactly when
    one of its string values contains one of the five markers up to the case
    of letters. *)
Theorem C7_external_stage_result :
  (forall (self : ExternalVerifier.t) (data : pyval) (c : clock),
     exists r plausible,
       let credential :=
         ExternalVerifier.configured (ExternalVerifier.gemini_api_key self) in
       let items := items_of data in
       outcome (ExternalVerifier.validate self data) c = inr r /\
       (plausible = true <->
          (9 # 10 <= ratio_of (valid_count items) (length items))%Q) /\
       (score r ==
          inject_Z (Z.of_nat (Nat.b2n credential + Nat.b2n plausible)) / 2)%Q /\
       (confidence r == score r * (9 # 10))%Q /\
       (status r = PASSED <-> credential = true /\ plausible = true) /\
       (status r = WARNING <-> status r <> PASSED /\ (5 # 10 <= score r)%Q) /\
       (status r = FAILED <-> (score r < 5 # 10)%Q)) /\
  (forall (d : gmap string pyval),
     ExternalVerifier.valid_item (VDict d) = false <->
     exists k s m,
       d !! k = Some (VStr s) /\
       In m ["test"; "dummy"; "fake"; "xxx"; "placeholder"] /\
       occurs_ignoring_case m s).
Proof.
  split; [|intros d; apply is_reasonable_false].
  intros self data c.
  unfold ExternalVerifier.validate. fold (valid_count (items_of data)).
  rewrite plausibility_ratio.
  set (ratio := ratio_of (valid_count (items_of data)) (length (items_of data))).
  destruct (ExternalVerifier.configured (ExternalVerifier.gemini_api_key self))
    eqn:Ec; destruct (Qle_bool (9 # 10) ratio) eqn:Ep.
  - eexists. exists true. cbv zeta. split; [reflexivity|]. simpl.
    split; [split; [intros _; apply Qle_bool_iff; exact Ep | reflexivity]|].
    stage3_case.
  - eexists. exists false. cbv zeta. split; [reflexivity|]. simpl.
    split; [split; [discriminate|intros H; apply Qle_bool_iff in H; congruence]|].
    stage3_case.
  - eexists. exists true. cbv zeta. split; [reflexivity|]. simpl.
    split; [split; [intros _; apply Qle_bool_iff; exact Ep | reflexivity]|].
    stage3_case.
  - eexists. exists false. cbv zeta. split; [reflexivity|]. simpl.
    split; [split; [discriminate|intros H; apply Qle_bool_iff in H; congruence]|].
    stage3_case.
Qed.

(** ** Computations that leave the clock alone *)

Lemma pure_ret {A} (a : A) : pure_run (mret a).
Proof. exists (inr a). reflexivity. Qed.

Lemma pure_raise {A} (e : exn) : pure_run (@raise A e).
Proof. exists (inl e). reflexivity. Qed.

Lemma pure_bind {A B} (m : run A) (f : A -> run B) :
  pure_run m -> (forall a, pure_run (f a)) -> pure_run (m ≫= f).
Proof.
  intros [[e|a] Hm] Hf.
  - exists (inl e). intros c. unfold mbind, run_bind. rewrite Hm. reflexivity.
  - destruct (Hf a) as [y Hy]. exists y. intros c.
    unfold mbind, run_bind. rewrite Hm. apply Hy.
Qed.

Lemma pure_lift {A} (x : exn + A) : pure_run (lift x).
Proof. exists x. reflexivity. Qed.

Lemma pure_py_len v : pure_run (py_len v).
Proof. destruct v; first [apply pure_ret | apply pure_raise]. Qed.

Lemma pure_validate_id_format v :
  pure_run (CrossReferenceValidator._validate_id_format v).
Proof.
  unfold CrossReferenceValidator._validate_id_format.
  destruct (truthy v); [|apply pure_ret].
  apply pure_bind; [apply pure_py_len|]. intros n.
  destruct (1 <=? n)%nat; [|apply pure_ret].
  apply pure_bind; [apply pure_py_len|]. intros n'. apply pure_ret.
Qed.

Lemma pure_id_check d : pure_run (CrossReferenceValidator.id_check d).
Proof.
  unfold CrossReferenceValidator.id_check.
  destruct (truthy _); [apply pure_validate_id_format|apply pure_ret].
Qed.

Lemma pure_validate_loop items :
  forall matches mismatches,
    pure_run (CrossReferenceValidator.validate_loop items matches mismatches).
Proof.
  induction items as [|item rest IH]; intros m mm.
  - apply pure_ret.
  - cbn [CrossReferenceValidator.validate_loop].
    destruct item; try apply IH.
    apply pure_bind; [apply pure_id_check|]. intros ok.
    destruct (CrossReferenceValidator.tally ok m mm) as [m1 mm1].
    apply pure_bind; [apply pure_lift|]. intros consistent.
    destruct (CrossReferenceValidator.tally consistent m1 mm1) as [m2 mm2].
    apply IH.
Qed.

(** ** One record through the three stages *)

Lemma validate_cases (self : ComprehensiveValidator.t) (data : pyval) :
  (exists e, forall c,
     exists c', ComprehensiveValidator.validate self data c = (inl e, c')) \/
  (exists v, forall c,
     exists r, ComprehensiveValidator.validate self data c
               = (inr r, later 6 c) /\
               verdict r = v /\
               validation_id r = {| id_timestamp := c 0%nat; id_content := data |}).
Proof.
  destruct (has_long_int data) eqn:Hlong.
  { left. eexists. intros c. eexists.
    unfold ComprehensiveValidator.validate,
      ComprehensiveValidator._generate_validation_id, json_dumps.
    rewrite Hlong. reflexivity. }
  destruct (pure_validate_loop (items_of data) 0 0) as [[e|[m mm]] Hloop].
  - left. exists e. intros c. eexists.
    unfold ComprehensiveValidator.validate,
      ComprehensiveValidator._generate_validation_id, json_dumps,
      SchemaValidator.validate, CrossReferenceValidator.validate.
    rewrite Hlong.
    destruct (SchemaValidator.validate_loop _ 0 (items_of data) [] 0 0)
      as [[es v] t].
    unfold mbind, run_bind, lift, now, mret, run_ret. rewrite Hloop.
    reflexivity.
  - right.
    destruct (SchemaValidator.validate_loop
                (ComprehensiveValidator.schema_validator self) 0
                (items_of data) [] 0 0) as [[es v] t] eqn:E1.
    eexists. intros c. eexists.
    unfold ComprehensiveValidator.validate,
      ComprehensiveValidator._generate_validation_id, json_dumps,
      SchemaValidator.validate, CrossReferenceValidator.validate,
      ExternalVerifier.validate.
    rewrite Hlong, E1.
    unfold mbind, run_bind, lift, now, mret, run_ret. rewrite Hloop.
    cbn -[ratio_of py_max py_min Qle_bool pretty String.append Qplus Qmult].
    split; [reflexivity|]. unfold verdict.
    cbn [overall_status overall_score overall_confidence validation_id].
    split; reflexivity.
Qed.

(** ** The event loop *)

Section Gather.

Context {A : Type}.
Implicit Types (tasks : list (run A)) (slots : list (option A)).

Lemma sound_empty tasks n : sound tasks (replicate n None).
Proof.
  intros i r H. apply lookup_replicate in H as [H _]. discriminate.
Qed.

Lemma sound_insert tasks slots i (task : run A) c r c' :
  sound tasks slots -> tasks !! i = Some task -> task c = (inr r, c') ->
  sound tasks (<[i := Some r]> slots).
Proof.
  intros Hs Ht Hr j r' Hj.
  apply list_lookup_insert_Some in Hj as [(-> & Heq & _)|[Hne Hj]].
  - injection Heq as <-. exists task, c. split; [exact Ht|].
    unfold outcome. rewrite Hr. reflexivity.
  - apply Hs. exact Hj.
Qed.

Lemma filled_insert slots i j r :
  (j = i /\ i < length slots) \/ filled slots j ->
  filled (<[i := Some r]> slots) j.
Proof.
  intros [[-> Hlt]|[r' Hj]].
  - exists r. apply list_lookup_insert_eq. exact Hlt.
  - destruct (decide (i = j)) as [->|Hne].
    + exists r. apply list_lookup_insert_eq.
      apply lookup_lt_is_Some. eauto.
    + exists r'. rewrite list_lookup_insert_ne by exact Hne. exact Hj.
Qed.

(** What the slots hold once every task of the schedule has returned. *)
Lemma run_tasks_returned tasks sched :
  forall slots c slots' c',
    sound tasks slots ->
    run_tasks tasks sched slots c = (inr slots', c') ->
    sound tasks slots' /\
    length slots' = length slots /\
    forall i, i < length slots ->
      (i ∈ sched /\ i < length tasks) \/ filled slots i -> filled slots' i.
Proof.
  induction sched as [|i0 rest IH]; intros slots c slots' c' Hs Hrun.
  - injection Hrun as <- <-. split; [exact Hs|]. split; [reflexivity|].
    intros i _ [[Hin _]|Hf]; [|exact Hf]. inversion Hin.
  - cbn [run_tasks] in Hrun. destruct (tasks !! i0) as [task|] eqn:Et.
    + unfold mbind, run_bind in Hrun.
      destruct (task c) as [[e|r] c1] eqn:Er; [discriminate|].
      apply IH in Hrun as (Hs' & Hlen & Hfill);
        [|eapply sound_insert; eassumption].
      rewrite length_insert in Hlen, Hfill.
      split; [exact Hs'|]. split; [exact Hlen|].
      intros i Hi H. apply Hfill; [exact Hi|].
      destruct H as [[Hin Hlt]|Hf].
      * apply elem_of_cons in Hin as [->|Hin].
        -- right. apply filled_insert. left. split; [reflexivity|exact Hi].
        -- left. split; assumption.
      * right. apply filled_insert. right. exact Hf.
    + apply IH in Hrun as (Hs' & Hlen & Hfill); [|exact Hs].
      split; [exact Hs'|]. split; [exact Hlen|].
      intros i Hi H. apply Hfill; [exact Hi|].
      destruct H as [[Hin Hlt]|Hf]; [|right; exact Hf].
      apply elem_of_cons in Hin as [->|Hin].
      * apply lookup_lt_is_Some in Hlt. rewrite Et in Hlt.
        destruct Hlt as [? Hlt]. discriminate.
      * left. split; assumption.
Qed.

(** When every task returns, the schedule runs to its end. *)
Lemma run_tasks_total tasks sched :
  (forall task, task ∈ tasks -> forall c, exists r c', task c = (inr r, c')) ->
  forall slots c, exists slots' c',
    run_tasks tasks sched slots c = (inr slots', c').
Proof.
  intros Hret. induction sched as [|i0 rest IH]; intros slots c.
  - exists slots, c. reflexivity.
  - cbn [run_tasks]. destruct (tasks !! i0) as [task|] eqn:Et; [|apply IH].
    destruct (Hret task (list_elem_of_lookup_2 _ _ _ Et) c) as (r & c1 & Hr).
    unfold mbind, run_bind. rewrite Hr. apply IH.
Qed.

(** When a scheduled task raises at every clock, the schedule raises. *)
Lemma run_tasks_raises tasks sched i (task : run A) :
  i ∈ sched -> tasks !! i = Some task ->
  (forall c, exists e c', task c = (inl e, c')) ->
  forall slots c, exists e c', run_tasks tasks sched slots c = (inl e, c').
Proof.
  intros Hin Ht Hraise. induction sched as [|i0 rest IH]; intros slots c.
  - inversion Hin.
  - cbn [run_tasks]. destruct (tasks !! i0) as [task0|] eqn:Et0.
    + unfold mbind, run_bind.
      destruct (task0 c) as [[e|r] c1] eqn:Er; [exists e, c1; reflexivity|].
      apply elem_of_cons in Hin as [->|Hin].
      * assert (Some task0 = Some task) as [= ->]
          by (rewrite <- Et0; exact Ht).
        destruct (Hraise c) as (e & c' & He). congruence.
      * apply IH. exact Hin.
    + apply elem_of_cons in Hin as [->|Hin]; [congruence|].
      apply IH. exact Hin.
Qed.

Lemma results_of_inr slots :
  forall c rs c',
    results_of slots c = (inr rs, c') -> slots = map Some rs /\ c' = c.
Proof.
  induction slots as [|[r|] rest IH]; intros c rs c' H.
  - injection H as <- <-. split; reflexivity.
  - cbn [results_of] in H. unfold mbind, run_bind in H.
    destruct (results_of rest c) as [[e|rs'] c1] eqn:E; [discriminate|].
    injection H as <- <-. apply IH in E as [-> ->]. split; reflexivity.
  - discriminate.
Qed.

Lemma results_of_filled slots c :
  (forall i, i < length slots -> filled slots i) ->
  exists rs, results_of slots c = (inr rs, c).
Proof.
  induction slots as [|s rest IH]; intros Hf.
  - exists []. reflexivity.
  - destruct (Hf 0) as [r Hr]; [simpl; lia|]. injection Hr as ->.
    destruct IH as [rs Hrs].
    { intros i Hi. destruct (Hf (S i)) as [r' Hr']; [simpl; lia|].
      exists r'. exact Hr'. }
    exists (r :: rs). cbn [results_of]. unfold mbind, run_bind.
    rewrite Hrs. reflexivity.
Qed.

(** The results of [gather] are in the order of the tasks, whatever the
    schedule. *)
Lemma gather_ordered sched tasks c rs c' :
  gather sched tasks c = (inr rs, c') ->
  length rs = length tasks /\
  forall i r, rs !! i = Some r -> produced tasks i r.
Proof.
  unfold gather, mbind, run_bind. intros H.
  destruct (run_tasks tasks sched (replicate (length tasks) None) c)
    as [[e|slots] c1] eqn:E; [discriminate|].
  apply run_tasks_returned in E as (Hs & Hlen & _); [|apply sound_empty].
  apply results_of_inr in H as [-> _].
  rewrite length_replicate, length_map in Hlen. split; [exact Hlen|].
  intros i r Hi. apply Hs. rewrite list_lookup_fmap, Hi. reflexivity.
Qed.

Lemma gather_returns sched tasks c :
  (forall i, i < length tasks -> i ∈ sched) ->
  (forall task, task ∈ tasks -> forall c, exists r c', task c = (inr r, c')) ->
  exists rs c', gather sched tasks c = (inr rs, c').
Proof.
  intros Hcov Hret. unfold gather, mbind, run_bind.
  destruct (run_tasks_total tasks sched Hret (replicate (length tasks) None) c)
    as (slots & c1 & E).
  rewrite E.
  apply run_tasks_returned in E as (_ & Hlen & Hfill); [|apply sound_empty].
  rewrite length_replicate in Hlen, Hfill.
  destruct (results_of_filled slots c1) as [rs Hrs].
  { intros i Hi. apply Hfill; [lia|]. left. split; [apply Hcov|]; lia. }
  exists rs, c1. exact Hrs.
Qed.

Lemma gather_raises sched tasks i (task : run A) c :
  i ∈ sched -> tasks !! i = Some task ->
  (forall c, exists e c', task c = (inl e, c')) ->
  exists e c', gather sched tasks c = (inl e, c').
Proof.
  intros Hin Ht Hraise. unfold gather, mbind, run_bind.
  destruct (run_tasks_raises tasks sched i task Hin Ht Hraise
              (replicate (length tasks) None) c) as (e & c1 & E).
  rewrite E. exists e, c1. reflexivity.
Qed.

End Gather.

Lemma schedule_covers (sched : list nat) n :
  Permutation sched (seq 0 n) -> forall i, i < n -> i ∈ sched.
Proof.
  intros Hp i Hi. rewrite Hp. apply elem_of_seq. lia.
Qed.

(** ** The batch orchestrator *)

Lemma validate_outcomes (self : ComprehensiveValidator.t) (data : pyval) :
  (exists e, forall c,
     outcome (ComprehensiveValidator.validate self data) c = inl e) \/
  (forall c, exists r,
     outcome (ComprehensiveValidator.validate self data) c = inr r).
Proof.
  destruct (validate_cases self data) as [[e H]|[v H]].
  - left. exists e. intros c. destruct (H c) as [c' Hc].
    unfold outcome. rewrite Hc. reflexivity.
  - right. intros c. destruct (H c) as (r & Hr & _). exists r.
    unfold outcome. rewrite Hr. reflexivity.
Qed.

(** One run decides whether the validation of a record raises. *)
Lemma validate_raises_everywhere (self : ComprehensiveValidator.t)
    (data : pyval) c0 e :
  outcome (ComprehensiveValidator.validate self data) c0 = inl e ->
  forall c, outcome (ComprehensiveValidator.validate self data) c = inl e.
Proof.
  intros H0 c. destruct (validate_outcomes self data) as [[e' H]|H].
  - rewrite H in H0. rewrite H. exact H0.
  - destruct (H c0) as [r Hr]. congruence.
Qed.

Lemma validate_returns_everywhere (self : ComprehensiveValidator.t)
    (data : pyval) c0 r0 :
  outcome (ComprehensiveValidator.validate self data) c0 = inr r0 ->
  forall c, exists r,
    outcome (ComprehensiveValidator.validate self data) c = inr r.
Proof.
  intros H0 c. destruct (validate_outcomes self data) as [[e' H]|H].
  - rewrite H in H0. discriminate.
  - apply H.
Qed.

Lemma outcome_inl {A} (m : run A) c e :
  outcome m c = inl e -> exists c', m c = (inl e, c').
Proof.
  unfold outcome. destruct (m c) as [x c']. simpl. intros ->. eauto.
Qed.

Lemma outcome_inr {A} (m : run A) c r :
  outcome m c = inr r -> exists c', m c = (inr r, c').
Proof.
  unfold outcome. destruct (m c) as [x c']. simpl. intros ->. eauto.
Qed.

(** C3, counterexample.  The first record of the batch has a number as its
    identifier, on which [len] raises; the second record, validated alone,
    passes.  In either order of completion the batch raises the TypeError
    and returns no report. *)
Lemma C3_counterexample :
  let validator := ComprehensiveValidator.__init__ with_key STRICT "lead" in
  outcome (ComprehensiveValidator.validate_batch [0; 1] validator
             [VDict numbered; VDict lead_001]) (ticking 0)
    = inl (TypeError "object of type 'int' has no len()") /\
  outcome (ComprehensiveValidator.validate_batch [1; 0] validator
             [VDict numbered; VDict lead_001]) (ticking 0)
    = inl (TypeError "object of type 'int' has no len()") /\
  match outcome (ComprehensiveValidator.validate validator (VDict lead_001)) (ticking 0) with
  | inr r => overall_status r = PASSED
  | inl _ => False
  end.
Proof. vm_compute. repeat split. Qed.

(** When every record is scheduled and its validation returns, the batch
    returns one report per record. *)
Lemma batch_returns (sched : list nat) (self : ComprehensiveValidator.t)
    (items : list pyval) (c : clock) :
  Permutation sched (seq 0 (length items)) ->
  (forall item, item ∈ items ->
     forall c0, exists r,
       outcome (ComprehensiveValidator.validate self item) c0 = inr r) ->
  exists reports,
    outcome (ComprehensiveValidator.validate_batch sched self items) c
      = inr reports /\
    length reports = length items.
Proof.
  intros Hperm Hret. unfold ComprehensiveValidator.validate_batch.
  destruct (gather_returns sched (map (ComprehensiveValidator.validate self) items) c)
    as (rs & c' & H).
  - intros i Hi. rewrite length_map in Hi.
    apply (schedule_covers sched (length items) Hperm). exact Hi.
  - intros task Ht c0. apply list_elem_of_fmap in Ht as (item & -> & Hin).
    destruct (Hret item Hin c0) as [r Hr].
    apply outcome_inr in Hr as [c1 Hr]. eauto.
  - exists rs. split; [unfold outcome; rewrite H; reflexivity|].
    apply gather_ordered in H as [Hlen _]. rewrite length_map in Hlen.
    exact Hlen.
Qed.

(** C3, amended.  No exception is caught at the batch boundary: when the
    validation of one record raises, [validate_batch] raises and returns no
    report, whatever the order of completion; when the validation of every
    record returns, [validate_batch] returns one report per input record. *)
Theorem C3_batch_failure_amended :
  forall (sched : list nat) (self : ComprehensiveValidator.t)
         (items : list pyval) (c : clock),
    Permutation sched (seq 0 (length items)) ->
    ((exists item e c0, item ∈ items /\
        outcome (ComprehensiveValidator.validate self item) c0 = inl e) ->
     exists e, outcome (ComprehensiveValidator.validate_batch sched self items) c
               = inl e) /\
    ((forall item, item ∈ items ->
        exists c0 r,
          outcome (ComprehensiveValidator.validate self item) c0 = inr r) ->
     exists reports,
       outcome (ComprehensiveValidator.validate_batch sched self items) c
         = inr reports /\
       length reports = length items).
Proof.
  intros sched self items c Hperm.
  unfold ComprehensiveValidator.validate_batch. split.
  - intros (item & e & c0 & Hin & Hraise0).
    pose proof (validate_raises_everywhere self item c0 e Hraise0) as Hraise.
    apply list_elem_of_lookup in Hin as [i Hi].
    destruct (gather_raises sched (map (ComprehensiveValidator.validate self) items)
                i (ComprehensiveValidator.validate self item) c) as (e' & c' & H).
    + apply (schedule_covers sched (length items) Hperm).
      apply lookup_lt_is_Some. eauto.
    + change (map (ComprehensiveValidator.validate self) items)
        with (ComprehensiveValidator.validate self <$> items).
      rewrite list_lookup_fmap, Hi. reflexivity.
    + intros c1. destruct (outcome_inl _ _ _ (Hraise c1)) as [c' H]. eauto.
    + exists e'. unfold outcome. rewrite H. reflexivity.
  - intros Hret. apply (batch_returns sched self items c Hperm).
    intros item Hin. destruct (Hret item Hin) as (c0 & r0 & H0).
    exact (validate_returns_everywhere self item c0 r0 H0).
Qed.

(** The hypothesis of C3 holds for the schedule that completes the second
    record first; the record with the numeric identifier makes the batch
    raise. *)
Lemma C3_witness :
  Permutation [1; 0] (seq 0 2) /\
  exists e,
    outcome (ComprehensiveValidator.validate_batch [1; 0]
               (ComprehensiveValidator.__init__ with_key STRICT "lead")
               [VDict numbered; VDict lead_001]) (ticking 0) = inl e.
Proof.
  split; [apply perm_swap|].
  apply (C3_batch_failure_amended [1; 0]
           (ComprehensiveValidator.__init__ with_key STRICT "lead")
           [VDict numbered; VDict lead_001] (ticking 0) (perm_swap 0 1 [])).
  exists (VDict numbered), (TypeError "object of type 'int' has no len()"),
    (ticking 0).
  split; [apply list_elem_of_here|]. vm_compute. reflexivity.
Defined.

(** C8. Whatever the order in which the validations complete, a summary
    that [validate_all_intelligence] returns lists one report per input
    record, and the report at position [i] is the one produced by the
    validation of the input at position [i]; the summary is returned
    whenever every record is scheduled and its own validation returns. *)
Theorem C8_batch_order :
  forall (digest : pyval -> string) (environ : gmap string string)
         (sched : list nat) (data_list : list pyval) (c : clock),
    let validator := ComprehensiveValidator.__init__ environ STRICT "lead" in
    (Permutation sched (seq 0 (length data_list)) ->
     (forall item, item ∈ data_list ->
        exists c0 r,
          outcome (ComprehensiveValidator.validate validator item) c0 = inr r) ->
     exists summary,
       outcome (validate_all_intelligence digest environ sched data_list) c
         = inr summary) /\
    (forall summary,
       outcome (validate_all_intelligence digest environ sched data_list) c
         = inr summary ->
       exists reports,
         summary !! "reports" =
           Some (VList (map (fun r => VDict (TripleValidationReport.to_dict digest r)) reports)) /\
         length reports = length data_list /\
         forall i item, data_list !! i = Some item ->
           exists r ci,
             reports !! i = Some r /\
             outcome (ComprehensiveValidator.validate validator item) ci = inr r /\
             id_content (validation_id r) = item).
Proof.
  intros digest environ sched data_list c validator.
  unfold validate_all_intelligence. fold validator. split.
  - intros Hperm Hret.
    destruct (batch_returns sched validator data_list c Hperm)
      as (reports & H & _).
    { intros item Hin. destruct (Hret item Hin) as (c0 & r0 & H0).
      exact (validate_returns_everywhere validator item c0 r0 H0). }
    rewrite outcome_bind. apply outcome_inr in H as [c' H]. rewrite H.
    eexists. reflexivity.
  - intros summary H. rewrite outcome_bind in H.
    destruct (ComprehensiveValidator.validate_batch sched validator data_list c)
      as [[e|reports] c'] eqn:E; [discriminate|].
    rewrite outcome_ret in H. injection H as <-.
    exists reports. split; [reflexivity|].
    unfold ComprehensiveValidator.validate_batch in E.
    apply gather_ordered in E as [Hlen Hprod].
    rewrite length_map in Hlen. split; [exact Hlen|].
    intros i item Hi.
    destruct (lookup_lt_is_Some_2 reports i) as [r Hr].
    { rewrite Hlen. apply lookup_lt_is_Some. eauto. }
    destruct (Hprod i r Hr) as (task & ci & Ht & Hout).
    change (map (ComprehensiveValidator.validate validator) data_list)
      with (ComprehensiveValidator.validate validator <$> data_list) in Ht.
    rewrite list_lookup_fmap, Hi in Ht. injection Ht as <-.
    exists r, ci. split; [exact Hr|]. split; [exact Hout|].
    destruct (validate_cases validator item) as [[e H]|[v H]].
    + destruct (H ci) as [c1 Hc]. unfold outcome in Hout.
      rewrite Hc in Hout. discriminate.
    + destruct (H ci) as (r' & Hr' & _ & Hid).
      unfold outcome in Hout. rewrite Hr' in Hout. injection Hout as <-.
      rewrite Hid. reflexivity.
Qed.

(** C9. Two validations of one record by one validator, started at any two
    clocks, either raise the same exception or return reports with the same
    overall score, confidence and status; their identifiers carry the
    reading of the clock with which each started. *)
Theorem C9_idempotent_scores :
  forall (environ : gmap string string) (level : ValidationLevel)
         (data_type : string) (data : pyval) (c1 c2 : clock),
    let self := ComprehensiveValidator.__init__ environ level data_type in
    (exists e,
       outcome (ComprehensiveValidator.validate self data) c1 = inl e /\
       outcome (ComprehensiveValidator.validate self data) c2 = inl e) \/
    (exists ra rb,
       outcome (ComprehensiveValidator.validate self data) c1 = inr ra /\
       outcome (ComprehensiveValidator.validate self data) c2 = inr rb /\
       overall_score ra = overall_score rb /\
       overall_confidence ra = overall_confidence rb /\
       overall_status ra = overall_status rb /\
       id_timestamp (validation_id ra) = c1 0%nat /\
       id_timestamp (validation_id rb) = c2 0%nat).
Proof.
  intros environ level data_type data c1 c2 self.
  destruct (validate_cases self data) as [[e H]|[v H]].
  - left. exists e. destruct (H c1) as [c1' H1]. destruct (H c2) as [c2' H2].
    unfold outcome. rewrite H1, H2. split; reflexivity.
  - right. destruct (H c1) as (ra & Ha & Hva & Hia).
    destruct (H c2) as (rb & Hb & Hvb & Hib).
    exists ra, rb. unfold outcome. rewrite Ha, Hb.
    rewrite <- Hvb in Hva. unfold verdict in Hva. injection Hva as Hs Hsc Hc.
    rewrite Hia, Hib. repeat split; assumption.
Qed.

(** The hypotheses of the first part of C8 hold for a batch of two records
    completed in reverse order, which yields a summary. *)
Lemma C8_witness :
  exists summary,
    outcome (validate_all_intelligence (fun _ => "00000000") with_key [1; 0]
               [VDict lead_001; VDict zero_price_record]) (ticking 0) = inr summary.
Proof.
  apply (C8_batch_order (fun _ => "00000000") with_key [1; 0]
           [VDict lead_001; VDict zero_price_record] (ticking 0)).
  - apply perm_swap.
  - intros item Hin.
    apply list_elem_of_In in Hin. destruct Hin as [<-|[<-|[]]].
    + exists (ticking 0). eexists. vm_compute. reflexivity.
    + exists (ticking 0). eexists. vm_compute. reflexivity.
Defined.

(** ** Worked inputs *)

Example lower_folds_case : lower "Test Dummy Co" = "test dummy co".
Proof. reflexivity. Qed.

Example stage1_passes_main_record :
  match outcome (SchemaValidator.validate (SchemaValidator.__init__ "lead")
                   (VList [VDict lead_001])) (ticking 0) with
  | inr r => status r = PASSED /\ score r = 1%Q /\ errors r = []
  | inl _ => False
  end.
Proof. vm_compute. repeat split. Qed.

Example stage1_reports_each_item :
  match outcome (SchemaValidator.validate (SchemaValidator.__init__ "lead")
                   (VList [VDict lead_001; VInt 3; VDict ∅])) (ticking 0) with
  | inr r =>
      status r = FAILED /\ (score r == 1 # 3)%Q /\ (confidence r == 6 # 10)%Q /\
      errors r = ["item[1]: Expected dict, got int";
                  "item[2]: Missing required field 'id'";
                  "item[2]: Missing required field 'source_url'";
                  "item[2]: Missing required field 'scraped_at'"]
  | inl _ => False
  end.
Proof. vm_compute. repeat split. Qed.

Example stage2_ratio_in_band :
  match outcome (CrossReferenceValidator.validate
                   (VDict (<["estimated_value" := VInt 1000000]> lead_001))) (ticking 0) with
  | inr r => status r = PASSED /\ (score r == 1)%Q
  | inl _ => False
  end.
Proof. vm_compute. repeat split. Qed.

Example stage2_ratio_out_of_band :
  match outcome (CrossReferenceValidator.validate
                   (VDict (<["estimated_value" := VInt 10000000]> lead_001))) (ticking 0) with
  | inr r => status r = FAILED /\ (score r == 1 # 2)%Q
  | inl _ => False
  end.
Proof. vm_compute. repeat split. Qed.

Example stage3_flags_placeholder :
  match outcome (ExternalVerifier.validate (ExternalVerifier.__init__ with_key)
                   (VDict {[ "name" := VStr "Test Dummy Co" ]})) (ticking 0) with
  | inr r =>
      status r = WARNING /\ (score r == 1 # 2)%Q /\
      errors r = ["Only 0/1 items valid"]
  | inl _ => False
  end.
Proof. vm_compute. repeat split. Qed.

Example main_report_passes :
  match outcome (ComprehensiveValidator.validate
                   (ComprehensiveValidator.__init__ with_key STRICT "lead")
                   (VList [VDict lead_001])) (ticking 0) with
  | inr r =>
      overall_status r = PASSED /\ (overall_score r == 1)%Q /\
      (overall_confidence r == 975 # 1000)%Q /\
      start_time r = 1 /\ end_time r = Some 5
  | inl _ => False
  end.
Proof. vm_compute. repeat split. Qed.

Example batch_keeps_input_order :
  match outcome (ComprehensiveValidator.validate_batch [1; 0]
                   (ComprehensiveValidator.__init__ with_key STRICT "lead")
                   [VDict lead_001; VDict zero_price_record]) (ticking 0) with
  | inr reports =>
      map (fun r => (id_content (validation_id r), overall_status r,
                     id_timestamp (validation_id r))) reports =
      [(VDict lead_001, PASSED, 6); (VDict zero_price_record, FAILED, 0)]
  | inl _ => False
  end.
Proof. vm_compute. reflexivity. Qed.

(** * Further properties of the engine *)

(** ** Running the stages *)

Lemma bind_inr_inv {A B} (m : run A) (f : A -> run B) c b c' :
  (m ≫= f) c = (inr b, c') ->
  exists a c1, m c = (inr a, c1) /\ f a c1 = (inr b, c').
Proof.
  unfold mbind, run_bind. destruct (m c) as [[e|a] c1]; [discriminate|].
  intros H. exists a, c1. split; [reflexivity|exact H].
Qed.

Lemma ratio_of_bounds n m :
  (n <= m)%nat -> (0 <= ratio_of n m)%Q /\ (ratio_of n m <= 1)%Q.
Proof.
  intros Hle. destruct m as [|m].
  - assert (n = 0)%nat as -> by lia. split; discriminate.
  - assert (Hpos : (0 < inject_Z (Z.of_nat (S m)))%Q)
      by (unfold Qlt; simpl; lia).
    unfold ratio_of. split.
    + apply Qle_shift_div_l; [exact Hpos|].
      unfold Qle. simpl. lia.
    + apply Qle_shift_div_r; [exact Hpos|].
      unfold Qle. simpl. lia.
Qed.

Lemma clamp_bounds x : (0 <= py_max 0 (py_min 1 x))%Q /\ (py_max 0 (py_min 1 x) <= 1)%Q.
Proof.
  rewrite py_max_Qmax. split.
  - apply Q.le_max_l.
  - apply Q.max_lub; [discriminate|]. rewrite py_min_Qmin. apply Q.le_min_l.
Qed.

(** Stage 1 returns, reads the clock once, and its result is made of the
    closed forms of its loop. *)
Lemma stage1_run (self : SchemaValidator.t) (data : pyval) (c : clock) :
  exists r,
    SchemaValidator.validate self data c = (inr r, later 1 c) /\
    timestamp r = c 0%nat /\
    errors r = concat (errors_from self 0 (items_of data)) /\
    status r = (if no_errors (errors r) then PASSED else FAILED) /\
    score r =
      (if (0 <? length (items_of data))%nat
       then ratio_of (validated_items self (items_of data)) (length (items_of data))
       else 0%Q) /\
    confidence r =
      py_max 0 (py_min 1 (1 - inject_Z (Z.of_nat (length (errors r))) * (1 # 10))).
Proof.
  unfold SchemaValidator.validate. rewrite validate_loop_spec.
  cbn [app Nat.add]. eexists. split; [reflexivity|].
  cbn [timestamp errors status score confidence].
  repeat split. destruct (concat _); reflexivity.
Qed.

Lemma validated_le_total self items :
  (validated_items self items <= length items)%nat.
Proof.
  unfold validated_items. rewrite <- (errors_from_length self 0 items).
  apply filter_length_le.
Qed.

(** Stage 3 returns, reads the clock once, and its result is decided by its
    two checks. *)
Lemma stage3_run (self : ExternalVerifier.t) (data : pyval) (c : clock) :
  let credential :=
    ExternalVerifier.configured (ExternalVerifier.gemini_api_key self) in
  let plausible :=
    Qle_bool (9 # 10)
      (ratio_of (valid_count (items_of data)) (length (items_of data))) in
  exists r,
    ExternalVerifier.validate self data c = (inr r, later 1 c) /\
    timestamp r = c 0%nat /\
    score r = ratio_of (Nat.b2n credential + Nat.b2n plausible) 2 /\
    confidence r = (score r * (9 # 10))%Q /\
    status r =
      (if credential && plausible then PASSED
       else if credential || plausible then WARNING else FAILED) /\
    length (errors r) = (2 - (Nat.b2n credential + Nat.b2n plausible))%nat.
Proof.
  intros credential plausible. unfold credential, plausible.
  unfold ExternalVerifier.validate. fold (valid_count (items_of data)).
  rewrite plausibility_ratio.
  destruct (ExternalVerifier.configured _);
    destruct (Qle_bool (9 # 10) _);
    (eexists; split; [reflexivity|]; repeat split).
Qed.

(** ** Stage 2 as a whole *)

Lemma value_len_truthy v n :
  value_len v = Some n -> truthy v = negb (n =? 0)%nat.
Proof.
  destruct v as [|b|z|q|s|l|d]; simpl; try discriminate; intros [= <-].
  - destruct s; reflexivity.
  - destruct l; reflexivity.
  - destruct (decide (d = ∅)) as [->|Hne].
    + rewrite map_size_empty. reflexivity.
    + rewrite bool_decide_eq_false_2 by exact Hne.
      destruct (size d) eqn:E; [|reflexivity].
      apply map_size_empty_inv in E. contradiction.
Qed.

Lemma py_len_value_len v n c :
  value_len v = Some n -> py_len v c = (inr n, c).
Proof.
  destruct v; simpl; try discriminate; intros [= <-]; reflexivity.
Qed.

Lemma py_len_no_len v c :
  value_len v = None ->
  py_len v c =
    (inl (TypeError ("object of type '" +:+ type_name v +:+ "' has no len()")), c).
Proof. destruct v; simpl; try discriminate; reflexivity. Qed.

Lemma value_len_None v :
  value_len v = None <-> v = VNone \/ is_int_or_float v = true.
Proof.
  destruct v; simpl; split; try discriminate; auto;
    intros [H|H]; discriminate.
Qed.

(** What the identifier format check does on each kind of value. *)
Lemma validate_id_format_cases v c :
  CrossReferenceValidator._validate_id_format v c =
  match value_len v with
  | Some n => (inr ((1 <=? n)%nat && (n <=? 256)%nat), c)
  | None =>
      if truthy v
      then (inl (TypeError ("object of type '" +:+ type_name v
                            +:+ "' has no len()")), c)
      else (inr false, c)
  end.
Proof.
  unfold CrossReferenceValidator._validate_id_format.
  destruct (value_len v) as [n|] eqn:E.
  - rewrite (value_len_truthy v n E).
    destruct n as [|n]; [reflexivity|]. cbn [Nat.eqb negb].
    unfold mbind, run_bind. rewrite (py_len_value_len v (S n) c E).
    change (1 <=? S n)%nat with true. cbn [andb].
    rewrite (py_len_value_len v (S n) c E). reflexivity.
  - destruct (truthy v); [|reflexivity].
    unfold mbind, run_bind. rewrite (py_len_no_len v c E). reflexivity.
Qed.

Lemma id_check_cases (d : gmap string pyval) c :
  CrossReferenceValidator.id_check d c =
  if id_has_no_len d
  then (inl (TypeError
               ("object of type '" +:+ type_name (default (VStr "") (d !! "id"))
                +:+ "' has no len()")), c)
  else (inr (id_ok d), c).
Proof.
  unfold CrossReferenceValidator.id_check, id_has_no_len, id_ok.
  destruct (d !! "id") as [v|]; [|reflexivity].
  cbn [default from_option id]. destruct (truthy v) eqn:T; [|reflexivity].
  cbn [andb]. rewrite validate_id_format_cases, T.
  destruct (value_len v) as [n|] eqn:E.
  - assert (is_int_or_float v = false) as ->.
    { destruct v; simpl in *; try reflexivity; discriminate. }
    rewrite (value_len_truthy v n E) in T.
    destruct n; [discriminate|reflexivity].
  - apply value_len_None in E as [->|E]; [discriminate|]. rewrite E.
    reflexivity.
Qed.

Lemma checks_passed_le d : (checks_passed d <= 2)%nat.
Proof.
  unfold checks_passed.
  destruct (id_ok d), (consistent d); simpl; lia.
Qed.

Lemma matches_of_le ds : (matches_of ds <= 2 * length ds)%nat.
Proof.
  unfold matches_of. induction ds as [|d ds IH]; simpl; [lia|].
  pose proof (checks_passed_le d). lia.
Qed.

Lemma counts_eq (a a' b b' : nat) (c : clock) :
  a = a' -> b = b' ->
  (@inr exn (nat * nat) (a, b), c) = (inr (a', b'), c).
Proof. congruence. Qed.

(** The loop of Stage 2 when no identifier lacks a length and no division
    overflows. *)
Lemma stage2_loop_returns items :
  Forall (fun d => id_has_no_len d = false /\ division_overflows d = false)
    (dict_items items) ->
  forall matches mismatches c,
    CrossReferenceValidator.validate_loop items matches mismatches c =
    (inr ((matches + matches_of (dict_items items))%nat,
          (mismatches + (2 * length (dict_items items)
                         - matches_of (dict_items items)))%nat), c).
Proof.
  induction items as [|item rest IH]; intros Hall m mm c.
  - cbn. rewrite !Nat.add_0_r. reflexivity.
  - destruct item as [| | | | | |d];
      try (cbn [CrossReferenceValidator.validate_loop dict_items omap];
           apply IH; exact Hall).
    change (dict_items (VDict d :: rest)) with (d :: dict_items rest) in *.
    apply Forall_cons in Hall as [[Hd Hov] Hall].
    pose proof (validate_loop_record d (id_ok d)) as Hrec.
    rewrite (proj2 (check_raises d) Hov) in Hrec. rewrite Hrec.
    2:{ intros c0. rewrite id_check_cases, Hd. reflexivity. }
    rewrite (IH Hall).
    pose proof (matches_of_le (dict_items rest)) as Hle.
    unfold matches_of in *.
    set (total := sum_list (map checks_passed (dict_items rest))) in *.
    cbn [map sum_list length]. fold total. unfold checks_passed.
    destruct (id_ok d), (consistent d);
      cbn [Nat.b2n negb]; unfold id; apply counts_eq; lia.
Qed.

(** The loop of Stage 2 when some identifier lacks a length or some
    division overflows: it raises, a TypeError for an identifier and an
    OverflowError for a division. *)
Lemma stage2_loop_raises items :
  Exists (fun d => id_has_no_len d = true \/ division_overflows d = true)
    (dict_items items) ->
  forall matches mismatches c,
    exists e,
      CrossReferenceValidator.validate_loop items matches mismatches c =
      (inl e, c) /\
      ((exists msg, e = TypeError msg /\
          Exists (fun d => id_has_no_len d = true) (dict_items items)) \/
       (exists msg, e = OverflowError msg /\
          Exists (fun d => division_overflows d = true) (dict_items items))).
Proof.
  induction items as [|item rest IH]; intros Hex m mm c.
  - inversion Hex.
  - destruct item as [| | | | | |d];
      try (cbn [CrossReferenceValidator.validate_loop dict_items omap];
           apply IH; exact Hex).
    change (dict_items (VDict d :: rest)) with (d :: dict_items rest) in *.
    destruct (id_has_no_len d) eqn:Hd.
    { cbn [CrossReferenceValidator.validate_loop].
      unfold mbind, run_bind. rewrite id_check_cases, Hd.
      eexists. split; [reflexivity|]. left. eexists. split; [reflexivity|].
      apply Exists_cons. left. exact Hd. }
    pose proof (validate_loop_record d (id_ok d)) as Hrec.
    destruct (check_raises d) as [Ho Hr].
    destruct (division_overflows d) eqn:Hov.
    { destruct (Ho eq_refl) as [msg Hm]. rewrite Hm in Hrec. rewrite Hrec.
      2:{ intros c0. rewrite id_check_cases, Hd. reflexivity. }
      eexists. split; [reflexivity|]. right. exists msg.
      split; [reflexivity|]. apply Exists_cons. left. exact Hov. }
    rewrite (Hr eq_refl) in Hrec. rewrite Hrec.
    2:{ intros c0. rewrite id_check_cases, Hd. reflexivity. }
    apply Exists_cons in Hex as [[Hex|Hex]|Hex]; [congruence|congruence|].
    destruct (IH Hex (Nat.b2n (consistent d) + (Nat.b2n (id_ok d) + m))%nat
                (Nat.b2n (negb (consistent d))
                 + (Nat.b2n (negb (id_ok d)) + mm))%nat c)
      as (e & He & Hkind).
    exists e. split; [exact He|].
    destruct Hkind as [(msg & -> & Hk)|(msg & -> & Hk)]; [left|right];
      exists msg; (split; [reflexivity|]); apply Exists_cons; right; exact Hk.
Qed.

Lemma no_len_dec items :
  Forall (fun d => id_has_no_len d = false /\ division_overflows d = false)
    (dict_items items) \/
  Exists (fun d => id_has_no_len d = true \/ division_overflows d = true)
    (dict_items items).
Proof.
  induction (dict_items items) as [|d ds IH].
  - left. constructor.
  - destruct (id_has_no_len d) eqn:E.
    { right. apply Exists_cons. left. left. exact E. }
    destruct (division_overflows d) eqn:E'.
    { right. apply Exists_cons. left. right. exact E'. }
    destruct IH as [IH|IH].
    + left. constructor; [split|]; assumption.
    + right. apply Exists_cons. right. exact IH.
Qed.

Lemma stage2_run_returns (data : pyval) (c : clock) :
  Forall (fun d => id_has_no_len d = false /\ division_overflows d = false)
    (dict_items (items_of data)) ->
  let n := length (dict_items (items_of data)) in
  let m := matches_of (dict_items (items_of data)) in
  exists r,
    CrossReferenceValidator.validate data c = (inr r, later 1 c) /\
    timestamp r = c 0%nat /\
    score r = (if (0 <? 2 * n)%nat then ratio_of m (2 * n) else 1%Q) /\
    confidence r = score r /\
    status r =
      (if (2 * n - m =? 0)%nat then PASSED
       else if Qle_bool (8 # 10) (score r) then WARNING else FAILED) /\
    details r = {[ "matches" := VInt (Z.of_nat m);
                   "mismatches" := VInt (Z.of_nat (2 * n - m));
                   "total_checks" := VInt (Z.of_nat (2 * n)) ]} /\
    errors r = [].
Proof.
  intros Hall n m. unfold CrossReferenceValidator.validate.
  unfold mbind at 1, run_bind. rewrite (stage2_loop_returns _ Hall).
  fold n m. cbn [Nat.add].
  assert (Hle : (m <= 2 * n)%nat) by apply matches_of_le.
  replace (m + (2 * n - m))%nat with (2 * n)%nat by lia.
  eexists. split; [reflexivity|]. repeat split.
Qed.

Lemma stage2_run_raises (data : pyval) (c : clock) :
  Exists (fun d => id_has_no_len d = true \/ division_overflows d = true)
    (dict_items (items_of data)) ->
  exists e,
    CrossReferenceValidator.validate data c = (inl e, c) /\
    ((exists msg, e = TypeError msg /\
        Exists (fun d => id_has_no_len d = true) (dict_items (items_of data))) \/
     (exists msg, e = OverflowError msg /\
        Exists (fun d => division_overflows d = true)
          (dict_items (items_of data)))).
Proof.
  intros Hex. unfold CrossReferenceValidator.validate.
  destruct (stage2_loop_raises _ Hex 0 0 c) as (e & H & Hkind).
  exists e. split; [|exact Hkind].
  unfold mbind at 1, run_bind. rewrite H. reflexivity.
Qed.

(** ** The finalised report *)

Section Finalised.

Variable report : TripleValidationReport.
Variables r1 r2 r3 : ValidationResult.
Hypothesis Hstep1 : step1_result report = Some r1.
Hypothesis Hstep2 : step2_result report = Some r2.
Hypothesis Hstep3 : step3_result report = Some r3.

Lemma calculate_overall_run c :
  TripleValidationReport.calculate_overall report c
  = (inr (finalised report c), later 1 c).
Proof.
  unfold finalised, outcome, TripleValidationReport.calculate_overall.
  rewrite Hstep1, Hstep2, Hstep3. reflexivity.
Qed.

Lemma finalised_fields c :
  validation_id (finalised report c) = validation_id report /\
  data_type (finalised report c) = data_type report /\
  level (finalised report c) = level report /\
  step1_result (finalised report c) = Some r1 /\
  step2_result (finalised report c) = Some r2 /\
  step3_result (finalised report c) = Some r3 /\
  start_time (finalised report c) = start_time report /\
  end_time (finalised report c) = Some (c 0%nat).
Proof.
  unfold finalised, outcome, TripleValidationReport.calculate_overall.
  rewrite Hstep1, Hstep2, Hstep3. cbn. repeat split.
Qed.

Lemma finalised_weighted c :
  (overall_score (finalised report c) ==
     (4 # 10) * score r1 + (35 # 100) * score r2 + (25 # 100) * score r3)%Q /\
  (overall_confidence (finalised report c) ==
     (4 # 10) * confidence r1 + (35 # 100) * confidence r2
     + (25 # 100) * confidence r3)%Q.
Proof.
  destruct (finalised_scores report r1 r2 r3 Hstep1 Hstep2 Hstep3 c) as [-> ->].
  cbn [TripleValidationReport.accumulate fst snd].
  unfold TripleValidationReport.weight_at. cbn [length Nat.ltb Nat.leb
    TripleValidationReport.weights List.nth].
  split; ring.
Qed.

End Finalised.

(** ** The report of one validation *)

Lemma validate_shape (self : ComprehensiveValidator.t) (data : pyval) c r c' :
  ComprehensiveValidator.validate self data c = (inr r, c') ->
  exists r1 r2 r3,
    SchemaValidator.validate (ComprehensiveValidator.schema_validator self)
      data (later 2 c) = (inr r1, later 3 c) /\
    CrossReferenceValidator.validate data (later 3 c) = (inr r2, later 4 c) /\
    ExternalVerifier.validate (ComprehensiveValidator.external_verifier self)
      data (later 4 c) = (inr r3, later 5 c) /\
    Forall (fun d => id_has_no_len d = false /\ division_overflows d = false)
      (dict_items (items_of data)) /\
    r = finalised (entering self data c r1 r2 r3) (later 5 c) /\
    c' = later 6 c /\
    has_long_int data = false.
Proof.
  intros H. unfold ComprehensiveValidator.validate,
    ComprehensiveValidator._generate_validation_id, json_dumps in H.
  destruct (has_long_int data) eqn:Hlong; [discriminate|].
  destruct (stage1_run (ComprehensiveValidator.schema_validator self) data
              (later 2 c)) as (r1 & Hr1 & _).
  destruct (no_len_dec (items_of data)) as [Hall|Hex].
  2:{ destruct (stage2_run_raises data (later 3 c) Hex) as (e & Hm & _).
      unfold mbind, run_bind, lift, now, mret, run_ret in H.
      change (later 1 (later 1 c)) with (later 2 c) in H. rewrite Hr1 in H.
      change (later 1 (later 2 c)) with (later 3 c) in H. rewrite Hm in H.
      discriminate. }
  destruct (stage2_run_returns data (later 3 c) Hall) as (r2 & Hr2 & _).
  destruct (stage3_run (ComprehensiveValidator.external_verifier self) data
              (later 4 c)) as (r3 & Hr3 & _).
  unfold mbind, run_bind, lift, now, mret, run_ret in H.
  change (later 1 (later 1 c)) with (later 2 c) in H. rewrite Hr1 in H.
  change (later 1 (later 2 c)) with (later 3 c) in H. rewrite Hr2 in H.
  change (later 1 (later 3 c)) with (later 4 c) in H. rewrite Hr3 in H.
  change (TripleValidationReport.calculate_overall
            (entering self data c r1 r2 r3) (later 5 c) = (inr r, c')) in H.
  rewrite (calculate_overall_run (entering self data c r1 r2 r3) r1 r2 r3
             eq_refl eq_refl eq_refl) in H.
  injection H as <- <-.
  exists r1, r2, r3. repeat split; assumption.
Qed.

(** What [validate] raises: the ValueError of [json.dumps], or what Stage 2
    raises. *)
Lemma validate_raises_shape (self : ComprehensiveValidator.t) (data : pyval)
    c e c' :
  ComprehensiveValidator.validate self data c = (inl e, c') ->
  (has_long_int data = true /\ e = ValueError long_int_message) \/
  (has_long_int data = false /\
   CrossReferenceValidator.validate data (later 3 c) = (inl e, later 3 c) /\
   ((exists msg, e = TypeError msg /\
       Exists (fun d => id_has_no_len d = true) (dict_items (items_of data))) \/
    (exists msg, e = OverflowError msg /\
       Exists (fun d => division_overflows d = true)
         (dict_items (items_of data))))).
Proof.
  intros H. unfold ComprehensiveValidator.validate,
    ComprehensiveValidator._generate_validation_id, json_dumps in H.
  destruct (has_long_int data) eqn:Hlong.
  { left. injection H as <- _. split; reflexivity. }
  right. split; [reflexivity|].
  destruct (stage1_run (ComprehensiveValidator.schema_validator self) data
              (later 2 c)) as (r1 & Hr1 & _).
  unfold mbind, run_bind, lift, now, mret, run_ret in H.
  change (later 1 (later 1 c)) with (later 2 c) in H. rewrite Hr1 in H.
  change (later 1 (later 2 c)) with (later 3 c) in H.
  destruct (no_len_dec (items_of data)) as [Hall|Hex].
  - exfalso.
    destruct (stage2_run_returns data (later 3 c) Hall) as (r2 & Hr2 & _).
    destruct (stage3_run (ComprehensiveValidator.external_verifier self) data
                (later 4 c)) as (r3 & Hr3 & _).
    rewrite Hr2 in H.
    change (later 1 (later 3 c)) with (later 4 c) in H. rewrite Hr3 in H.
    change (TripleValidationReport.calculate_overall
              (entering self data c r1 r2 r3) (later 5 c) = (inl e, c')) in H.
    rewrite (calculate_overall_run (entering self data c r1 r2 r3) r1 r2 r3
               eq_refl eq_refl eq_refl) in H.
    discriminate.
  - destruct (stage2_run_raises data (later 3 c) Hex) as (e' & Hm & Hkind).
    rewrite Hm in H. injection H as <- _. split; [exact Hm|exact Hkind].
Qed.

(** ** The aggregator on incomplete reports *)

(** X1. [calculate_overall] never raises.  A report that holds no stage
    result is left as it is, status PENDING included, and the clock is not
    read; a report that holds a result gets an overall status other than
    PENDING and one reading of the clock as its end time, and keeps its
    results. *)
Theorem X1_finalised_iff_result :
  forall (report : TripleValidationReport) (c : clock),
    (present_results report = [] /\
     TripleValidationReport.calculate_overall report c = (inr report, c)) \/
    (present_results report <> [] /\
     exists report',
       TripleValidationReport.calculate_overall report c
       = (inr report', later 1 c) /\
       overall_status report' <> PENDING /\
       end_time report' = Some (c 0%nat) /\
       present_results report' = present_results report /\
       start_time report' = start_time report).
Proof.
  intros report c. unfold present_results.
  unfold TripleValidationReport.calculate_overall.
  destruct (step1_result report) as [r1|] eqn:E1,
    (step2_result report) as [r2|] eqn:E2,
    (step3_result report) as [r3|] eqn:E3;
    try (right; split; [discriminate|]; eexists; split; [reflexivity|];
         cbn [overall_status end_time step1_result step2_result step3_result
              start_time];
         rewrite ?E1, ?E2, ?E3;
         split; [|repeat split];
         cbn [omap option_bind list_omap id forallb existsb];
         repeat match goal with
                | |- context [bool_decide ?P] => destruct (bool_decide P)
                end; discriminate).
  left. split; [reflexivity|]. cbn. destruct report. cbn in *. subst.
  reflexivity.
Qed.

(** X2. The weights 0.4, 0.35 and 0.25 go to the results that are present,
    by their position among them and not by their stage: the overall score
    and confidence are the sums of the present scores and confidences
    weighted in that order. *)
Theorem X2_weights_by_position :
  forall (report : TripleValidationReport) (c : clock),
    present_results report <> [] ->
    exists report',
      TripleValidationReport.calculate_overall report c
      = (inr report', later 1 c) /\
      (overall_score report' ==
         weighted [4 # 10; 35 # 100; 25 # 100]
           (map score (present_results report)))%Q /\
      (overall_confidence report' ==
         weighted [4 # 10; 35 # 100; 25 # 100]
           (map confidence (present_results report)))%Q /\
      end_time report' = Some (c 0%nat).
Proof.
  intros report c Hne. unfold present_results in *.
  unfold TripleValidationReport.calculate_overall.
  destruct (step1_result report) as [r1|], (step2_result report) as [r2|],
    (step3_result report) as [r3|];
    try (exfalso; apply Hne; reflexivity);
    (eexists; split; [reflexivity|]);
    cbn [overall_score overall_confidence end_time omap option_bind list_omap
         id map weighted fst snd
         TripleValidationReport.accumulate];
    unfold TripleValidationReport.weight_at;
    cbn [length Nat.ltb Nat.leb TripleValidationReport.weights List.nth];
    (split; [ring|split; [ring|reflexivity]]).
Qed.

(** A report without the result of Stage 1 whose two other stages scored 1
    gets the overall score 0.75. *)
Lemma X2_witness :
  exists report',
    TripleValidationReport.calculate_overall partial_report (ticking 7)
    = (inr report', later 1 (ticking 7)) /\
    (overall_score report' == 75 # 100)%Q.
Proof.
  destruct (X2_weights_by_position partial_report (ticking 7))
    as (r & Hr & Hs & _).
  - discriminate.
  - exists r. split; [exact Hr|]. rewrite Hs. reflexivity.
Defined.

(** ** Reports returned by [validate] *)

(** From the three runs that [validate_shape] gives, the facts of
    [stage1_run], [stage2_run_returns] and [stage3_run] about their
    results. *)
Ltac stage_facts H1 H2 H3 Hall :=
  match type of H1 with
  | SchemaValidator.validate ?sv ?data ?c1 = (inr ?r1, _) =>
      let r := fresh "r" in let Hr := fresh "Hr" in
      destruct (stage1_run sv data c1) as (r & Hr & ?Ht1 & ?He1 & ?Hst1 & ?Hsc1 & ?Hcf1);
      assert (r = r1) by congruence; subst r; clear Hr
  end;
  match type of H2 with
  | CrossReferenceValidator.validate ?data ?c2 = (inr ?r2, _) =>
      let r := fresh "r" in let Hr := fresh "Hr" in
      destruct (stage2_run_returns data c2 Hall)
        as (r & Hr & ?Ht2 & ?Hsc2 & ?Hcf2 & ?Hst2 & ?Hd2 & ?He2);
      assert (r = r2) by congruence; subst r; clear Hr
  end;
  match type of H3 with
  | ExternalVerifier.validate ?ev ?data ?c3 = (inr ?r3, _) =>
      let r := fresh "r" in let Hr := fresh "Hr" in
      destruct (stage3_run ev data c3) as (r & Hr & ?Ht3 & ?Hsc3 & ?Hcf3 & ?Hst3 & ?He3);
      assert (r = r3) by congruence; subst r; clear Hr
  end.

Lemma stage1_score_bounds self items :
  let s := if (0 <? length items)%nat
           then ratio_of (validated_items self items) (length items)
           else 0%Q in
  (0 <= s)%Q /\ (s <= 1)%Q.
Proof.
  cbv zeta. destruct (0 <? length items)%nat.
  - apply ratio_of_bounds, validated_le_total.
  - split; discriminate.
Qed.

Lemma stage2_score_bounds n m :
  (m <= 2 * n)%nat ->
  let s := if (0 <? 2 * n)%nat then ratio_of m (2 * n) else 1%Q in
  (0 <= s)%Q /\ (s <= 1)%Q.
Proof.
  intros Hle. cbv zeta. destruct (0 <? 2 * n)%nat.
  - apply ratio_of_bounds, Hle.
  - split; discriminate.
Qed.

Lemma stage3_score_bounds (a b : bool) :
  (0 <= ratio_of (Nat.b2n a + Nat.b2n b) 2)%Q /\
  (ratio_of (Nat.b2n a + Nat.b2n b) 2 <= 1)%Q.
Proof. apply ratio_of_bounds. destruct a, b; simpl; lia. Qed.

(** X3. In every report that [validate] returns, the overall score and
    confidence and the score and confidence of each of the three stages lie
    between 0 and 1. *)
Theorem X3_scores_within_unit :
  forall (self : ComprehensiveValidator.t) (data : pyval) (c : clock)
         (r : TripleValidationReport),
    outcome (ComprehensiveValidator.validate self data) c = inr r ->
    (0 <= overall_score r <= 1)%Q /\
    (0 <= overall_confidence r <= 1)%Q /\
    forall s, s ∈ present_results r ->
      (0 <= score s <= 1)%Q /\ (0 <= confidence s <= 1)%Q.
Proof.
  intros self data c r H. apply outcome_inr in H as [c' H].
  apply validate_shape in H as (r1 & r2 & r3 & H1 & H2 & H3 & Hall & -> & _).
  stage_facts H1 H2 H3 Hall.
  pose proof (stage1_score_bounds
                (ComprehensiveValidator.schema_validator self) (items_of data))
    as B1. cbv zeta in B1. rewrite <- Hsc1 in B1.
  pose proof (clamp_bounds (1 - inject_Z (Z.of_nat (length (errors r1))) * (1 # 10)))
    as C1. rewrite <- Hcf1 in C1.
  pose proof (stage2_score_bounds _ _ (matches_of_le (dict_items (items_of data))))
    as B2. cbv zeta in B2. rewrite <- Hsc2 in B2.
  pose proof (stage3_score_bounds
                (ExternalVerifier.configured
                   (ExternalVerifier.gemini_api_key
                      (ComprehensiveValidator.external_verifier self)))
                (Qle_bool (9 # 10)
                   (ratio_of (valid_count (items_of data))
                      (length (items_of data))))) as B3.
  rewrite <- Hsc3 in B3.
  destruct (finalised_weighted (entering self data c r1 r2 r3) r1 r2 r3
              eq_refl eq_refl eq_refl (later 5 c)) as [Hs Hc].
  destruct (finalised_fields (entering self data c r1 r2 r3) r1 r2 r3
              eq_refl eq_refl eq_refl (later 5 c))
    as (_ & _ & _ & F1 & F2 & F3 & _).
  split; [rewrite Hs; lra|]. split; [rewrite Hc, Hcf2, Hcf3; lra|].
  intros s Hin. unfold present_results in Hin. rewrite F1, F2, F3 in Hin.
  cbn in Hin.
  repeat match goal with
         | H : _ ∈ _ :: _ |- _ => apply elem_of_cons in H as [->|H]
         | H : _ ∈ [] |- _ => inversion H
         end.
  - split; lra.
  - rewrite Hcf2. split; lra.
  - rewrite Hcf3. split; lra.
Qed.

Lemma X3_witness :
  exists r,
    outcome (ComprehensiveValidator.validate
               (ComprehensiveValidator.__init__ with_key STRICT "lead")
               (VList [VDict lead_001; VInt 3; VDict zero_price_record])) (ticking 0)
      = inr r /\
    (0 <= overall_score r <= 1)%Q.
Proof.
  assert (exists r,
    outcome (ComprehensiveValidator.validate
               (ComprehensiveValidator.__init__ with_key STRICT "lead")
               (VList [VDict lead_001; VInt 3; VDict zero_price_record])) (ticking 0)
      = inr r) as [r Hr] by (vm_compute; eexists; reflexivity).
  exists r. split; [exact Hr|].
  apply (X3_scores_within_unit _ _ _ _ Hr).
Defined.

(** X4. A report that [validate] returns holds the results of the three
    stages.  The call reads the clock six times, and the report holds the
    six readings in the order of the calls: in its identifier, as its start
    time, in the results of Stage 1, 2 and 3, and as its end time.  The
    readings are ordered only as far as the clock is: they do not decrease
    when the clock never steps back.  The status of the report is not
    PENDING and its content, data type and level are those of the call. *)
Theorem X4_report_structure :
  forall (self : ComprehensiveValidator.t) (data : pyval) (c : clock)
         (r : TripleValidationReport),
    outcome (ComprehensiveValidator.validate self data) c = inr r ->
    exists r1 r2 r3,
      step1_result r = Some r1 /\ step2_result r = Some r2 /\
      step3_result r = Some r3 /\
      id_timestamp (validation_id r) = c 0%nat /\
      start_time r = c 1%nat /\
      timestamp r1 = c 2%nat /\ timestamp r2 = c 3%nat /\
      timestamp r3 = c 4%nat /\
      end_time r = Some (c 5%nat) /\
      ((forall i j, (i <= j)%nat -> (c i <= c j)%nat) ->
       (id_timestamp (validation_id r) <= start_time r <= timestamp r1)%nat /\
       (timestamp r1 <= timestamp r2 <= timestamp r3)%nat /\
       (timestamp r3 <= c 5)%nat) /\
      id_content (validation_id r) = data /\
      overall_status r <> PENDING /\
      data_type r = ComprehensiveValidator.data_type self /\
      level r = ComprehensiveValidator.level self.
Proof.
  intros self data c r H. apply outcome_inr in H as [c' H].
  apply validate_shape in H as (r1 & r2 & r3 & H1 & H2 & H3 & Hall & -> & _).
  stage_facts H1 H2 H3 Hall.
  destruct (finalised_fields (entering self data c r1 r2 r3) r1 r2 r3
              eq_refl eq_refl eq_refl (later 5 c))
    as (Fid & Fdt & Flv & F1 & F2 & F3 & Fst & Fend).
  exists r1, r2, r3.
  rewrite Fid, Fdt, Flv, F1, F2, F3, Fst, Fend, Ht1, Ht2, Ht3.
  cbn [entering validation_id id_timestamp id_content start_time data_type level].
  repeat (split; [reflexivity|]).
  split.
  { intros Hmono. unfold later. cbn [Nat.add].
    pose proof (Hmono 0 1)%nat. pose proof (Hmono 1 2)%nat.
    pose proof (Hmono 2 3)%nat. pose proof (Hmono 3 4)%nat.
    pose proof (Hmono 4 5)%nat. lia. }
  split; [reflexivity|]. split; [|split; reflexivity].
  rewrite (finalised_status (entering self data c r1 r2 r3) r1 r2 r3
             eq_refl eq_refl eq_refl).
  destruct (forallb _ _); [discriminate|].
  destruct (existsb _ _); discriminate.
Qed.

(** On a clock that advances the report of [main]'s record holds the
    readings in increasing order. *)
Lemma X4_witness :
  exists r,
    outcome (ComprehensiveValidator.validate
               (ComprehensiveValidator.__init__ with_key STRICT "lead")
               (VDict lead_001)) (ticking 10) = inr r /\
    id_timestamp (validation_id r) = 10%nat /\ start_time r = 11%nat /\
    end_time r = Some 15%nat /\ overall_status r <> PENDING.
Proof.
  assert (exists r,
    outcome (ComprehensiveValidator.validate
               (ComprehensiveValidator.__init__ with_key STRICT "lead")
               (VDict lead_001)) (ticking 10) = inr r) as [r Hr]
    by (vm_compute; eexists; reflexivity).
  exists r. split; [exact Hr|].
  destruct (X4_report_structure _ _ _ _ Hr)
    as (r1 & r2 & r3 & _ & _ & _ & Hid & Hst & _ & _ & _ & He & _ & _ & Hp & _).
  repeat split; assumption.
Defined.

(** On a clock that stands still the six readings of a report are equal: no
    timestamp is later than another. *)
Example stopped_clock_report :
  match outcome (ComprehensiveValidator.validate
                   (ComprehensiveValidator.__init__ with_key STRICT "lead")
                   (VDict lead_001)) (stopped 7) with
  | inr r =>
      id_timestamp (validation_id r) = 7%nat /\ start_time r = 7%nat /\
      map timestamp (present_results r) = [7; 7; 7]%nat /\
      end_time r = Some 7%nat
  | inl _ => False
  end.
Proof. vm_compute. repeat split. Qed.

(** ** One item against the schema *)

Lemma required_loop_app d path fields :
  forall errors,
    SchemaValidator.required_loop d path fields errors =
    errors ++ SchemaValidator.required_loop d path fields [].
Proof.
  induction fields as [|f rest IH]; intros errs;
    cbn [SchemaValidator.required_loop].
  - rewrite app_nil_r. reflexivity.
  - destruct (d !! f) as [v|]; [destruct (is_none_or_empty_str v)|];
      try apply IH;
      rewrite (IH (errs ++ _)), (IH ([] ++ _)), <- !app_assoc; reflexivity.
Qed.

Lemma required_loop_length d path fields :
  length (SchemaValidator.required_loop d path fields []) =
  length (List.filter (fun f => negb (field_filled d f)) fields).
Proof.
  induction fields as [|f rest IH]; [reflexivity|].
  cbn [SchemaValidator.required_loop List.filter]. unfold field_filled at 1.
  destruct (d !! f) as [v|]; [destruct (is_none_or_empty_str v)|];
    cbn [negb];
    rewrite required_loop_app, length_app, IH; reflexivity.
Qed.

Lemma filter_none_iff {A} (p : A -> bool) (l : list A) :
  length (List.filter p l) = 0%nat <-> Forall (fun x => p x = false) l.
Proof.
  induction l as [|x l IH]; simpl.
  - split; [constructor|reflexivity].
  - destruct (p x) eqn:E; simpl.
    + split; [discriminate|]. intros H. apply Forall_cons in H as [H _].
      congruence.
    + rewrite IH. split; [intros H; constructor; assumption|].
      intros H. apply Forall_cons in H as [_ H]. exact H.
Qed.

(** X5. An item produces zero Stage 1 errors exactly when it is a record in
    which every required field is present and neither [None] nor the empty
    string.  A record produces one error for each required field that is
    missing or empty, and an item that is not a record produces one error. *)
Theorem X5_item_errors :
  forall (self : SchemaValidator.t) (item : pyval) (path : string),
    (SchemaValidator._validate_item self item path = [] <->
       exists d, item = VDict d /\
         Forall (fun f => field_filled d f = true) (required_fields self)) /\
    (forall d, item = VDict d ->
       length (SchemaValidator._validate_item self item path) =
       length (List.filter (fun f => negb (field_filled d f))
                 (required_fields self))) /\
    ((forall d, item <> VDict d) ->
       length (SchemaValidator._validate_item self item path) = 1%nat).
Proof.
  intros self item path. split; [|split].
  - split.
    + intros H. destruct item as [| | | | | |d]; try discriminate.
      exists d. split; [reflexivity|].
      cbn [SchemaValidator._validate_item] in H.
      apply (f_equal length) in H. rewrite required_loop_length in H.
      apply filter_none_iff in H. fold (required_fields self) in H.
      eapply Forall_impl; [exact H|]. intros f Hf. cbv beta in Hf.
      apply negb_false_iff in Hf. exact Hf.
    + intros (d & -> & H). cbn [SchemaValidator._validate_item].
      apply length_zero_iff_nil. rewrite required_loop_length.
      apply filter_none_iff. fold (required_fields self).
      eapply Forall_impl; [exact H|]. intros f Hf. cbv beta.
      rewrite Hf. reflexivity.
  - intros d ->. cbn [SchemaValidator._validate_item].
    apply required_loop_length.
  - intros Hnd. destruct item; try reflexivity.
    exfalso. eapply Hnd. reflexivity.
Qed.

Lemma required_loop_insert (d : gmap string pyval) k v path fields :
  k ∉ fields ->
  forall errors,
    SchemaValidator.required_loop (<[k := v]> d) path fields errors =
    SchemaValidator.required_loop d path fields errors.
Proof.
  induction fields as [|f rest IH]; intros Hk errs; [reflexivity|].
  apply not_elem_of_cons in Hk as [Hne Hk].
  cbn [SchemaValidator.required_loop].
  rewrite lookup_insert_ne by exact Hne.
  destruct (d !! f) as [w|]; [destruct (is_none_or_empty_str w)|];
    apply IH; exact Hk.
Qed.

(** X12. Stage 1 reads the required fields only: giving a record a value for
    a field that is not required, whether new or already present, leaves
    the errors of the record unchanged. *)
Theorem X12_other_fields_ignored :
  forall (self : SchemaValidator.t) (d : gmap string pyval) (k : string)
         (v : pyval) (path : string),
    k ∉ required_fields self ->
    SchemaValidator._validate_item self (VDict (<[k := v]> d)) path =
    SchemaValidator._validate_item self (VDict d) path.
Proof.
  intros self d k v path Hk. cbn [SchemaValidator._validate_item].
  apply required_loop_insert. exact Hk.
Qed.

Lemma X12_witness :
  SchemaValidator._validate_item (SchemaValidator.__init__ "lead")
    (VDict (<["price" := VNone]> lead_001)) "item[0]" =
  SchemaValidator._validate_item (SchemaValidator.__init__ "lead")
    (VDict lead_001) "item[0]".
Proof.
  apply (X12_other_fields_ignored (SchemaValidator.__init__ "lead")).
  intros H. apply list_elem_of_In in H. vm_compute in H.
  repeat (destruct H as [H|H]; [discriminate|]). exact H.
Defined.

(** ** The credential check *)

(** X6. Without a non-empty GEMINI_API_KEY in the environment no report is
    PASSED: Stage 3 scores at most 0.5 and is WARNING or FAILED.  With the
    key, Stage 3 scores at least 0.5 and is never FAILED. *)
Theorem X6_credential_gate :
  forall (environ : gmap string string) (level : ValidationLevel)
         (data_type : string) (data : pyval) (c : clock)
         (r : TripleValidationReport),
    outcome (ComprehensiveValidator.validate
               (ComprehensiveValidator.__init__ environ level data_type) data) c
      = inr r ->
    exists r3,
      step3_result r = Some r3 /\
      (ExternalVerifier.configured (environ !! "GEMINI_API_KEY") = false ->
         status r3 <> PASSED /\ overall_status r <> PASSED /\
         (score r3 <= 1 # 2)%Q) /\
      (ExternalVerifier.configured (environ !! "GEMINI_API_KEY") = true ->
         status r3 <> FAILED /\ (1 # 2 <= score r3)%Q).
Proof.
  intros environ level dt data c r H. apply outcome_inr in H as [c' H].
  apply validate_shape in H as (r1 & r2 & r3 & H1 & H2 & H3 & Hall & -> & _).
  stage_facts H1 H2 H3 Hall.
  cbn [ComprehensiveValidator.__init__ ComprehensiveValidator.external_verifier
       ExternalVerifier.__init__ ExternalVerifier.gemini_api_key] in Hst3, Hsc3.
  set (v := ComprehensiveValidator.__init__ environ level dt) in *.
  destruct (finalised_fields (entering v data c r1 r2 r3) r1 r2 r3
              eq_refl eq_refl eq_refl (later 5 c))
    as (_ & _ & _ & _ & _ & F3 & _).
  exists r3. split; [exact F3|].
  rewrite (finalised_status (entering v data c r1 r2 r3) r1 r2 r3
             eq_refl eq_refl eq_refl).
  rewrite Hsc3.
  split; intros E; rewrite E in Hst3; rewrite E.
  - cbn [andb orb] in Hst3.
    assert (Hs : status r3 <> PASSED)
      by (rewrite Hst3; clear; destruct (Qle_bool _ _); discriminate).
    split; [exact Hs|]. split.
    + cbn [forallb]. rewrite (bool_decide_eq_false_2 _ Hs), !andb_false_r.
      destruct (existsb _ _); discriminate.
    + clear. destruct (Qle_bool _ _); q_closed.
  - cbn [andb orb] in Hst3. split.
    + rewrite Hst3. clear. destruct (Qle_bool _ _); discriminate.
    + clear. destruct (Qle_bool _ _); q_closed.
Qed.

(** With an empty environment the record of [main] is not PASSED. *)
Lemma X6_witness :
  exists r,
    outcome (ComprehensiveValidator.validate
               (ComprehensiveValidator.__init__ ∅ STRICT "lead")
               (VDict lead_001)) (ticking 0) = inr r /\
    overall_status r <> PASSED.
Proof.
  assert (exists r,
    outcome (ComprehensiveValidator.validate
               (ComprehensiveValidator.__init__ ∅ STRICT "lead")
               (VDict lead_001)) (ticking 0) = inr r) as [r Hr]
    by (vm_compute; eexists; reflexivity).
  exists r. split; [exact Hr|].
  destruct (X6_credential_gate _ _ _ _ _ _ Hr) as (r3 & _ & Hno & _).
  apply Hno. reflexivity.
Defined.

(** ** Stage 2 and the exceptions *)

Lemma ratio_ge_8_10 m t :
  (0 < t)%nat ->
  Qle_bool (8 # 10) (ratio_of m t) = true <-> (8 * t <= 10 * m)%nat.
Proof.
  intros Ht.
  assert (Hpos : (0 < inject_Z (Z.of_nat t))%Q) by (unfold Qlt; simpl; lia).
  rewrite Qle_bool_iff. split.
  - intros H.
    assert (H' : ((8 # 10) * inject_Z (Z.of_nat t)
                  <= ratio_of m t * inject_Z (Z.of_nat t))%Q)
      by (apply Qmult_le_compat_r; [exact H|apply Qlt_le_weak, Hpos]).
    rewrite (ratio_of_mult m t Ht) in H'.
    unfold Qle in H'. simpl in H'. lia.
  - intros H. unfold ratio_of. apply Qle_shift_div_l; [exact Hpos|].
    unfold Qle. simpl. lia.
Qed.

(** X7. When Stage 2 returns, it has made two checks for each record among
    the items and none for the other items: with n records and m matches,
    its counters are m, 2n - m and 2n, its score is m / 2n (1 when there is
    no record) and equals its confidence; its status is PASSED exactly when
    m = 2n, WARNING exactly when m < 2n and 8/10 <= m/2n, which needs at
    least three records, and FAILED exactly when m/2n < 8/10. *)
Theorem X7_cross_reference_result :
  forall (data : pyval) (c : clock) (r : ValidationResult),
    outcome (CrossReferenceValidator.validate data) c = inr r ->
    let n := length (dict_items (items_of data)) in
    let m := matches_of (dict_items (items_of data)) in
    (m <= 2 * n)%nat /\
    details r = {[ "matches" := VInt (Z.of_nat m);
                   "mismatches" := VInt (Z.of_nat (2 * n - m));
                   "total_checks" := VInt (Z.of_nat (2 * n)) ]} /\
    (score r * inject_Z (Z.of_nat (2 * n)) == inject_Z (Z.of_nat m))%Q /\
    (n = 0%nat -> score r = 1%Q) /\
    confidence r = score r /\
    (status r = PASSED <-> m = (2 * n)%nat) /\
    (status r = WARNING <-> (m < 2 * n /\ 16 * n <= 10 * m)%nat) /\
    (status r = FAILED <-> (10 * m < 16 * n)%nat) /\
    (status r = WARNING -> (3 <= n)%nat).
Proof.
  intros data c r H n m. apply outcome_inr in H as [c' H].
  destruct (no_len_dec (items_of data)) as [Hall|Hex].
  2:{ destruct (stage2_run_raises data c Hex) as (e & Hm & _). congruence. }
  destruct (stage2_run_returns data c Hall)
    as (r' & Hr & _ & Hsc & Hcf & Hst & Hd & _).
  assert (r' = r) by congruence. subst r'. fold n m in Hsc, Hst, Hd.
  assert (Hle : (m <= 2 * n)%nat) by apply matches_of_le.
  split; [exact Hle|]. split; [exact Hd|].
  assert (Hw : (0 < 2 * n)%nat ->
               Qle_bool (8 # 10) (score r) = true <-> (16 * n <= 10 * m)%nat).
  { intros Hn. rewrite Hsc.
    destruct (0 <? 2 * n)%nat eqn:E; [|apply Nat.ltb_ge in E; lia].
    rewrite (ratio_ge_8_10 m (2 * n) Hn). lia. }
  split.
  { rewrite Hsc. destruct (0 <? 2 * n)%nat eqn:E.
    - apply ratio_of_mult. apply Nat.ltb_lt. exact E.
    - apply Nat.ltb_ge in E. assert (n = 0)%nat as Hn by lia.
      assert (m = 0)%nat as -> by lia. rewrite Hn. reflexivity. }
  split.
  { intros Hn. rewrite Hsc, Hn. reflexivity. }
  split; [exact Hcf|].
  destruct (2 * n - m =? 0)%nat eqn:E0.
  - apply Nat.eqb_eq in E0. rewrite Hst.
    repeat split; intros; try discriminate; lia.
  - apply Nat.eqb_neq in E0. assert (Hn : (0 < 2 * n)%nat) by lia.
    specialize (Hw Hn). rewrite Hst.
    destruct (Qle_bool (8 # 10) (score r)) eqn:E8.
    + assert (16 * n <= 10 * m)%nat by (apply Hw; reflexivity).
      repeat split; intros; try discriminate; lia.
    + assert (~ (16 * n <= 10 * m)%nat)
        by (intros X; apply Hw in X; discriminate).
      repeat split; intros; try discriminate; lia.
Qed.

(** Three records of which one lacks its identifier: five matches out of
    six checks, hence WARNING. *)
Lemma X7_witness :
  exists r,
    outcome (CrossReferenceValidator.validate
               (VList [VDict lead_001; VDict lead_001; VDict zero_price_record])) (ticking 0)
      = inr r /\
    status r = WARNING.
Proof.
  assert (exists r,
    outcome (CrossReferenceValidator.validate
               (VList [VDict lead_001; VDict lead_001; VDict zero_price_record])) (ticking 0)
      = inr r) as [r Hr] by (vm_compute; eexists; reflexivity).
  exists r. split; [exact Hr|].
  apply (X7_cross_reference_result _ _ _ Hr). vm_compute. split; lia.
Defined.

(** X8. On data nested at most 100 deep, which [json.dumps] writes without
    exhausting the stack, [validate] returns a report exactly when no
    [int] of the data is too long for [json.dumps] and no record among the
    items has an 'id' that is a number other than zero or the boolean
    [True], nor a price and an estimated value whose division overflows.
    Otherwise it raises: the ValueError of [json.dumps] whenever an [int] is
    too long, and else the TypeError of [len] on such an 'id' or the
    OverflowError of such a division.  It raises nothing else. *)
Theorem X8_validate_raises_iff :
  forall (self : ComprehensiveValidator.t) (data : pyval) (c : clock),
    (nesting data <= 100)%nat ->
    let records := dict_items (items_of data) in
    ((exists r, outcome (ComprehensiveValidator.validate self data) c = inr r) <->
     has_long_int data = false /\
     Forall (fun d => id_has_no_len d = false /\ division_overflows d = false)
       records) /\
    (has_long_int data = true ->
     outcome (ComprehensiveValidator.validate self data) c
     = inl (ValueError long_int_message)) /\
    (forall e, outcome (ComprehensiveValidator.validate self data) c = inl e ->
       (e = ValueError long_int_message /\ has_long_int data = true) \/
       (exists msg, e = TypeError msg /\ has_long_int data = false /\
          Exists (fun d => id_has_no_len d = true) records) \/
       (exists msg, e = OverflowError msg /\ has_long_int data = false /\
          Exists (fun d => division_overflows d = true) records)).
Proof.
  intros self data c _ records. unfold records.
  assert (Hexcl :
    Forall (fun d => id_has_no_len d = false /\ division_overflows d = false)
      (dict_items (items_of data)) ->
    forall p : gmap string pyval -> bool,
      (forall d, p d = true ->
                 id_has_no_len d = true \/ division_overflows d = true) ->
      Exists (fun d => p d = true) (dict_items (items_of data)) -> False).
  { intros Hall p Hp Hex. apply Exists_exists in Hex as (d & Hin & Hd).
    rewrite Forall_forall in Hall. destruct (Hall d Hin) as [H1 H2].
    destruct (Hp d Hd); congruence. }
  destruct (ComprehensiveValidator.validate self data c) as [[e|r] c'] eqn:E.
  - pose proof (validate_raises_shape _ _ _ _ _ E)
      as [[Hlong ->]|(Hlong & _ & Hkind)];
      unfold outcome; rewrite E; cbn [fst]; split; [|split| |split].
    + split; [intros [r Hr]; discriminate|]. intros [? _]. congruence.
    + intros _. reflexivity.
    + intros e [= <-]. left. split; [reflexivity|exact Hlong].
    + split; [intros [r Hr]; discriminate|]. intros [_ Hall]. exfalso.
      destruct Hkind as [(msg & _ & Hex)|(msg & _ & Hex)].
      * apply (Hexcl Hall id_has_no_len); [tauto|exact Hex].
      * apply (Hexcl Hall division_overflows); [tauto|exact Hex].
    + intros H. congruence.
    + intros e' [= <-]. right.
      destruct Hkind as [(msg & -> & Hex)|(msg & -> & Hex)];
        [left|right]; exists msg; repeat split; assumption.
  - pose proof (validate_shape _ _ _ _ _ E)
      as (r1 & r2 & r3 & _ & _ & _ & Hall & _ & _ & Hlong).
    unfold outcome. rewrite E. cbn [fst]. split; [|split].
    + split; [intros _; split; assumption|]. intros _. eauto.
    + intros H. congruence.
    + intros e He. discriminate.
Qed.

(** The record that holds an [int] of 4301 digits is nested one deep, and
    its validation raises the ValueError of [json.dumps]. *)
Lemma X8_witness :
  (nesting (VDict long_int_record) <= 100)%nat /\
  outcome (ComprehensiveValidator.validate
             (ComprehensiveValidator.__init__ with_key STRICT "lead")
             (VDict long_int_record)) (ticking 0)
  = inl (ValueError long_int_message).
Proof.
  assert (Hn : (nesting (VDict long_int_record) <= 100)%nat)
    by (vm_compute; lia).
  split; [exact Hn|].
  apply (X8_validate_raises_iff
           (ComprehensiveValidator.__init__ with_key STRICT "lead")
           (VDict long_int_record) (ticking 0) Hn).
  vm_compute. reflexivity.
Defined.

(** A record whose price is beyond the range of the floats: its validation
    raises the OverflowError of the division. *)
Example validate_raises_overflow :
  outcome (ComprehensiveValidator.validate
             (ComprehensiveValidator.__init__ with_key STRICT "lead")
             (VDict huge_price)) (ticking 0)
  = inl (OverflowError "int too large to convert to float").
Proof. vm_compute. reflexivity. Qed.

(** X9. The identifier format check accepts a string, a list or a
    dictionary exactly when its length is between 1 and 256; it rejects
    without raising every value that is false ([None], [False], zero, the
    empty string); on a number other than zero and on [True] it raises a
    TypeError. *)
Theorem X9_id_format :
  forall (v : pyval) (c : clock),
    (forall n, value_len v = Some n ->
       outcome (CrossReferenceValidator._validate_id_format v) c
       = inr ((1 <=? n)%nat && (n <=? 256)%nat)) /\
    (truthy v = false ->
       outcome (CrossReferenceValidator._validate_id_format v) c = inr false) /\
    (value_len v = None -> truthy v = true ->
       is_int_or_float v = true /\
       outcome (CrossReferenceValidator._validate_id_format v) c
       = inl (TypeError ("object of type '" +:+ type_name v +:+ "' has no len()"))).
Proof.
  intros v c. unfold outcome. rewrite validate_id_format_cases.
  split; [|split].
  - intros n ->. reflexivity.
  - intros T. destruct (value_len v) as [n|] eqn:E.
    + rewrite (value_len_truthy v n E) in T.
      destruct n; [reflexivity|discriminate].
    + rewrite T. reflexivity.
  - intros E T. rewrite E, T. split; [|reflexivity].
    apply value_len_None in E as [->|E]; [discriminate|exact E].
Qed.

(** ** Schema errors and the overall status *)

Lemma filter_no_errors_lt (l : list (list string)) :
  concat l <> [] -> (length (List.filter no_errors l) < length l)%nat.
Proof.
  induction l as [|es l IH]; [intros H; contradiction|].
  intros H. destruct es as [|e es]; cbn [List.filter no_errors length].
  - cbn [concat app] in H. specialize (IH H). lia.
  - pose proof (filter_length_le no_errors l). lia.
Qed.

Lemma ratio_of_lt_1 n m : (n < m)%nat -> (ratio_of n m < 1)%Q.
Proof.
  intros H. unfold ratio_of. apply Qlt_shift_div_r.
  - unfold Qlt. simpl. lia.
  - unfold Qlt. simpl. lia.
Qed.

(** X11. When Stage 1 finds an error in any item, the report that
    [validate] returns is FAILED whatever the other stages say, and its
    first stage is FAILED with a score below 1. *)
Theorem X11_schema_error_fails :
  forall (self : ComprehensiveValidator.t) (data : pyval) (c : clock)
         (r : TripleValidationReport),
    outcome (ComprehensiveValidator.validate self data) c = inr r ->
    concat (errors_from (ComprehensiveValidator.schema_validator self) 0
              (items_of data)) <> [] ->
    overall_status r = FAILED /\
    exists r1,
      step1_result r = Some r1 /\ status r1 = FAILED /\
      errors r1 <> [] /\ (score r1 < 1)%Q.
Proof.
  intros self data c r H Herr. apply outcome_inr in H as [c' H].
  apply validate_shape in H as (r1 & r2 & r3 & H1 & H2 & H3 & Hall & -> & _).
  stage_facts H1 H2 H3 Hall.
  rewrite <- He1 in Herr.
  assert (Hs1 : status r1 = FAILED).
  { rewrite Hst1. destruct (errors r1); [contradiction|reflexivity]. }
  split.
  - rewrite (finalised_status (entering self data c r1 r2 r3) r1 r2 r3
               eq_refl eq_refl eq_refl).
    cbn [forallb existsb]. rewrite Hs1. reflexivity.
  - destruct (finalised_fields (entering self data c r1 r2 r3) r1 r2 r3
                eq_refl eq_refl eq_refl (later 5 c)) as (_ & _ & _ & F1 & _).
    exists r1. split; [exact F1|]. split; [exact Hs1|]. split; [exact Herr|].
    rewrite He1 in Herr. apply filter_no_errors_lt in Herr.
    rewrite errors_from_length in Herr.
    fold (validated_items (ComprehensiveValidator.schema_validator self)
            (items_of data)) in Herr.
    rewrite Hsc1.
    destruct (0 <? length (items_of data))%nat eqn:E.
    + apply ratio_of_lt_1. exact Herr.
    + reflexivity.
Qed.

(** A number among the items is a schema error and fails the report. *)
Lemma X11_witness :
  exists r,
    outcome (ComprehensiveValidator.validate
               (ComprehensiveValidator.__init__ with_key STRICT "lead")
               (VList [VDict lead_001; VInt 3])) (ticking 0) = inr r /\
    overall_status r = FAILED.
Proof.
  assert (exists r,
    outcome (ComprehensiveValidator.validate
               (ComprehensiveValidator.__init__ with_key STRICT "lead")
               (VList [VDict lead_001; VInt 3])) (ticking 0) = inr r) as [r Hr]
    by (vm_compute; eexists; reflexivity).
  exists r. split; [exact Hr|].
  apply (X11_schema_error_fails _ _ _ _ Hr). vm_compute. discriminate.
Defined.

(** ** The summary of a batch *)

Lemma validate_not_pending (self : ComprehensiveValidator.t) (data : pyval)
    c r :
  outcome (ComprehensiveValidator.validate self data) c = inr r ->
  overall_status r <> PENDING.
Proof.
  intros H. apply outcome_inr in H as [c' H].
  apply validate_shape in H as (r1 & r2 & r3 & _ & _ & _ & _ & -> & _).
  rewrite (finalised_status (entering self data c r1 r2 r3) r1 r2 r3
             eq_refl eq_refl eq_refl).
  destruct (forallb _ _); [discriminate|].
  destruct (existsb _ _); discriminate.
Qed.

Lemma count_status_partition (reports : list TripleValidationReport) :
  Forall (fun r => overall_status r <> PENDING) reports ->
  (count_status PASSED reports + count_status FAILED reports
   + count_status WARNING reports)%nat = length reports.
Proof.
  unfold count_status. induction reports as [|r rs IH]; intros H;
    [reflexivity|].
  apply Forall_cons in H as [Hr H]. specialize (IH H).
  cbn [List.filter].
  destruct (overall_status r); try contradiction;
    repeat case_bool_decide; try congruence; cbn [length]; lia.
Qed.

(** X10. The summary of a batch of N records has the five entries total,
    passed, failed, pass_rate and reports; total is N, passed and failed
    count the PASSED and the FAILED reports, every other report is WARNING,
    and pass_rate is passed / N, or the integer 0 for the empty batch. *)
Theorem X10_summary_counts :
  forall (digest : pyval -> string) (environ : gmap string string)
         (sched : list nat) (data_list : list pyval) (c : clock)
         (summary : gmap string pyval),
    outcome (validate_all_intelligence digest environ sched data_list) c
      = inr summary ->
    exists reports,
      summary =
        {[ "total" := VInt (Z.of_nat (length data_list));
           "passed" := VInt (Z.of_nat (count_status PASSED reports));
           "failed" := VInt (Z.of_nat (count_status FAILED reports));
           "pass_rate" :=
             match data_list with
             | [] => VInt 0
             | _ => VFloat (ratio_of (count_status PASSED reports)
                              (length data_list))
             end;
           "reports" :=
             VList (map (fun r => VDict (TripleValidationReport.to_dict digest r))
                      reports) ]} /\
      length reports = length data_list /\
      (count_status PASSED reports + count_status FAILED reports
       + count_status WARNING reports)%nat = length data_list.
Proof.
  intros digest environ sched data_list c summary H.
  unfold validate_all_intelligence in H. rewrite outcome_bind in H.
  destruct (ComprehensiveValidator.validate_batch sched _ data_list c)
    as [[e|reports] c'] eqn:E; [discriminate|].
  rewrite outcome_ret in H. injection H as <-.
  unfold ComprehensiveValidator.validate_batch in E.
  apply gather_ordered in E as [Hlen Hprod]. rewrite length_map in Hlen.
  exists reports. split; [|split; [exact Hlen|]].
  - rewrite Hlen. destruct reports, data_list; try discriminate; reflexivity.
  - rewrite <- Hlen. apply count_status_partition.
    apply Forall_lookup. intros i r Hr.
    destruct (Hprod i r Hr) as (task & ci & Ht & Hout).
    change (map ?f data_list) with (f <$> data_list) in Ht.
    rewrite list_lookup_fmap in Ht.
    destruct (data_list !! i) as [item|]; [|discriminate].
    injection Ht as <-. eapply validate_not_pending. exact Hout.
Qed.

(** A batch of two records, one PASSED and one FAILED. *)
Lemma X10_witness :
  exists summary,
    outcome (validate_all_intelligence (fun _ => "00000000") with_key [0; 1]
               [VDict lead_001; VDict zero_price_record]) (ticking 0) = inr summary /\
    summary !! "total" = Some (VInt 2).
Proof.
  assert (exists summary,
    outcome (validate_all_intelligence (fun _ => "00000000") with_key [0; 1]
               [VDict lead_001; VDict zero_price_record]) (ticking 0) = inr summary)
    as [summary Hs].
  { unfold validate_all_intelligence. rewrite outcome_bind.
    destruct (batch_returns [0; 1]
                (ComprehensiveValidator.__init__ with_key STRICT "lead")
                [VDict lead_001; VDict zero_price_record] (ticking 0))
      as (reports & H & _).
    - reflexivity.
    - intros item Hin. apply list_elem_of_In in Hin.
      destruct Hin as [<-|[<-|[]]];
        eapply (validate_returns_everywhere _ _ (ticking 0));
        vm_compute; reflexivity.
    - apply outcome_inr in H as [c' H]. rewrite H. eexists. reflexivity. }
  exists summary. split; [exact Hs|].
  destruct (X10_summary_counts _ _ _ _ _ _ Hs) as (reports & -> & _).
  reflexivity.
Defined.

(** ** Empty inputs *)

(** X13. On the empty list [validate] returns a report in which Stage 1 is
    PASSED with score 0 and confidence 1, Stage 2 is PASSED with score 1,
    and Stage 3 fails its plausibility check: the report is WARNING with
    overall score 0.475 when the API key is set, and FAILED with overall
    score 0.35 when it is not. *)
Theorem X13_empty_list_report :
  forall (environ : gmap string string) (level : ValidationLevel)
         (data_type : string) (c : clock),
    let key := ExternalVerifier.configured (environ !! "GEMINI_API_KEY") in
    exists r r1 r2 r3,
      outcome (ComprehensiveValidator.validate
                 (ComprehensiveValidator.__init__ environ level data_type)
                 (VList [])) c = inr r /\
      step1_result r = Some r1 /\ step2_result r = Some r2 /\
      step3_result r = Some r3 /\
      status r1 = PASSED /\ score r1 = 0%Q /\ confidence r1 = 1%Q /\
      status r2 = PASSED /\ score r2 = 1%Q /\
      status r3 = (if key then WARNING else FAILED) /\
      errors r3 = (if key then ["Only 0/0 items valid"]
                   else ["API key not configured"; "Only 0/0 items valid"]) /\
      overall_status r = (if key then WARNING else FAILED) /\
      (overall_score r == if key then 475 # 1000 else 35 # 100)%Q.
Proof.
  intros environ level dt c key. unfold key.
  unfold outcome, ComprehensiveValidator.validate,
    ComprehensiveValidator._generate_validation_id, json_dumps,
    SchemaValidator.validate, CrossReferenceValidator.validate,
    ExternalVerifier.validate.
  cbn [ComprehensiveValidator.__init__ ComprehensiveValidator.external_verifier
       ExternalVerifier.__init__ ExternalVerifier.gemini_api_key items_of
       has_long_int existsb
       SchemaValidator.validate_loop CrossReferenceValidator.validate_loop].
  destruct (ExternalVerifier.configured (environ !! "GEMINI_API_KEY"));
    (do 4 eexists; split; [reflexivity|]);
    cbn; repeat split.
Qed.

Lemma run_tasks_no_task {A} (sched : list nat) (c : clock) :
  run_tasks (@nil (run A)) sched [] c = (inr [], c).
Proof.
  induction sched as [|i rest IH]; [reflexivity|].
  cbn [run_tasks]. rewrite lookup_nil. exact IH.
Qed.

(** X14. The empty batch gives, under every schedule and without reading
    the clock, the summary with total, passed and failed 0, pass_rate the
    integer 0 and no report. *)
Theorem X14_empty_batch_summary :
  forall (digest : pyval -> string) (environ : gmap string string)
         (sched : list nat) (c : clock),
    validate_all_intelligence digest environ sched [] c =
    (inr {[ "total" := VInt 0; "passed" := VInt 0; "failed" := VInt 0;
            "pass_rate" := VInt 0; "reports" := VList [] ]}, c).
Proof.
  intros digest environ sched c.
  unfold validate_all_intelligence, ComprehensiveValidator.validate_batch,
    gather.
  cbn [map length replicate]. unfold mbind, run_bind.
  rewrite run_tasks_no_task. reflexivity.
Qed.

(** ** One record from end to end *)

Lemma record_clean_iff (self : SchemaValidator.t) (d : gmap string pyval) path :
  SchemaValidator._validate_item self (VDict d) path = [] <->
  Forall (fun f => field_filled d f = true) (required_fields self).
Proof.
  cbn [SchemaValidator._validate_item]. fold (required_fields self).
  rewrite <- length_zero_iff_nil, required_loop_length, filter_none_iff.
  split; intros H; (eapply Forall_impl; [exact H|]); intros f Hf; cbv beta in *.
  - apply negb_false_iff in Hf. exact Hf.
  - rewrite Hf. reflexivity.
Qed.

Lemma forallb_passed_iff (r1 r2 r3 : ValidationResult) :
  (if forallb (fun r => bool_decide (status r = PASSED)) [r1; r2; r3]
   then PASSED
   else if existsb (fun r => bool_decide (status r = FAILED)) [r1; r2; r3]
        then FAILED else WARNING) = PASSED <->
  status r1 = PASSED /\ status r2 = PASSED /\ status r3 = PASSED.
Proof.
  cbn [forallb existsb].
  destruct (status r1), (status r2), (status r3);
    repeat case_bool_decide; try congruence; cbn;
    split; try discriminate; try tauto;
    intros (? & ? & ?); congruence.
Qed.

(** X15. The report of a single record is PASSED exactly when every
    required field of its schema is present and neither [None] nor empty,
    its 'id' is true and of length at most 256, its price and estimated
    value are consistent, the API key is set, and none of its string values
    holds a placeholder marker. *)
Theorem X15_single_record_passes :
  forall (environ : gmap string string) (level : ValidationLevel)
         (data_type : string) (d : gmap string pyval) (c : clock)
         (r : TripleValidationReport),
    outcome (ComprehensiveValidator.validate
               (ComprehensiveValidator.__init__ environ level data_type)
               (VDict d)) c = inr r ->
    (overall_status r = PASSED <->
       Forall (fun f => field_filled d f = true)
         (required_fields (SchemaValidator.__init__ data_type)) /\
       id_ok d = true /\
       CrossReferenceValidator._check_internal_consistency d = inr true /\
       ExternalVerifier.configured (environ !! "GEMINI_API_KEY") = true /\
       ExternalVerifier._is_reasonable_data d = true).
Proof.
  intros environ level dt d c r H. apply outcome_inr in H as [c' H].
  apply validate_shape in H as (r1 & r2 & r3 & H1 & H2 & H3 & Hall & -> & _).
  stage_facts H1 H2 H3 Hall.
  set (v := ComprehensiveValidator.__init__ environ level dt) in *.
  rewrite (finalised_status (entering v (VDict d) c r1 r2 r3) r1 r2 r3
             eq_refl eq_refl eq_refl).
  rewrite forallb_passed_iff.
  (* Stage 1 *)
  assert (S1 : status r1 = PASSED <->
               Forall (fun f => field_filled d f = true)
                 (required_fields (SchemaValidator.__init__ dt))).
  { rewrite <- (record_clean_iff (SchemaValidator.__init__ dt) d (item_path 0)).
    rewrite Hst1, He1. cbn [items_of errors_from concat].
    rewrite app_nil_r. unfold item_errors.
    change (ComprehensiveValidator.schema_validator v)
      with (SchemaValidator.__init__ dt).
    destruct (SchemaValidator._validate_item _ _ _);
      split; intros; (reflexivity || discriminate). }
  (* Stage 2 *)
  assert (S2 : status r2 = PASSED <->
               id_ok d = true /\
               CrossReferenceValidator._check_internal_consistency d = inr true).
  { assert (Hov : division_overflows d = false).
    { cbn [items_of dict_items omap option_bind list_omap] in Hall.
      apply Forall_cons in Hall as [[_ Hov] _]. exact Hov. }
    rewrite (proj2 (check_raises d) Hov).
    rewrite Hst2. cbn [items_of dict_items omap option_bind list_omap length].
    unfold matches_of. cbn [map sum_list]. unfold checks_passed.
    destruct (id_ok d), (consistent d);
      cbn [Nat.b2n Nat.add Nat.mul Nat.sub Nat.eqb];
      try (split; [intros _; split; reflexivity | reflexivity]);
      (split; [|intros [? ?]; discriminate]);
      clear; destruct (Qle_bool _ _); discriminate. }
  (* Stage 3 *)
  assert (S3 : status r3 = PASSED <->
               ExternalVerifier.configured (environ !! "GEMINI_API_KEY") = true /\
               ExternalVerifier._is_reasonable_data d = true).
  { rewrite Hst3.
    change (ExternalVerifier.gemini_api_key
              (ComprehensiveValidator.external_verifier v))
      with (environ !! "GEMINI_API_KEY").
    unfold valid_count.
    cbn [items_of List.filter ExternalVerifier.valid_item length].
    destruct (ExternalVerifier.configured _),
      (ExternalVerifier._is_reasonable_data d); cbn;
      split; try discriminate; try tauto; intros [? ?]; discriminate. }
  rewrite S1, S2, S3. tauto.
Qed.

(** The record of [main] is PASSED under an environment with the key. *)
Lemma X15_witness :
  exists r,
    outcome (ComprehensiveValidator.validate
               (ComprehensiveValidator.__init__ with_key STRICT "lead")
               (VDict lead_001)) (ticking 0) = inr r /\
    overall_status r = PASSED.
Proof.
  assert (exists r,
    outcome (ComprehensiveValidator.validate
               (ComprehensiveValidator.__init__ with_key STRICT "lead")
               (VDict lead_001)) (ticking 0) = inr r) as [r Hr]
    by (vm_compute; eexists; reflexivity).
  exists r. split; [exact Hr|].
  apply (X15_single_record_passes _ _ _ _ _ _ Hr).
  vm_compute. repeat split; repeat constructor.
Defined.

(** ** One record and the list that holds it *)

Lemma items_of_single (item : pyval) :
  (forall l, item <> VList l) -> items_of item = items_of (VList [item]).
Proof.
  intros H. destruct item; try reflexivity. exfalso. eapply H. reflexivity.
Qed.

(** X16. A value that is not a list is validated as the list that holds it
    alone: the two validations raise the same exception, or return reports
    with the same three stage results, the same overall status, score and
    confidence and the same times; only the content under the identifier
    differs. *)
Theorem X16_single_as_list :
  forall (self : ComprehensiveValidator.t) (item : pyval) (c : clock),
    (forall l, item <> VList l) ->
    (exists e,
       outcome (ComprehensiveValidator.validate self item) c = inl e /\
       outcome (ComprehensiveValidator.validate self (VList [item])) c = inl e) \/
    (exists r r',
       outcome (ComprehensiveValidator.validate self item) c = inr r /\
       outcome (ComprehensiveValidator.validate self (VList [item])) c = inr r' /\
       present_results r = present_results r' /\
       verdict r = verdict r' /\
       start_time r = start_time r' /\ end_time r = end_time r' /\
       id_content (validation_id r) = item /\
       id_content (validation_id r') = VList [item]).
Proof.
  intros self item c Hnl. pose proof (items_of_single item Hnl) as Hi.
  assert (E1 : SchemaValidator.validate
                 (ComprehensiveValidator.schema_validator self) item
               = SchemaValidator.validate
                   (ComprehensiveValidator.schema_validator self) (VList [item]))
    by (unfold SchemaValidator.validate; rewrite Hi; reflexivity).
  assert (E2 : CrossReferenceValidator.validate item
               = CrossReferenceValidator.validate (VList [item]))
    by (unfold CrossReferenceValidator.validate; rewrite Hi; reflexivity).
  assert (E3 : ExternalVerifier.validate
                 (ComprehensiveValidator.external_verifier self) item
               = ExternalVerifier.validate
                   (ComprehensiveValidator.external_verifier self) (VList [item]))
    by (unfold ExternalVerifier.validate; rewrite Hi; reflexivity).
  assert (E0 : has_long_int (VList [item]) = has_long_int item)
    by (cbn [has_long_int existsb]; apply orb_false_r).
  destruct (ComprehensiveValidator.validate self (VList [item]) c)
    as [[e|r'] c'] eqn:E.
  - left. exists e. unfold outcome. rewrite E. split; [|reflexivity].
    pose proof (validate_raises_shape _ _ _ _ _ E)
      as [[Hlong ->]|(Hlong & Hm & _)]; rewrite E0 in Hlong.
    + unfold ComprehensiveValidator.validate,
        ComprehensiveValidator._generate_validation_id, json_dumps.
      rewrite Hlong. reflexivity.
    + unfold ComprehensiveValidator.validate,
        ComprehensiveValidator._generate_validation_id, json_dumps.
      rewrite Hlong, E1, E2.
      destruct (stage1_run (ComprehensiveValidator.schema_validator self)
                  (VList [item]) (later 2 c)) as (r1 & Hr1 & _).
      unfold mbind, run_bind, lift, now, mret, run_ret.
      change (later 1 (later 1 c)) with (later 2 c). rewrite Hr1.
      change (later 1 (later 2 c)) with (later 3 c). rewrite Hm.
      reflexivity.
  - right.
    pose proof (validate_shape _ _ _ _ _ E)
      as (r1 & r2 & r3 & H1 & H2 & H3 & Hall & Hr' & _ & Hlong).
    rewrite E0 in Hlong.
    exists (finalised (entering self item c r1 r2 r3) (later 5 c)), r'.
    split; [|split; [unfold outcome; rewrite E; reflexivity|]].
    + unfold outcome, ComprehensiveValidator.validate,
        ComprehensiveValidator._generate_validation_id, json_dumps.
      rewrite Hlong, E1, E2, E3.
      unfold mbind, run_bind, lift, now, mret, run_ret.
      change (later 1 (later 1 c)) with (later 2 c). rewrite H1.
      rewrite H2. rewrite H3.
      change (fst (TripleValidationReport.calculate_overall
                     (entering self item c r1 r2 r3) (later 5 c))
              = inr (finalised (entering self item c r1 r2 r3) (later 5 c))).
      rewrite (calculate_overall_run (entering self item c r1 r2 r3) r1 r2 r3
                 eq_refl eq_refl eq_refl). reflexivity.
    + subst r'.
      destruct (finalised_fields (entering self item c r1 r2 r3) r1 r2 r3
                  eq_refl eq_refl eq_refl (later 5 c))
        as (Fid & _ & _ & F1 & F2 & F3 & Fs & Fe).
      destruct (finalised_fields (entering self (VList [item]) c r1 r2 r3)
                  r1 r2 r3 eq_refl eq_refl eq_refl (later 5 c))
        as (Fid' & _ & _ & F1' & F2' & F3' & Fs' & Fe').
      unfold present_results, verdict.
      rewrite F1, F2, F3, F1', F2', F3', Fs, Fs', Fe, Fe', Fid, Fid'.
      rewrite (finalised_status (entering self item c r1 r2 r3) r1 r2 r3
                 eq_refl eq_refl eq_refl).
      rewrite (finalised_status (entering self (VList [item]) c r1 r2 r3)
                 r1 r2 r3 eq_refl eq_refl eq_refl).
      destruct (finalised_scores (entering self item c r1 r2 r3) r1 r2 r3
                  eq_refl eq_refl eq_refl (later 5 c)) as [-> ->].
      destruct (finalised_scores (entering self (VList [item]) c r1 r2 r3)
                  r1 r2 r3 eq_refl eq_refl eq_refl (later 5 c)) as [-> ->].
      repeat split.
Qed.

Lemma X16_witness :
  (exists e,
     outcome (ComprehensiveValidator.validate
                (ComprehensiveValidator.__init__ with_key STRICT "lead")
                (VDict numbered)) (ticking 0) = inl e /\
     outcome (ComprehensiveValidator.validate
                (ComprehensiveValidator.__init__ with_key STRICT "lead")
                (VList [VDict numbered])) (ticking 0) = inl e) \/
  (exists r r',
     outcome (ComprehensiveValidator.validate
                (ComprehensiveValidator.__init__ with_key STRICT "lead")
                (VDict numbered)) (ticking 0) = inr r /\
     outcome (ComprehensiveValidator.validate
                (ComprehensiveValidator.__init__ with_key STRICT "lead")
                (VList [VDict numbered])) (ticking 0) = inr r' /\
     present_results r = present_results r' /\
     verdict r = verdict r' /\
     start_time r = start_time r' /\ end_time r = end_time r' /\
     id_content (validation_id r) = VDict numbered /\
     id_content (validation_id r') = VList [VDict numbered]).
Proof.
  apply (X16_single_as_list
           (ComprehensiveValidator.__init__ with_key STRICT "lead")
           (VDict numbered) (ticking 0)).
  intros l. discriminate.
Defined.

(** * Properties of the lead validation *)

(** ** Splitting at a character *)

Lemma contains_char_iff a s :
  str_contains (String a EmptyString) s = true <->
  exists pre post, s = pre +:+ String a post.
Proof. apply str_contains_iff. Qed.

Lemma contains_char_cons a ch s :
  str_contains (String a EmptyString) (String ch s) =
  Ascii.eqb ch a || str_contains (String a EmptyString) s.
Proof.
  cbn [str_contains String.prefix].
  destruct (Ascii.ascii_dec a ch) as [->|Hne].
  - rewrite Ascii.eqb_refl. destruct s; reflexivity.
  - assert (Ascii.eqb ch a = false) as ->
      by (apply Ascii.eqb_neq; congruence).
    reflexivity.
Qed.

Lemma split_char_not_nil sep s : split_char sep s <> [].
Proof.
  destruct s as [|ch s]; [discriminate|]. cbn [split_char].
  destruct (Ascii.eqb ch sep); [discriminate|].
  destruct (split_char sep s); discriminate.
Qed.

Lemma split_char_no_sep sep s :
  str_contains (String sep EmptyString) s = false -> split_char sep s = [s].
Proof.
  induction s as [|ch s IH]; [reflexivity|].
  rewrite contains_char_cons. intros H. apply orb_false_iff in H as [Hc Hs].
  cbn [split_char]. rewrite Hc, (IH Hs). reflexivity.
Qed.

Lemma last_cons_not_nil {A} (x : A) (l : list A) d :
  l <> [] -> List.last (x :: l) d = List.last l d.
Proof. destruct l; [contradiction|reflexivity]. Qed.

Lemma split_char_two sep s :
  str_contains (String sep EmptyString) s = true ->
  exists h h' t, split_char sep s = h :: h' :: t.
Proof.
  induction s as [|ch s IH]; [discriminate|].
  rewrite contains_char_cons. cbn [split_char].
  destruct (Ascii.eqb ch sep); cbn [orb].
  - intros _. destruct (split_char sep s) as [|h t] eqn:E;
      [exfalso; eapply split_char_not_nil; exact E|]. eauto.
  - intros H. destruct (IH H) as (h & h' & t & ->). eauto.
Qed.

(** The last piece of a split holds no separator, and when the string holds
    one the last piece is what follows the last separator. *)
Lemma split_last_spec sep s :
  let piece := List.last (split_char sep s) EmptyString in
  str_contains (String sep EmptyString) piece = false /\
  (str_contains (String sep EmptyString) s = false -> piece = s) /\
  (str_contains (String sep EmptyString) s = true ->
     exists pre, s = pre +:+ String sep piece).
Proof.
  induction s as [|ch s IH]; cbv zeta in *.
  - repeat split. discriminate.
  - destruct IH as (IH1 & IH2 & IH3).
    rewrite contains_char_cons. cbn [split_char].
    destruct (Ascii.eqb ch sep) eqn:Ec.
    + apply Ascii.eqb_eq in Ec. subst ch.
      rewrite (last_cons_not_nil _ _ _ (split_char_not_nil sep s)).
      split; [exact IH1|]. split; [discriminate|]. intros _.
      destruct (str_contains (String sep EmptyString) s) eqn:Es.
      * destruct (IH3 eq_refl) as [pre Hpre].
        exists (String sep pre).
        change (String sep pre +:+ ?x) with (String sep (pre +:+ x)).
        f_equal. exact Hpre.
      * rewrite (IH2 eq_refl). exists EmptyString. reflexivity.
    + cbn [orb].
      destruct (str_contains (String sep EmptyString) s) eqn:Es.
      * destruct (IH3 eq_refl) as [pre Hpre].
        destruct (split_char_two sep s Es) as (h & h' & t & Esp).
        rewrite Esp in *.
        rewrite last_cons_not_nil by discriminate.
        rewrite last_cons_not_nil in IH1, Hpre by discriminate.
        split; [exact IH1|]. split; [discriminate|]. intros _.
        exists (String ch pre).
        change (String ch pre +:+ ?x) with (String ch (pre +:+ x)).
        f_equal. exact Hpre.
      * rewrite (split_char_no_sep sep s Es). cbn [List.last].
        split; [rewrite contains_char_cons, Ec, Es; reflexivity|].
        split; [reflexivity|discriminate].
Qed.

Lemma after_last_unique sep pre :
  forall pre' a b,
    pre +:+ String sep a = pre' +:+ String sep b ->
    str_contains (String sep EmptyString) a = false ->
    str_contains (String sep EmptyString) b = false ->
    a = b.
Proof.
  induction pre as [|ch pre IH]; intros pre' a b H Ha Hb;
    destruct pre' as [|ch' pre'];
    repeat change (EmptyString +:+ ?x) with x in H;
    repeat change (String ?c ?p +:+ ?x) with (String c (p +:+ x)) in H.
  - congruence.
  - injection H as _ H. exfalso.
    assert (str_contains (String sep EmptyString) a = true)
      by (apply contains_char_iff; eauto).
    congruence.
  - injection H as _ H. exfalso.
    assert (str_contains (String sep EmptyString) b = true)
      by (apply contains_char_iff; eauto).
    congruence.
  - injection H as _ H. eapply IH; eassumption.
Qed.

Lemma is_str_iff v : is_str v = true <-> exists s, v = Some (VStr s).
Proof.
  destruct v as [[]|]; cbn; split; try discriminate; eauto;
    intros [s H]; discriminate.
Qed.

(** The order in which Step 1 tests a lead. *)
Lemma step1_cases (lead_data : gmap string pyval) :
  TripleValidation.step1_data_integrity lead_data =
  if negb (has_key lead_data "id" && has_key lead_data "name"
           && has_key lead_data "email")
  then (false, 0%Q)
  else if negb (is_str (lead_data !! "id") && is_str (lead_data !! "name")
                && is_str (lead_data !! "email"))
  then (false, 1 # 10)
  else if str_contains "@" (str_of (lead_data !! "email"))
          && str_contains "."
               (List.last (split_char at_sign (str_of (lead_data !! "email")))
                  EmptyString)
  then (true, 1%Q) else (false, 2 # 10).
Proof.
  unfold TripleValidation.step1_data_integrity. cbn [List.filter].
  destruct (has_key lead_data "id"), (has_key lead_data "name"),
    (has_key lead_data "email"); cbn [negb andb]; try reflexivity.
  destruct (is_str (lead_data !! "id")), (is_str (lead_data !! "name")),
    (is_str (lead_data !! "email")); cbn [negb andb orb]; try reflexivity.
  destruct (str_contains "@" _); cbn [negb andb orb]; [|reflexivity].
  destruct (str_contains "." _); reflexivity.
Qed.

Lemma has_key_true (d : gmap string pyval) f :
  has_key d f = true <-> exists v, d !! f = Some v.
Proof.
  unfold has_key. destruct (d !! f); split; try discriminate; eauto.
  intros [v H]. discriminate.
Qed.

Lemma has_key_false (d : gmap string pyval) f :
  has_key d f = false <-> d !! f = None.
Proof.
  unfold has_key. destruct (d !! f); split; try discriminate; reflexivity.
Qed.

Lemma email_ok_iff e :
  str_contains "@" e
  && str_contains "." (List.last (split_char at_sign e) EmptyString) = true <->
  exists local domain,
    e = local +:+ "@" +:+ domain /\
    str_contains "@" domain = false /\ str_contains "." domain = true.
Proof.
  pose proof (split_last_spec at_sign e) as (L1 & L2 & L3). cbv zeta in *.
  change (String at_sign EmptyString) with "@" in *.
  rewrite andb_true_iff. split.
  - intros [Ha Hd]. destruct (L3 Ha) as [pre Hpre].
    exists pre, (List.last (split_char at_sign e) ""). 
    split; [exact Hpre|]. split; assumption.
  - intros (l & d & He & Hd1 & Hd2).
    assert (Ha : str_contains "@" e = true)
      by (apply str_contains_iff; eauto).
    split; [exact Ha|]. destruct (L3 Ha) as [pre Hpre].
    rewrite He in Hpre at 1.
    rewrite <- (after_last_unique at_sign l pre d _ Hpre Hd1 L1). exact Hd2.
Qed.

(** ** Step 1 of the lead validation *)

Ltac lookup_clash :=
  repeat match goal with
         | H : has_key _ _ = false |- _ => apply has_key_false in H
         | H : exists _, _ |- _ => destruct H
         | H : _ /\ _ |- _ => destruct H
         end;
  congruence.

(** X17. Step 1 accepts a lead, with confidence 1, exactly when 'id', 'name'
    and 'email' are strings and the email is a text, an at-sign, and a text
    that holds a dot and no at-sign.  Otherwise it rejects: with confidence 0
    exactly when one of the three fields is missing, with confidence 0.1
    exactly when the three are present and one of them is not a string, and
    with confidence 0.2 in the remaining case. *)
Theorem X17_step1_data_integrity :
  forall (lead_data : gmap string pyval),
    let result := TripleValidation.step1_data_integrity lead_data in
    (result = (true, 1%Q) <->
       exists i n local domain,
         lead_data !! "id" = Some (VStr i) /\
         lead_data !! "name" = Some (VStr n) /\
         lead_data !! "email" = Some (VStr (local +:+ "@" +:+ domain)) /\
         str_contains "@" domain = false /\ str_contains "." domain = true) /\
    (result = (false, 0%Q) <->
       lead_data !! "id" = None \/ lead_data !! "name" = None \/
       lead_data !! "email" = None) /\
    (result = (false, 1 # 10) <->
       (exists vi vn ve,
          lead_data !! "id" = Some vi /\ lead_data !! "name" = Some vn /\
          lead_data !! "email" = Some ve) /\
       (is_str (lead_data !! "id") = false \/
        is_str (lead_data !! "name") = false \/
        is_str (lead_data !! "email") = false)) /\
    (result = (true, 1%Q) \/ result = (false, 0%Q) \/
     result = (false, 1 # 10) \/ result = (false, 2 # 10)).
Proof.
  intros lead_data result. unfold result. rewrite step1_cases.
  destruct (has_key lead_data "id") eqn:Hi, (has_key lead_data "name") eqn:Hn,
    (has_key lead_data "email") eqn:He; cbn [negb andb];
    try (split; [split; [discriminate|intros; lookup_clash]|];
         split; [split; [intros _|reflexivity];
                 repeat match goal with
                        | H : has_key _ _ = false |- _ => apply has_key_false in H
                        end; tauto|];
         split; [split; [discriminate|intros; lookup_clash]|];
         right; left; reflexivity).
  apply has_key_true in Hi as [vi Hi]. apply has_key_true in Hn as [vn Hn].
  apply has_key_true in He as [ve He].
  destruct (is_str (lead_data !! "id")) eqn:Si,
    (is_str (lead_data !! "name")) eqn:Sn,
    (is_str (lead_data !! "email")) eqn:Se; cbn [negb andb];
    try (split; [split; [discriminate|];
                 intros (i & n & l & d & Ei & En & Ee & _);
                 rewrite ?Ei, ?En, ?Ee in *; cbn [is_str] in *; congruence|];
         split; [split; [discriminate|intros [?|[?|?]]; congruence]|];
         split; [split; [intros _; split; [exists vi, vn, ve; auto|auto]|reflexivity]|];
         right; right; left; reflexivity).
  apply is_str_iff in Se as [e Ee].
  apply is_str_iff in Si as [i Ei]. apply is_str_iff in Sn as [n En].
  rewrite Ee. cbn [str_of].
  destruct (str_contains "@" e
            && str_contains "." (List.last (split_char at_sign e) "")) eqn:Eok.
  - apply email_ok_iff in Eok as (l & d & -> & Hd1 & Hd2).
    split; [split; [intros _; exists i, n, l, d; auto|reflexivity]|].
    split; [split; [discriminate|intros [?|[?|?]]; congruence]|].
    split; [split; [discriminate|intros [_ [?|[?|?]]]; congruence]|].
    left. reflexivity.
  - split.
    { split; [discriminate|].
      intros (i' & n' & l & d & _ & _ & Ee' & Hd1 & Hd2).
      assert (str_contains "@" e
              && str_contains "." (List.last (split_char at_sign e) "") = true)
        by (apply email_ok_iff; exists l, d; repeat split; congruence).
      congruence. }
    split; [split; [discriminate|intros [?|[?|?]]; congruence]|].
    split; [split; [discriminate|intros [_ [?|[?|?]]]; congruence]|].
    right; right; right. reflexivity.
Qed.

(** ** The lead validation as a whole *)

Lemma gather_two_pure {A} (sched : list nat) (a b : A) (c : clock) :
  Permutation sched (seq 0 2) ->
  exists c', gather sched [mret a; mret b] c = (inr [a; b], c').
Proof.
  intros Hp.
  destruct (gather_returns sched [mret a; mret b] c) as (rs & c' & H).
  - intros i Hi. apply (schedule_covers sched 2 Hp). exact Hi.
  - intros task Ht c0. exists (match fst (task c0) with inr r => r | inl _ => a end), c0.
    apply list_elem_of_In in Ht. destruct Ht as [<-|[<-|[]]]; reflexivity.
  - exists c'. rewrite H. apply gather_ordered in H as [Hlen Hprod].
    destruct rs as [|x [|y [|z rs]]]; try discriminate.
    destruct (Hprod 0 x eq_refl) as (t0 & c0 & [= <-] & H0).
    destruct (Hprod 1 y eq_refl) as (t1 & c1 & [= <-] & H1).
    cbn in H0, H1. congruence.
Qed.

Lemma step1_accepts_with_one (lead_data : gmap string pyval) :
  fst (TripleValidation.step1_data_integrity lead_data) = true ->
  TripleValidation.step1_data_integrity lead_data = (true, 1%Q).
Proof.
  rewrite step1_cases.
  repeat match goal with
         | |- context [if ?b then _ else _] => destruct b
         end; cbn; congruence.
Qed.

Lemma step2_confidence :
  ((0 + (9 # 10) + (95 # 100)) / inject_Z 2 == 925 # 1000)%Q.
Proof. reflexivity. Qed.

Lemma step2_outcome (sched : list nat) (lead_data : gmap string pyval) c :
  Permutation sched (seq 0 2) ->
  exists c',
    TripleValidation.step2_parallel_verification sched lead_data c =
    (inr (true, ((0 + (9 # 10) + (95 # 100)) / inject_Z 2)%Q), c').
Proof.
  intros Hp. unfold TripleValidation.step2_parallel_verification,
    TripleValidation.verify_source_1, TripleValidation.verify_source_2.
  destruct (gather_two_pure sched (true, 9 # 10) (true, 95 # 100) c Hp)
    as [c' H].
  exists c'. unfold mbind, run_bind. rewrite H. reflexivity.
Qed.

(** X18. When both sources of Step 2 complete, the lead validation returns a
    triple and does not raise.  The result is True exactly when Step 1 accepts
    the lead and the model replies with a score of at least 0.7; the message
    is then "All validation steps passed" and the confidence is the mean of
    1, 0.925 and the score, hence at least 0.875.  A lead that Step 1 rejects
    gets Step 1's confidence and the Step 1 message; a lead that Step 1
    accepts and Step 3 rejects gets the Step 3 message with the score (0 when
    the model gave none).  The Step 2 message is never returned. *)
Theorem X18_lead_validate :
  forall (sched : list nat) (reply : option Q)
         (lead_data : gmap string pyval) (c : clock),
    Permutation sched (seq 0 2) ->
    exists ok conf msg,
      outcome (TripleValidation.validate sched reply lead_data) c
        = inr (ok, conf, msg) /\
      (ok = true <->
         fst (TripleValidation.step1_data_integrity lead_data) = true /\
         exists q, reply = Some q /\ (7 # 10 <= q)%Q) /\
      (fst (TripleValidation.step1_data_integrity lead_data) = false ->
         conf = snd (TripleValidation.step1_data_integrity lead_data) /\
         msg = "Step 1: Data Integrity Check Failed") /\
      (fst (TripleValidation.step1_data_integrity lead_data) = true ->
         ok = false ->
         conf = match reply with Some q => q | None => 0%Q end /\
         msg = "Step 3: Intelligent Validation Failed") /\
      (ok = true ->
         msg = "All validation steps passed" /\ (875 # 1000 <= conf)%Q /\
         forall q, reply = Some q -> (conf == (1 + (925 # 1000) + q) / 3)%Q) /\
      msg <> "Step 2: Parallel External Verification Failed".
Proof.
  intros sched reply lead_data c Hp.
  unfold TripleValidation.validate.
  destruct (fst (TripleValidation.step1_data_integrity lead_data)) eqn:E1.
  - rewrite (step1_accepts_with_one lead_data E1). cbn [negb].
    rewrite outcome_bind.
    destruct (step2_outcome sched lead_data c Hp) as [c' ->].
    cbn [fst snd negb]. unfold TripleValidation.step3_intelligent_validation.
    destruct reply as [q|].
    + destruct (Qle_bool (7 # 10) q) eqn:Eq; cbn [negb].
      * apply Qle_bool_iff in Eq.
        eexists _, _, _. split; [reflexivity|].
        split; [split; [intros _; split; [reflexivity|eauto]|reflexivity]|].
        split; [discriminate|]. split; [discriminate|].
        split; [|discriminate].
        intros _. split; [reflexivity|]. split.
        -- apply Qle_shift_div_l; [reflexivity|]. rewrite step2_confidence. lra.
        -- intros q' [= <-]. rewrite step2_confidence. reflexivity.
      * eexists _, _, _. split; [reflexivity|].
        split.
        { split; [discriminate|]. intros [_ (q' & [= <-] & Hq)].
          apply Qle_bool_iff in Hq. congruence. }
        split; [discriminate|]. split; [intros _ _; split; reflexivity|].
        split; [discriminate|discriminate].
    + cbn [negb]. eexists _, _, _. split; [reflexivity|].
      split; [split; [discriminate|intros [_ (q' & Hq & _)]; discriminate]|].
      split; [discriminate|]. split; [intros _ _; split; reflexivity|].
      split; [discriminate|discriminate].
  - destruct (TripleValidation.step1_data_integrity lead_data) as [s1 c1].
    cbn [fst] in E1. subst s1. cbn [negb snd].
    eexists _, _, _. split; [reflexivity|].
    split; [split; [discriminate|intros [? _]; discriminate]|].
    split; [intros _; split; reflexivity|].
    split; [discriminate|]. split; [discriminate|discriminate].
Qed.

Lemma X18_witness :
  exists conf,
    outcome (TripleValidation.validate [1; 0] (Some (8 # 10)) john_doe) (ticking 0)
      = inr (true, conf, "All validation steps passed") /\
    (conf == (1 + (925 # 1000) + (8 # 10)) / 3)%Q.
Proof.
  destruct (X18_lead_validate [1; 0] (Some (8 # 10)) john_doe (ticking 0))
    as (ok & conf & msg & H & Hok & _ & _ & Hall & _).
  - apply perm_swap.
  - assert (ok = true) as ->.
    { apply Hok. split; [vm_compute; reflexivity|].
      exists (8 # 10). split; [reflexivity|]. clear. q_closed. }
    destruct (Hall eq_refl) as (-> & _ & Hconf).
    exists conf. split; [exact H|]. apply Hconf. reflexivity.
Defined.
